(** * The Vultr cloud driver: [salt/cloud/clouds/vultrpy.py]

    A shallow embedding of the driver's catalog cache, its creation
    orchestrator, its readiness probes and its destroy call, with the theorems
    that settle what the specification says about them.

    Python values are modelled by the fragment that YAML configuration and
    decoded JSON can produce.  Effects are threaded through one monad: the
    module globals [DETAILS] and [__opts__] are the state, every call to an
    external collaborator is appended to a trace, and a computation either
    falls through, executes [return], or raises.  Logging calls are left
    out: they change neither the state nor the result. *)

From Stdlib Require Import ZArith Ascii String List Bool Lia.
From stdpp Require Import base tactics option list pretty.
Import ListNotations.
Local Open Scope string_scope.
Local Open Scope Z_scope.

(** ** Python values *)

Module Py.

#[local] Set Warnings "-register-all".

Inductive pyval : Type :=
| PyNone
| PyBool (b : bool)
| PyInt (z : Z)
| PyStr (s : string)
| PyBytes (s : string)
| PyList (l : list pyval)
| PyDict (d : list (pyval * pyval)).

(** A Python [dict] keeps its items in insertion order; assignment to an
    existing key keeps the key's position. *)
Definition dict : Type := list (pyval * pyval).

Coercion PyStr : string >-> pyval.

Inductive exn : Type :=
| KeyError (k : pyval)
| IndexError
| TypeError
| ValueError
| AttributeError
| NameError (name : string)
| SaltCloudSystemExit (msg : string)
| SaltCloudConfigError (msg : string)
| TimeoutError
| ExternalError (msg : string).

(** The result of evaluating an expression: a value or a raised exception. *)
Definition result (A : Type) : Type := exn + A.
Definition ok {A} (a : A) : result A := inr a.
Definition err {A} (e : exn) : result A := inl e.

#[global] Instance result_ret : MRet result := @ok.
#[global] Instance result_bind : MBind result :=
  fun A B f r => match r with inr a => f a | inl e => inl e end.

(** [bool(v)] *)
Definition truthy (v : pyval) : bool :=
  match v with
  | PyNone => false
  | PyBool b => b
  | PyInt z => negb (z =? 0)
  | PyStr s => negb (s =? "")%string
  | PyBytes s => negb (s =? "")%string
  | PyList l => match l with [] => false | _ => true end
  | PyDict d => match d with [] => false | _ => true end
  end.

Definition is_none (v : pyval) : bool :=
  match v with PyNone => true | _ => false end.

(** [isinstance(v, bool)] *)
Definition is_bool (v : pyval) : bool :=
  match v with PyBool _ => true | _ => false end.

(** [v is True] *)
Definition is_True (v : pyval) : bool :=
  match v with PyBool true => true | _ => false end.

Definition hashable (v : pyval) : bool :=
  match v with PyList _ | PyDict _ => false | _ => true end.

Definition join (sep : string) (l : list string) : string :=
  String.concat sep l.

(** [repr(v)] and [str(v)].  Exact on [None], booleans, integers and, for
    [str], on strings; the quoting of strings nested in containers and of
    bytes does not escape special characters. *)
Fixpoint py_repr (v : pyval) : string :=
  match v with
  | PyNone => "None"
  | PyBool true => "True"
  | PyBool false => "False"
  | PyInt z => pretty z
  | PyStr s => "'" ++ s ++ "'"
  | PyBytes s => "b'" ++ s ++ "'"
  | PyList l => "[" ++ join ", " (map py_repr l) ++ "]"
  | PyDict d =>
      "{" ++ join ", " (map (fun kv => py_repr (fst kv) ++ ": " ++ py_repr (snd kv)) d) ++ "}"
  end.

Definition py_str (v : pyval) : string :=
  match v with
  | PyStr s => s
  | _ => py_repr v
  end.

(** Equality of dictionary keys: [True == 1] and [False == 0], a string is
    equal to no number and to no bytes object. *)
Definition key_eqb (a b : pyval) : bool :=
  match a, b with
  | PyNone, PyNone => true
  | PyBool x, PyBool y => Bool.eqb x y
  | PyBool x, PyInt z | PyInt z, PyBool x => z =? (if x then 1 else 0)
  | PyInt x, PyInt y => x =? y
  | PyStr x, PyStr y => (x =? y)%string
  | PyBytes x, PyBytes y => (x =? y)%string
  | _, _ => false
  end.

(** [d.get(k)] as an option, [k in d], [d[k] = v] and [d1.update(d2)]. *)
Fixpoint dict_get (k : pyval) (d : dict) : option pyval :=
  match d with
  | [] => None
  | (k', v) :: d' => if key_eqb k' k then Some v else dict_get k d'
  end.

Definition dict_has (k : pyval) (d : dict) : bool :=
  match dict_get k d with Some _ => true | None => false end.

Fixpoint dict_set (k v : pyval) (d : dict) : dict :=
  match d with
  | [] => [(k, v)]
  | (k', v') :: d' =>
      if key_eqb k' k then (k', v) :: d' else (k', v') :: dict_set k v d'
  end.

Definition dict_update (d1 d2 : dict) : dict :=
  fold_left (fun acc kv => dict_set (fst kv) (snd kv) acc) d2 d1.

(** [a == b]: keys compare as above, lists element by element, dictionaries
    item by item whatever their order. *)
Fixpoint py_eqb (a b : pyval) : bool :=
  match a, b with
  | PyList x, PyList y =>
      (fix go (x y : list pyval) : bool :=
         match x, y with
         | [], [] => true
         | u :: x', v :: y' => py_eqb u v && go x' y'
         | _, _ => false
         end) x y
  | PyDict x, PyDict y =>
      (length x =? length y)%nat
      && (fix go (x : dict) : bool :=
            match x with
            | [] => true
            | (k, u) :: x' =>
                match dict_get k y with
                | Some v => py_eqb u v && go x'
                | None => false
                end
            end) x
  | _, _ => key_eqb a b
  end.

(** Is [needle] a substring of [hay]? *)
Fixpoint substring_of (needle hay : string) : bool :=
  String.prefix needle hay
  || match hay with
     | EmptyString => false
     | String _ hay' => substring_of needle hay'
     end.

(** [needle in container] *)
Definition py_in (needle container : pyval) : result bool :=
  match container with
  | PyDict d => if hashable needle then ok (dict_has needle d) else err TypeError
  | PyList l => ok (existsb (py_eqb needle) l)
  | PyStr hay =>
      match needle with
      | PyStr n => ok (substring_of n hay)
      | _ => err TypeError
      end
  | PyBytes hay =>
      match needle with
      | PyBytes n => ok (substring_of n hay)
      | _ => err TypeError
      end
  | _ => err TypeError
  end.

(** [container[key]] *)
Definition py_getitem (container key : pyval) : result pyval :=
  match container with
  | PyDict d =>
      if hashable key then
        match dict_get key d with
        | Some v => ok v
        | None => err (KeyError key)
        end
      else err TypeError
  | PyList l =>
      match key with
      | PyInt i =>
          let j := if i <? 0 then i + Z.of_nat (length l) else i in
          if j <? 0 then err IndexError
          else match nth_error l (Z.to_nat j) with
               | Some v => ok v
               | None => err IndexError
               end
      | PyBool b =>
          match nth_error l (if b then 1%nat else 0%nat) with
          | Some v => ok v
          | None => err IndexError
          end
      | _ => err TypeError
      end
  | _ => err TypeError
  end.

(** [container.get(key, default)]; only dictionaries have the method. *)
Definition py_get (container key default : pyval) : result pyval :=
  match container with
  | PyDict d =>
      if hashable key then ok (from_option id default (dict_get key d))
      else err TypeError
  | _ => err AttributeError
  end.

(** [container.items()] *)
Definition py_items (container : pyval) : result (list (pyval * pyval)) :=
  match container with
  | PyDict d => ok d
  | _ => err AttributeError
  end.

(** The values visited by [for x in container]. *)
Definition py_iter (container : pyval) : result (list pyval) :=
  match container with
  | PyDict d => ok (map fst d)
  | PyList l => ok l
  | PyStr s => ok (map (fun c => PyStr (String c "")) (list_ascii_of_string s))
  | PyBytes s => ok (map (fun c => PyInt (Z.of_N (N_of_ascii c))) (list_ascii_of_string s))
  | _ => err TypeError
  end.

(** [container[key] = v] on a copy of the container. *)
Definition py_setitem (container key v : pyval) : result pyval :=
  match container with
  | PyDict d => if hashable key then ok (PyDict (dict_set key v d)) else err TypeError
  | _ => err TypeError
  end.

End Py.
Export Py.

(** ** Text encodings used on the way to the provider *)

Module Codec.

Definition b64_alphabet : string :=
  "ABCDEFGHIJKLMNOPQRSTUVWXYZabcdefghijklmnopqrstuvwxyz0123456789+/".

Definition b64_char (n : N) : ascii :=
  from_option id "="%char (String.get (N.to_nat n) b64_alphabet).

(** [base64.b64encode]: three bytes become four characters, the last group
    is padded with ["="]. *)
Fixpoint b64encode (s : string) : string :=
  match s with
  | EmptyString => EmptyString
  | String a EmptyString =>
      let x := N_of_ascii a in
      String (b64_char (x / 4))
        (String (b64_char ((x mod 4) * 16)) "==")
  | String a (String b EmptyString) =>
      let x := N_of_ascii a in
      let y := N_of_ascii b in
      String (b64_char (x / 4))
        (String (b64_char ((x mod 4) * 16 + y / 16))
           (String (b64_char ((y mod 16) * 4)) "="))
  | String a (String b (String c rest)) =>
      let x := N_of_ascii a in
      let y := N_of_ascii b in
      let z := N_of_ascii c in
      String (b64_char (x / 4))
        (String (b64_char ((x mod 4) * 16 + y / 16))
           (String (b64_char ((y mod 16) * 4 + z / 64))
              (String (b64_char (z mod 64)) (b64encode rest))))
  end%N.

(** [salt.utils.stringutils.to_bytes]: a string gives its UTF-8 bytes (a
    string of the model is already a sequence of bytes), bytes are kept, any
    other value is a [TypeError]. *)
Definition to_bytes (v : pyval) : result string :=
  match v with
  | PyStr s => ok s
  | PyBytes s => ok s
  | _ => err TypeError
  end.

Definition hex_digit (n : N) : ascii :=
  from_option id "0"%char (String.get (N.to_nat n) "0123456789ABCDEF").

Definition is_unreserved (c : ascii) : bool :=
  let n := N_of_ascii c in
  ((48 <=? n) && (n <=? 57) || (65 <=? n) && (n <=? 90)
   || (97 <=? n) && (n <=? 122)
   || (n =? 95) || (n =? 46) || (n =? 45) || (n =? 126))%N.

(** [urllib.parse.quote_plus] on a sequence of bytes. *)
Fixpoint quote_plus (s : string) : string :=
  match s with
  | EmptyString => EmptyString
  | String c rest =>
      if is_unreserved c then String c (quote_plus rest)
      else if (N_of_ascii c =? 32)%N then String "+"%char (quote_plus rest)
      else
        let n := N_of_ascii c in
        String "%"%char
          (String (hex_digit (n / 16)) (String (hex_digit (n mod 16)) (quote_plus rest)))
  end%N.

Definition quote_value (v : pyval) : string :=
  match v with
  | PyBytes b => quote_plus b
  | _ => quote_plus (py_str v)
  end.

(** [urllib.parse.urlencode] of a dictionary. *)
Definition urlencode (d : dict) : string :=
  join "&" (map (fun kv => quote_value (fst kv) ++ "=" ++ quote_value (snd kv)) d).

(** [s.split(sep)] for a separator of one character. *)
Fixpoint split_on (sep : ascii) (s : string) : list string :=
  match s with
  | EmptyString => [EmptyString]
  | String c rest =>
      if Ascii.eqb c sep then EmptyString :: split_on sep rest
      else match split_on sep rest with
           | [] => [String c EmptyString]
           | w :: ws => String c w :: ws
           end
  end.

Definition digit_of (c : ascii) : option Z :=
  let n := N_of_ascii c in
  if ((48 <=? n) && (n <=? 57))%N then Some (Z.of_N n - 48) else None.

Fixpoint parse_digits (acc : Z) (s : string) : option Z :=
  match s with
  | EmptyString => Some acc
  | String c rest =>
      match digit_of c with
      | Some d => parse_digits (10 * acc + d) rest
      | None => None
      end
  end.

Definition parse_int (s : string) : option Z :=
  match s with
  | EmptyString => None
  | String "-" (String c r) => Z.opp <$> parse_digits 0 (String c r)
  | String "+" (String c r) => parse_digits 0 (String c r)
  | _ => parse_digits 0 s
  end.

(** [int(v)].  A string is read as an optional sign followed by decimal
    digits; surrounding blanks and digit-group underscores, which Python
    also accepts, are not. *)
Definition py_int (v : pyval) : result Z :=
  match v with
  | PyInt z => ok z
  | PyBool b => ok (if b then 1 else 0)
  | PyStr s | PyBytes s =>
      match parse_int s with
      | Some z => ok z
      | None => err ValueError
      end
  | _ => err TypeError
  end.

End Codec.
Export Codec.

(** ** Effects: module state, the trace of external calls, early return *)

Module Run.

(** The four probes that [create] hands to [cloud.wait_for_fun]. *)
Inductive stage : Type :=
| Hostname
| DefaultPassword
| Status
| ServerState.

(** One entry of the trace per call that leaves the module. *)
Inductive event : Type :=
| EvQuery (path method : string) (data : option string) (decode : bool)
    (response : result pyval)
| EvFireEvent (description topic : string)
| EvSleep (seconds : Z)
| EvWaitForFun (probe : stage) (timeout : pyval)
| EvCacheNode (node : pyval)
| EvBootstrap (vm_ opts : dict).

(** The module globals and the trace. *)
Record state : Type := mkState {
  DETAILS : dict;
  __opts__ : dict;
  trace : list event;
}.

(** How a block of statements ends: it falls through with a value, it
    executes [return v], or it raises. *)
Inductive outcome (A : Type) : Type :=
| Next (a : A)
| Return (v : pyval)
| Raise (e : exn).
Arguments Next {A} a.
Arguments Return {A} v.
Arguments Raise {A} e.

Definition M (A : Type) : Type := state -> outcome A * state.

Definition ret {A} (a : A) : M A := fun s => (Next a, s).

Definition bind {A B} (m : M A) (f : A -> M B) : M B :=
  fun s =>
    match m s with
    | (Next a, s') => f a s'
    | (Return v, s') => (Return v, s')
    | (Raise e, s') => (Raise e, s')
    end.

#[global] Instance M_ret : MRet M := @ret.
#[global] Instance M_bind : MBind M := fun A B f m => bind m f.

Definition return_ {A} (v : pyval) : M A := fun s => (Return v, s).
Definition raise {A} (e : exn) : M A := fun s => (Raise e, s).

Definition lift {A} (r : result A) : M A :=
  match r with
  | inr a => ret a
  | inl e => raise e
  end.

(** A function body: [return v] gives [v], falling off the end gives
    [None]. *)
Definition def_ (body : M unit) : M pyval :=
  fun s =>
    match body s with
    | (Next _, s') => (Next PyNone, s')
    | (Return v, s') => (Next v, s')
    | (Raise e, s') => (Raise e, s')
    end.

(** [try: body except <caught>: handler]. A [return] inside [body] leaves
    the function; it is not an exception. *)
Definition try_except {A} (body : M A) (caught : exn -> bool) (handler : M A) : M A :=
  fun s =>
    match body s with
    | (Raise e, s') => if caught e then handler s' else (Raise e, s')
    | other => other
    end.

Definition is_KeyError (e : exn) : bool :=
  match e with KeyError _ => true | _ => false end.

(** [except Exception]: every exception of the model derives from it. *)
Definition is_Exception (e : exn) : bool := true.

Definition emit (ev : event) : M unit :=
  fun s => (Next tt, mkState (DETAILS s) (__opts__ s) (trace s ++ [ev])).

Definition get_DETAILS : M dict := fun s => (Next (DETAILS s), s).
Definition put_DETAILS (d : dict) : M unit :=
  fun s => (Next tt, mkState d (__opts__ s) (trace s)).
Definition get_opts : M dict := fun s => (Next (__opts__ s), s).
Definition put_opts (o : dict) : M unit :=
  fun s => (Next tt, mkState (DETAILS s) o (trace s)).
Definition get_trace : M (list event) := fun s => (Next (trace s), s).

(** [time.sleep(n)] *)
Definition sleep (n : Z) : M unit := emit (EvSleep n).

(** [if c: body] *)
Definition when (c : bool) (body : M unit) : M unit :=
  if c then body else ret tt.

(** [for x in l: body x] *)
Fixpoint for_ {A} (l : list A) (body : A -> M unit) : M unit :=
  match l with
  | [] => ret tt
  | x :: l' => bind (body x) (fun _ => for_ l' body)
  end.

(** A fresh process: nothing cached, nothing called yet. *)
Definition start (o : dict) : state := mkState [] o [].

(** A process whose cache holds [d]; the trace observes what follows. *)
Definition resume (d o : dict) : state := mkState d o [].

End Run.
Export Run.

(** ** The collaborators the driver calls *)

(** What lies outside the module: the HTTP transport, the configuration
    loader, the local file system, the template renderer, the URL validator,
    the bootstrap step and the wall clock. *)
Record World : Type := mkWorld {
  (** [__utils__["http.query"]]: the answer may depend on everything that
      happened before. *)
  http_query : list event -> string -> string -> option string -> bool -> result pyval;
  (** [config.is_provider_configured]: the provider's settings or [False]. *)
  is_provider_configured : dict -> pyval;
  (** Did [import validators] succeed? *)
  HAS_VALIDATORS : bool;
  (** [validators.url], as its truth value. *)
  validators_url : string -> bool;
  os_path_isfile : pyval -> bool;
  (** [fopen(path, "r")] followed by [read()]. *)
  fopen_read : pyval -> result string;
  (** [__utils__["cloud.userdata_template"]] *)
  userdata_template : dict -> dict -> string -> result pyval;
  (** [__utils__["cloud.bootstrap"]] *)
  bootstrap : dict -> dict -> result pyval;
  (** How many calls of a probe fit into a timeout. *)
  attempts_within : pyval -> nat;
}.

(** Modelled from the spec: [salt.config.get_cloud_config_value] is not part
    of the sources at hand.  Section 6 describes a configuration surface
    keyed by option name: a setting of the request record wins, then, when
    the global options are searched, a setting of the options that is not
    [None], then the default. *)
Definition get_cloud_config_value (name : string) (vm_ : pyval) (opts : dict)
    (search_global : bool) (default : pyval) : pyval :=
  let global :=
    if search_global then
      match dict_get name opts with
      | Some v => if is_none v then default else v
      | None => default
      end
    else default in
  match vm_ with
  | PyDict d => from_option id global (dict_get name d)
  | _ => global
  end.

(** ** The driver *)

Section Driver.

Context (w : World).

(** [get_configured_provider()] *)
Definition get_configured_provider : M pyval :=
  o ← get_opts; mret (is_provider_configured w o).

(** [_query(path, method, data, decode)]: builds the URL, performs the one
    authenticated request and returns the decoded body when there is one. *)
Definition _query (path method : string) (data : option string) (decode : bool) : M pyval :=
  def_ (
    p1 ← get_configured_provider;
    o ← get_opts;
    let api_key := get_cloud_config_value "api_key" p1 o false PyNone in
    p2 ← get_configured_provider;
    let management_host :=
      get_cloud_config_value "management_host" p2 o false (PyStr "api.vultr.com") in
    let url :=
      "https://" ++ py_str management_host ++ "/v1/" ++ path
        ++ "?api_key=" ++ py_str api_key in
    history ← get_trace;
    let response := http_query w history url method data decode in
    emit (EvQuery path method data decode response);;
    result ← lift response;
    has_dict ← lift (py_in (PyStr "dict") result);
    (if has_dict : bool then
       d ← lift (py_getitem result (PyStr "dict")); return_ d
     else mret tt);;
    return_ result).

Definition avail_locations : M pyval := _query "regions/list" "GET" None true.
Definition avail_scripts : M pyval := _query "startupscript/list" "GET" None true.
Definition avail_acct_isos : M pyval := _query "iso/list" "GET" None true.
Definition avail_public_isos : M pyval := _query "iso/list_public" "GET" None true.
Definition avail_firewall_groups : M pyval := _query "firewall/group_list" "GET" None true.
Definition avail_keys : M pyval := _query "sshkey/list" "GET" None true.
Definition avail_sizes : M pyval := _query "plans/list" "GET" None true.
Definition avail_images : M pyval := _query "os/list" "GET" None true.

(** [DETAILS[availkey][key] = value] *)
Definition DETAILS_store (availkey : string) (key value : pyval) : M unit :=
  d ← get_DETAILS;
  category ← lift (py_getitem (PyDict d) (PyStr availkey));
  category' ← lift (py_setitem category key value);
  put_DETAILS (dict_set (PyStr availkey) category' d).

(** One of the three loops of [_cache_provider_details]. *)
Definition index_entries (availkey : string) (items : list (pyval * pyval)) : M unit :=
  for_ items (fun item =>
    name ← lift (py_getitem (snd item) (PyStr "name"));
    DETAILS_store availkey name (snd item);;
    DETAILS_store availkey (fst item) (snd item)).

Definition _cache_provider_details : M pyval :=
  def_ (
    d ← get_DETAILS;
    put_DETAILS (dict_set (PyStr "avail_locations") (PyDict []) d);;
    d ← get_DETAILS;
    put_DETAILS (dict_set (PyStr "avail_sizes") (PyDict []) d);;
    d ← get_DETAILS;
    put_DETAILS (dict_set (PyStr "avail_images") (PyDict []) d);;
    locations ← avail_locations;
    images ← avail_images;
    sizes ← avail_sizes;
    items ← lift (py_items locations);
    index_entries "avail_locations" items;;
    items ← lift (py_items images);
    index_entries "avail_images" items;;
    items ← lift (py_items sizes);
    index_entries "avail_sizes" items).

(** [ret[name][key] = value] *)
Definition store_in (ret_ : pyval) (name key value : pyval) : result pyval :=
  match py_getitem ret_ name with
  | inr inner =>
      match py_setitem inner key value with
      | inr inner' => py_setitem ret_ name inner'
      | inl e => inl e
      end
  | inl e => inl e
  end.

(** [x.copy()]: dictionaries and lists have the method. *)
Definition py_copy (v : pyval) : result pyval :=
  match v with
  | PyDict _ | PyList _ => ok v
  | _ => err AttributeError
  end.

(** The body of the loop of [list_nodes_full], for one key of [nodes]. *)
Definition list_node (nodes node : pyval) (ret_ : pyval) : result pyval :=
  n ← py_getitem nodes node;
  name ← py_getitem n (PyStr "label");
  n ← py_getitem nodes node;
  c ← py_copy n;
  ret_ ← py_setitem ret_ name c;
  ret_ ← store_in ret_ name (PyStr "id") node;
  n ← py_getitem nodes node;
  v ← py_getitem n (PyStr "os");
  ret_ ← store_in ret_ name (PyStr "image") v;
  n ← py_getitem nodes node;
  v ← py_getitem n (PyStr "VPSPLANID");
  ret_ ← store_in ret_ name (PyStr "size") v;
  n ← py_getitem nodes node;
  v ← py_getitem n (PyStr "status");
  ret_ ← store_in ret_ name (PyStr "state") v;
  n ← py_getitem nodes node;
  v ← py_getitem n (PyStr "internal_ip");
  ret_ ← store_in ret_ name (PyStr "private_ips") v;
  n ← py_getitem nodes node;
  v ← py_getitem n (PyStr "main_ip");
  store_in ret_ name (PyStr "public_ips") v.

Fixpoint list_nodes_loop (nodes : pyval) (keys : list pyval) (ret_ : pyval) : result pyval :=
  match keys with
  | [] => ok ret_
  | node :: keys' =>
      match list_node nodes node ret_ with
      | inr ret' => list_nodes_loop nodes keys' ret'
      | inl e => inl e
      end
  end.

Definition list_nodes_full : M pyval :=
  def_ (
    nodes ← _query "server/list" "GET" None true;
    keys ← lift (py_iter nodes);
    ret_ ← lift (list_nodes_loop nodes keys (PyDict []));
    return_ ret_).

Definition show_instance (name : pyval) (call : pyval) : M pyval :=
  def_ (
    when (negb (py_eqb call (PyStr "action")))
      (raise (SaltCloudSystemExit
                "The show_instance action must be called with -a or --action."));;
    nodes ← list_nodes_full;
    listed ← lift (py_in name nodes);
    when (negb listed) (return_ (PyDict []));;
    node ← lift (py_getitem nodes name);
    emit (EvCacheNode node);;
    node ← lift (py_getitem nodes name);
    return_ node).

Definition destroy (name : pyval) : M pyval :=
  def_ (
    node ← show_instance name (PyStr "action");
    subid ← lift (py_getitem node (PyStr "SUBID"));
    let params := [(PyStr "SUBID", subid)] in
    result ← _query "server/destroy" "POST" (Some (urlencode params)) false;
    body ← lift (py_get result (PyStr "body") PyNone);
    empty ←
      (if py_eqb body (PyStr "") then
         text ← lift (py_get result (PyStr "text") PyNone);
         mret (py_eqb text (PyStr ""))
       else mret false);
    when empty (return_ (PyBool true));;
    return_ result).

(** [DETAILS[availkey][which_key][keyname]] *)
Definition DETAILS_field (d : dict) (availkey which_key keyname : pyval) : result pyval :=
  category ← py_getitem (PyDict d) availkey;
  entry ← py_getitem category which_key;
  py_getitem entry keyname.

Definition _lookup_vultrid (which_key : pyval) (availkey keyname : string) : M pyval :=
  def_ (
    d ← get_DETAILS;
    (if d is [] then _cache_provider_details;; mret tt else mret tt);;
    let which_key := PyStr (py_str which_key) in
    try_except
      (d ← get_DETAILS;
       v ← lift (DETAILS_field d (PyStr availkey) which_key (PyStr keyname));
       return_ v)
      is_KeyError
      (return_ (PyBool false))).

End Driver.

Section Create.

Context (w : World).

(** [__utils__["cloud.fire_event"]("event", description, topic, args=...,
    sock_dir=__opts__["sock_dir"], transport=__opts__["transport"])]: the
    two subscripts are evaluated before the call; the call itself is
    fire-and-forget. *)
Definition fire_event (description topic : string) : M unit :=
  o ← get_opts;
  _ ← lift (py_getitem (PyDict o) (PyStr "sock_dir"));
  _ ← lift (py_getitem (PyDict o) (PyStr "transport"));
  emit (EvFireEvent description topic).

(** ["salt/cloud/{}/<what>".format(vm_["name"])] *)
Definition topic (vm_ : dict) (what : string) : M string :=
  name ← lift (py_getitem (PyDict vm_) (PyStr "name"));
  mret ("salt/cloud/" ++ py_str name ++ "/" ++ what).

(** Modelled from the spec: [__utils__["cloud.wait_for_fun"]] is not part of
    the sources at hand.  Section 4.5: the poller invokes the probe
    repeatedly, returns the first value that is not the not-ready sentinel
    [False], and fails with a timeout error once the budget is exceeded.
    The budget is counted in probe calls, as many as the world says fit into
    the timeout. *)
Fixpoint wait_loop (attempts : nat) (fun_ : M pyval) : M pyval :=
  match attempts with
  | O => raise TimeoutError
  | S n =>
      r ← fun_;
      if py_eqb r (PyBool false) then wait_loop n fun_ else mret r
  end.

Definition wait_for_fun (probe : stage) (fun_ : M pyval) (timeout : pyval) : M pyval :=
  emit (EvWaitForFun probe timeout);;
  wait_loop (attempts_within w timeout) fun_.

(** The four probes, nested functions of [create] that close over [vm_]. *)
Definition wait_for_hostname (vm_ : dict) : M pyval :=
  def_ (
    name ← lift (py_getitem (PyDict vm_) (PyStr "name"));
    data ← show_instance w name (PyStr "action");
    ip ← lift (py_get data (PyStr "main_ip") (PyStr "0"));
    let main_ip := py_str ip in
    when (String.prefix "0" main_ip) (sleep 3;; return_ (PyBool false));;
    v ← lift (py_getitem data (PyStr "main_ip"));
    return_ v).

Definition wait_for_default_password (vm_ : dict) : M pyval :=
  def_ (
    name ← lift (py_getitem (PyDict vm_) (PyStr "name"));
    data ← show_instance w name (PyStr "action");
    pw ← lift (py_get data (PyStr "default_password") (PyStr ""));
    let default_password := py_str pw in
    when ((default_password =? "")%string || (default_password =? "not supported")%string)
      (sleep 1;; return_ (PyBool false));;
    v ← lift (py_getitem data (PyStr "default_password"));
    return_ v).

Definition wait_for_status (vm_ : dict) : M pyval :=
  def_ (
    name ← lift (py_getitem (PyDict vm_) (PyStr "name"));
    data ← show_instance w name (PyStr "action");
    st ← lift (py_get data (PyStr "status") (PyStr ""));
    when (negb (py_str st =? "active")%string) (sleep 1;; return_ (PyBool false));;
    v ← lift (py_getitem data (PyStr "default_password"));
    return_ v).

Definition wait_for_server_state (vm_ : dict) : M pyval :=
  def_ (
    name ← lift (py_getitem (PyDict vm_) (PyStr "name"));
    data ← show_instance w name (PyStr "action");
    st ← lift (py_get data (PyStr "server_state") (PyStr ""));
    when (negb (py_str st =? "ok")%string) (sleep 1;; return_ (PyBool false));;
    v ← lift (py_getitem data (PyStr "default_password"));
    return_ v).

(** [str(ref) not in listing], for a reference that is present. *)
Definition not_listed (ref : pyval) (listing : pyval) : M bool :=
  b ← lift (py_in (PyStr (py_str ref)) listing); mret (negb b).

(** [ssh_key_ids.split(",")] *)
Definition py_split (v : pyval) : result (list string) :=
  match v with
  | PyStr s => ok (split_on "," s)
  | PyBytes _ => err TypeError
  | _ => err AttributeError
  end.

(** [ret.update(other)] *)
Definition py_update (ret_ other : pyval) : result pyval :=
  match ret_, other with
  | PyDict d1, PyDict d2 => ok (PyDict (dict_update d1 d2))
  | PyDict _, _ => err TypeError
  | _, _ => err AttributeError
  end.

(** Lines 714-729: the file named by [userdata] is read and rendered into
    [kwargs["userdata"]], then [userdata] itself is encoded into the same
    key. *)
Definition attach_userdata (o vm_ : dict) (userdata : pyval) (kwargs : dict) : M dict :=
  kwargs ←
    (if negb (is_none userdata) && os_path_isfile w userdata then
       try_except
         (text ← lift (fopen_read w userdata);
          rendered ← lift (userdata_template w o vm_ text);
          mret (dict_set (PyStr "userdata") rendered kwargs))
         is_Exception
         (mret kwargs)
     else mret kwargs);
  if negb (is_none userdata) then
    try_except
      (bytes ← lift (to_bytes userdata);
       mret (dict_set (PyStr "userdata") (PyBytes (b64encode bytes)) kwargs))
      is_Exception
      (mret kwargs)
  else mret kwargs.

Definition False_ : pyval := PyBool false.

(** [config.get_cloud_config_value(name, vm_, __opts__, search_global=False,
    default=default)], the form in which [create] reads the request. *)
Definition setting (vm_ o : dict) (name : string) (default : pyval) : pyval :=
  get_cloud_config_value name (PyDict vm_) o false default.

(** Lines 580-581 *)
Definition set_driver (vm_ : dict) : M dict :=
  if dict_has (PyStr "driver") vm_ then mret vm_
  else p ← lift (py_getitem (PyDict vm_) (PyStr "provider"));
       mret (dict_set (PyStr "driver") p vm_).

(** [if ref and str(ref) not in listing(): return False] *)
Definition require_listed (ref : pyval) (listing : M pyval) : M unit :=
  missing ← (if truthy ref then l ← listing; not_listed ref l else mret false);
  when missing (return_ False_).

(** Lines 614-623: an ISO may be the account's own or a public one. *)
Definition require_iso (isoid : pyval) : M unit :=
  missing ← (if truthy isoid then
               isos ← avail_acct_isos w;
               absent ← not_listed isoid isos;
               if absent : bool then
                 isos ← avail_public_isos w; not_listed isoid isos
               else mret false
             else mret false);
  when missing (return_ False_).

(** Lines 629-633 *)
Definition require_url (ipxe_chain_url : pyval) : M unit :=
  malformed ← (if truthy ipxe_chain_url then
                 if HAS_VALIDATORS w then
                   mret (negb (validators_url w (py_str ipxe_chain_url)))
                 else raise (NameError "validators")
               else mret false);
  when malformed (return_ False_).

(** Lines 653-659 *)
Definition require_keys (ssh_key_ids : pyval) : M unit :=
  when (negb (is_none ssh_key_ids))
    (key_list ← lift (py_split ssh_key_ids);
     available_keys ← avail_keys w;
     for_ key_list (fun key =>
       missing ← (if truthy (PyStr key) then not_listed (PyStr key) available_keys
                  else mret false);
       when missing (return_ False_))).

(** Lines 661-665 *)
Definition require_bool (private_networking : pyval) : M unit :=
  when (negb (is_none private_networking))
    (when (negb (is_bool private_networking))
       (raise (SaltCloudConfigError "'private_networking' should be a boolean value."))).

(** Lines 607-665: the optional references of the request are checked, in
    the order of the source, before anything else happens. *)
Definition check_references (vm_ o : dict) : M unit :=
  require_listed (setting vm_ o "startup_script_id" PyNone) (avail_scripts w);;
  require_iso (setting vm_ o "isoid" PyNone);;
  require_url (setting vm_ o "ipxe_chain_url" False_);;
  require_listed (setting vm_ o "firewall_group_id" PyNone) (avail_firewall_groups w);;
  require_keys (setting vm_ o "ssh_key_names" PyNone);;
  require_bool (setting vm_ o "enable_private_network" False_).

(** [id = _lookup_vultrid(vm_[field], availkey, keyname)] followed by
    [if not id: return False]. *)
Definition resolve (vm_ : dict) (field availkey keyname : string) : M pyval :=
  key ← lift (py_getitem (PyDict vm_) (PyStr field));
  v ← _lookup_vultrid w key availkey keyname;
  when (negb (truthy v)) (return_ False_);;
  mret v.

(** Lines 697-735: the payload of the creation request. *)
Definition assemble (vm_ o : dict) (osid vpsplanid dcid : pyval) : M dict :=
  let startup_script := setting vm_ o "startup_script_id" PyNone in
  let isoid := setting vm_ o "isoid" PyNone in
  let ipxe_chain_url := setting vm_ o "ipxe_chain_url" False_ in
  let userdata := setting vm_ o "userdata" PyNone in
  let firewall_group_id := setting vm_ o "firewall_group_id" PyNone in
  let ssh_key_ids := setting vm_ o "ssh_key_names" PyNone in
  let enable_private_network :=
    if is_True (setting vm_ o "enable_private_network" False_) then "yes" else "no" in
  label ← lift (py_getitem (PyDict vm_) (PyStr "name"));
  hostname ← lift (py_getitem (PyDict vm_) (PyStr "name"));
  let kwargs : dict :=
    [(PyStr "label", label); (PyStr "OSID", osid); (PyStr "VPSPLANID", vpsplanid);
     (PyStr "DCID", dcid); (PyStr "hostname", hostname);
     (PyStr "enable_private_network", PyStr enable_private_network)] in
  let kwargs :=
    if truthy startup_script then dict_set (PyStr "SCRIPTID") startup_script kwargs
    else kwargs in
  let kwargs := if truthy isoid then dict_set (PyStr "ISOID") isoid kwargs else kwargs in
  let kwargs :=
    if truthy ipxe_chain_url then dict_set (PyStr "ipxe_chain_url") ipxe_chain_url kwargs
    else kwargs in
  kwargs ← attach_userdata o vm_ userdata kwargs;
  let kwargs :=
    if truthy firewall_group_id
    then dict_set (PyStr "FIREWALLGROUPID") firewall_group_id kwargs
    else kwargs in
  let kwargs :=
    if truthy ssh_key_ids then dict_set (PyStr "SSHKEYID") ssh_key_ids kwargs
    else kwargs in
  mret kwargs.

(** Lines 767-775 and 786-794 *)
Definition request_failed (vm_ : dict) : M unit :=
  t ← topic vm_ "requesting/failed";
  fire_event "instance request failed" t;;
  return_ False_.

(** Lines 739-794: the announcement and the submission itself. *)
Definition request_instance (vm_ kwargs : dict) : M unit :=
  t ← topic vm_ "requesting";
  fire_event "requesting instance" t;;
  try_except
    (data ← _query w "server/create" "POST" (Some (urlencode kwargs)) true;
     st ← lift (py_get data (PyStr "status") (PyStr "200"));
     code ← lift (py_int st);
     when (300 <=? code) (request_failed vm_))
    is_Exception
    (request_failed vm_).

(** [config.get_cloud_config_value("wait_for_fun_timeout", vm_, __opts__,
    default=15 * 60)] *)
Definition wait_for_fun_timeout (vm_ o : dict) : pyval :=
  get_cloud_config_value "wait_for_fun_timeout" (PyDict vm_) o true (PyInt (15 * 60)).

(** Lines 842-870: the four readiness stages; the request record collects
    the address and the password on the way. *)
Definition wait_until_ready (vm_ o : dict) : M dict :=
  let ssh_username := setting vm_ o "ssh_username" False_ in
  let password := setting vm_ o "password" False_ in
  host ← wait_for_fun Hostname (wait_for_hostname vm_) (wait_for_fun_timeout vm_ o);
  let vm_ := dict_set (PyStr "ssh_host") host vm_ in
  let vm_ :=
    if truthy ssh_username then dict_set (PyStr "ssh_username") ssh_username vm_
    else vm_ in
  vm_ ← (if negb (truthy password) then
           pw ← wait_for_fun DefaultPassword (wait_for_default_password vm_)
                  (wait_for_fun_timeout vm_ o);
           mret (dict_set (PyStr "password") pw vm_)
         else mret (dict_set (PyStr "password") password vm_));
  wait_for_fun Status (wait_for_status vm_) (wait_for_fun_timeout vm_ o);;
  wait_for_fun ServerState (wait_for_server_state vm_) (wait_for_fun_timeout vm_ o);;
  mret vm_.

(** Lines 872-899: bootstrap, the final snapshot and the closing
    notification. *)
Definition bootstrap_and_report (vm_ : dict) : M unit :=
  provider ← get_configured_provider w;
  o ← get_opts;
  put_opts (dict_set (PyStr "hard_timeout")
              (get_cloud_config_value "hard_timeout" provider o false PyNone) o);;
  o ← get_opts;
  emit (EvBootstrap vm_ o);;
  ret_ ← lift (bootstrap w vm_ o);
  name ← lift (py_getitem (PyDict vm_) (PyStr "name"));
  instance ← show_instance w name (PyStr "action");
  ret_ ← lift (py_update ret_ instance);
  t ← topic vm_ "created";
  fire_event "created instance" t;;
  return_ ret_.

Definition create (vm_ : dict) : M pyval :=
  def_ (
    vm_ ← set_driver vm_;
    o ← get_opts;
    check_references vm_ o;;
    t ← topic vm_ "creating";
    fire_event "starting create" t;;
    osid ← resolve vm_ "image" "avail_images" "OSID";
    vpsplanid ← resolve vm_ "size" "avail_sizes" "VPSPLANID";
    dcid ← resolve vm_ "location" "avail_locations" "DCID";
    kwargs ← assemble vm_ o osid vpsplanid dcid;
    request_instance vm_ kwargs;;
    vm_ ← wait_until_ready vm_ o;
    bootstrap_and_report vm_).

End Create.

(** ** Vocabulary of the statements *)

(** The value [_query] returns for an answer of the transport. *)
Definition decoded (response : result pyval) : result pyval :=
  result ← response;
  has_dict ← py_in (PyStr "dict") result;
  if has_dict : bool then py_getitem result (PyStr "dict") else ok result.

Definition to_outcome {A} (r : result A) : outcome A :=
  match r with
  | inr a => Next a
  | inl e => Raise e
  end.

(** The state after one more external call. *)
Definition record (ev : event) (s : state) : state :=
  mkState (DETAILS s) (__opts__ s) (trace s ++ [ev]).

(** The URL [_query] builds in state [s]. *)
Definition query_url (w : World) (s : state) (path : string) : string :=
  let provider := is_provider_configured w (__opts__ s) in
  "https://"
    ++ py_str (get_cloud_config_value "management_host" provider (__opts__ s) false
                 (PyStr "api.vultr.com"))
    ++ "/v1/" ++ path ++ "?api_key="
    ++ py_str (get_cloud_config_value "api_key" provider (__opts__ s) false PyNone).

(** What a lookup finds in a populated cache [d]. *)
Definition cached (d : dict) (which_key : pyval) (availkey keyname : string) : outcome pyval :=
  match DETAILS_field d (PyStr availkey) (PyStr (py_str which_key)) (PyStr keyname) with
  | inr v => Next v
  | inl e => if is_KeyError e then Next False_ else Raise e
  end.

(** The index one loop of [_cache_provider_details] builds, as a function
    of the items it visits. *)
Fixpoint indexed (items : list (pyval * pyval)) (category : dict) : result dict :=
  match items with
  | [] => ok category
  | (key, entry) :: items' =>
      name ← py_getitem entry (PyStr "name");
      if hashable name && hashable key
      then indexed items' (dict_set key entry (dict_set name entry category))
      else err TypeError
  end.

(** The field of an entry a lookup hands out, [False] when it is absent. *)
Definition field_or_False (entry : pyval) (keyname : string) : outcome pyval :=
  match py_getitem entry (PyStr keyname) with
  | inr v => Next v
  | inl e => if is_KeyError e then Next False_ else Raise e
  end.

(** The catalog listing behind each category of the cache. *)
Definition catalog_path (availkey : string) : string :=
  if (availkey =? "avail_locations")%string then "regions/list"
  else if (availkey =? "avail_images")%string then "os/list"
  else "plans/list".

Definition is_catalog_query (ev : event) : bool :=
  match ev with
  | EvQuery path _ _ _ _ =>
      (path =? "regions/list")%string || (path =? "os/list")%string
      || (path =? "plans/list")%string
  | _ => false
  end.

(** The listings the optional references are checked against. *)
Definition is_reference_listing (ev : event) : bool :=
  match ev with
  | EvQuery path _ _ _ _ =>
      (path =? "startupscript/list")%string || (path =? "iso/list")%string
      || (path =? "iso/list_public")%string || (path =? "firewall/group_list")%string
      || (path =? "sshkey/list")%string
  | _ => false
  end.

(** The server-creation submission, the one call that changes anything at
    the provider. *)
Definition is_submission (ev : event) : bool :=
  match ev with
  | EvQuery path _ _ _ _ => (path =? "server/create")%string
  | _ => false
  end.

Definition is_starting_notification (ev : event) : bool :=
  match ev with
  | EvFireEvent description _ => (description =? "starting create")%string
  | _ => false
  end.

(** The first answer a listing gave in a trace. *)
Fixpoint answer (path : string) (tr : list event) : option (result pyval) :=
  match tr with
  | [] => None
  | EvQuery p _ _ _ response :: tr' =>
      if (p =? path)%string then Some response else answer path tr'
  | _ :: tr' => answer path tr'
  end.

(** A reference that is present fails validation when the listing answered
    and the answer does not hold the reference. *)
Definition unlisted (tr : list event) (path : string) (ref : pyval) : bool :=
  truthy ref
  && match answer path tr with
     | Some response =>
         match decoded response ≫= py_in (PyStr (py_str ref)) with
         | inr listed => negb listed
         | inl _ => false
         end
     | None => false
     end.

Definition keys_of (ssh_key_ids : pyval) : list string :=
  match ssh_key_ids with
  | PyStr s => split_on "," s
  | _ => []
  end.

(** Some optional reference of the request failed its check in this run. *)
Definition fails_validation (w : World) (vm_ o : dict) (tr : list event) : bool :=
  unlisted tr "startupscript/list" (setting vm_ o "startup_script_id" PyNone)
  || unlisted tr "iso/list" (setting vm_ o "isoid" PyNone)
     && unlisted tr "iso/list_public" (setting vm_ o "isoid" PyNone)
  || unlisted tr "firewall/group_list" (setting vm_ o "firewall_group_id" PyNone)
  || existsb (fun key => unlisted tr "sshkey/list" (PyStr key))
       (keys_of (setting vm_ o "ssh_key_names" PyNone))
  || truthy (setting vm_ o "ipxe_chain_url" False_)
     && negb (validators_url w (py_str (setting vm_ o "ipxe_chain_url" False_))).

(** A required field of the request does not resolve in the cache [d]. *)
Definition unresolved (d : dict) (vm_ : dict) (field availkey keyname : string) : bool :=
  match dict_get (PyStr field) vm_ with
  | Some key =>
      match cached d key availkey keyname with
      | Next v => negb (truthy v)
      | _ => false
      end
  | None => false
  end.

Definition fails_resolution (d : dict) (vm_ : dict) : bool :=
  unresolved d vm_ "image" "avail_images" "OSID"
  || unresolved d vm_ "size" "avail_sizes" "VPSPLANID"
  || unresolved d vm_ "location" "avail_locations" "DCID".

(** [create] ended in failure: it returned [False] or raised. *)
Definition failed (o : outcome pyval) : Prop :=
  o = Next False_ \/ exists e, o = Raise e.

(** The payloads submitted in a trace. *)
Definition submissions (tr : list event) : list (option string) :=
  omap (fun ev => match ev with
                  | EvQuery path _ data _ _ =>
                      if (path =? "server/create")%string then Some data else None
                  | _ => None
                  end) tr.

(** The readiness stages started in a trace, with their timeouts. *)
Definition stages (tr : list event) : list (stage * pyval) :=
  omap (fun ev => match ev with
                  | EvWaitForFun p t => Some (p, t)
                  | _ => None
                  end) tr.

(** An item of a listing clashes with a key or a name when its own key or
    name is equal to one of them. *)
Definition clashes (key name : pyval) (item : pyval * pyval) : bool :=
  key_eqb (fst item) key || key_eqb (fst item) name
  || match py_getitem (snd item) (PyStr "name") with
     | inr n => key_eqb n key || key_eqb n name
     | inl _ => false
     end.

(** An item matches a key when the key is its identifier or its name. *)
Definition matches (key : pyval) (item : pyval * pyval) : bool :=
  key_eqb (fst item) key
  || match py_getitem (snd item) (PyStr "name") with
     | inr n => key_eqb n key
     | inl _ => false
     end.

(** The items a catalog listing delivered in a trace. *)
Definition fetched (tr : list event) (path : string) : option (list (pyval * pyval)) :=
  match answer path tr with
  | Some response =>
      match decoded response ≫= py_items with
      | inr items => Some items
      | inl _ => None
      end
  | None => None
  end.

(** *** Frame conditions *)

(** From [s] to [s'] the cache is untouched and only calls allowed by [Q]
    were made. *)
Definition moves (Q : event -> bool) (s s' : state) : Prop :=
  DETAILS s' = DETAILS s
  /\ exists evs, trace s' = (trace s ++ evs)%list /\ forallb Q evs = true.

(** The same, once the cache is populated. *)
Definition settled (Q : event -> bool) (s s' : state) : Prop :=
  DETAILS s <> [] -> moves Q s s'.

(** Only calls allowed by [Q] were made; the cache may have changed. *)
Definition calls (Q : event -> bool) (s s' : state) : Prop :=
  exists evs, trace s' = (trace s ++ evs)%list /\ forallb Q evs = true.

(** Every run of [m] is a step of [R], and what [m] returns satisfies [P]. *)
Definition obeys (R : state -> state -> Prop) (P : pyval -> Prop) {A} (m : M A) : Prop :=
  forall s o s', m s = (o, s') -> R s s' /\ forall v, o = Return v -> P v.

Definition anything (v : pyval) : Prop := True.
Definition only_False (v : pyval) : Prop := v = False_.

(** The calls a probe makes. *)
Definition allows_polling (Q : event -> bool) : Prop :=
  (forall r, Q (EvQuery "server/list" "GET" None true r) = true)
  /\ (forall n, Q (EvCacheNode n) = true)
  /\ (forall n, Q (EvSleep n) = true).

Definition reference_listings : list string :=
  ["startupscript/list"; "iso/list"; "iso/list_public"; "firewall/group_list";
   "sshkey/list"].

(** The calls the checks of the optional references make. *)
Definition allows_listings (Q : event -> bool) : Prop :=
  forall path r, In path reference_listings -> Q (EvQuery path "GET" None true r) = true.

Definition is_wait (ev : event) : bool :=
  match ev with
  | EvWaitForFun _ _ => true
  | _ => false
  end.

Definition any_event (ev : event) : bool := true.
Definition no_submission (ev : event) : bool := negb (is_submission ev).
Definition no_catalog_query (ev : event) : bool := negb (is_catalog_query ev).
Definition no_reference_listing (ev : event) : bool := negb (is_reference_listing ev).
Definition no_wait (ev : event) : bool := negb (is_wait ev).

(** The statements of [create] up to the assembled payload, as one block:
    the request record with its driver, the options and the payload. *)
Definition prepare (w : World) (vm_ : dict) : M (dict * dict * dict) :=
  vm_ ← set_driver vm_;
  o ← get_opts;
  check_references w vm_ o;;
  t ← topic vm_ "creating";
  fire_event "starting create" t;;
  osid ← resolve w vm_ "image" "avail_images" "OSID";
  vpsplanid ← resolve w vm_ "size" "avail_sizes" "VPSPLANID";
  dcid ← resolve w vm_ "location" "avail_locations" "DCID";
  kwargs ← assemble w vm_ o osid vpsplanid dcid;
  mret (vm_, o, kwargs).

(** The statements of [create] from the submission on. *)
Definition provision (w : World) (p : dict * dict * dict) : M unit :=
  request_instance w p.1.1 p.2;;
  vm_ ← wait_until_ready w p.1.1 p.1.2;
  bootstrap_and_report w vm_.

(** The state [s1] differs from [s] by the calls [evs]. *)
Definition after (s : state) (evs : list event) (s1 : state) : Prop :=
  DETAILS s1 = DETAILS s /\ __opts__ s1 = __opts__ s /\ trace s1 = (trace s ++ evs)%list.

(** Every call of [evs] is a query of one of the paths [ps]. *)
Definition paths_in (ps : list string) (evs : list event) : bool :=
  forallb (fun ev => match ev with
                     | EvQuery p _ _ _ _ => existsb (String.eqb p) ps
                     | _ => false
                     end) evs.

(** The request record [vm1] is [vm_] with, at most, its driver filled in. *)
Definition with_driver (vm_ vm1 : dict) : Prop :=
  vm1 = vm_ \/ exists p, vm1 = dict_set (PyStr "driver") p vm_.

(** What the three required fields of the request resolve to in the cache
    [d]. *)
Definition resolves_to (d vm_ : dict) (osid vpsplanid dcid : pyval) : Prop :=
  (exists key, dict_get (PyStr "image") vm_ = Some key
               /\ cached d key "avail_images" "OSID" = Next osid /\ truthy osid = true)
  /\ (exists key, dict_get (PyStr "size") vm_ = Some key
                  /\ cached d key "avail_sizes" "VPSPLANID" = Next vpsplanid
                  /\ truthy vpsplanid = true)
  /\ (exists key, dict_get (PyStr "location") vm_ = Some key
                  /\ cached d key "avail_locations" "DCID" = Next dcid
                  /\ truthy dcid = true).

(** The readiness stages of a creation and their timeouts, as the request
    and the options determine them. *)
Definition readiness_stages (vm_ o : dict) : list (stage * pyval) :=
  let t := wait_for_fun_timeout vm_ o in
  (Hostname, t)
    :: (if truthy (setting vm_ o "password" False_) then [] else [(DefaultPassword, t)])
    ++ [(Status, t); (ServerState, t)].

(** The steps of [create] that the order of section 4.4 is about. *)
Inductive phase : Type := Validation | Notification | Resolution | Submission.

Definition phase_of (ev : event) : option phase :=
  if is_reference_listing ev then Some Validation
  else if is_starting_notification ev then Some Notification
  else if is_catalog_query ev then Some Resolution
  else if is_submission ev then Some Submission
  else None.

Definition phases (tr : list event) : list phase := omap phase_of tr.

(** A call that belongs to none of these steps. *)
Definition no_phase (ev : event) : bool :=
  match phase_of ev with
  | None => true
  | Some _ => false
  end.

(** From [s] to [s1] the readiness stages [l] were started, in this order. *)
Definition staged (s s1 : state) (l : list (stage * pyval)) : Prop :=
  exists evs, trace s1 = (trace s ++ evs)%list /\ stages evs = l.

Definition never (v : pyval) : Prop := False.

(** The calls [create] makes from the submission on. *)
Definition allows_provisioning (Q : event -> bool) : Prop :=
  allows_polling Q
  /\ (forall p t, Q (EvWaitForFun p t) = true)
  /\ (forall v o, Q (EvBootstrap v o) = true)
  /\ (forall d t, Q (EvFireEvent d t) = true)
  /\ (forall d r, Q (EvQuery "server/create" "POST" d true r) = true).

(** ** The catalog and the servers of the unit tests *)

Module Fixture.

(** A JSON object with string keys. *)
Definition obj (fields : list (string * pyval)) : pyval :=
  PyDict (map (fun kv => (PyStr (fst kv), snd kv)) fields).

Definition locations : pyval :=
  obj [("1", obj [("DCID", PyStr "1"); ("name", PyStr "New Jersey"); ("country", PyStr "US");
                  ("regioncode", PyStr "EWR")]);
       ("7", obj [("DCID", PyStr "7"); ("name", PyStr "Amsterdam"); ("country", PyStr "NL");
                  ("regioncode", PyStr "AMS")]);
       ("22", obj [("DCID", PyStr "22"); ("name", PyStr "Toronto"); ("country", PyStr "CA");
                   ("regioncode", PyStr "YTO")])].

Definition sizes : pyval :=
  obj [("115", obj [("VPSPLANID", PyStr "115");
                    ("name", PyStr "8192 MB RAM,110 GB SSD,10.00 TB BW");
                    ("available_locations", PyList [PyInt 1])]);
       ("201", obj [("VPSPLANID", PyStr "201");
                    ("name", PyStr "1024 MB RAM,25 GB SSD,1.00 TB BW");
                    ("available_locations", PyList [PyInt 1; PyInt 7; PyInt 22])]);
       ("203", obj [("VPSPLANID", PyStr "203");
                    ("name", PyStr "4096 MB RAM,80 GB SSD,3.00 TB BW");
                    ("available_locations", PyList [PyInt 1; PyInt 7; PyInt 22])])].

Definition images : pyval :=
  obj [("362", obj [("OSID", PyInt 362); ("name", PyStr "CentOS 8 x64");
                    ("family", PyStr "centos"); ("windows", PyBool false)]);
       ("240", obj [("OSID", PyInt 240); ("name", PyStr "Windows 2016 x64");
                    ("family", PyStr "windows"); ("windows", PyBool true)]);
       ("159", obj [("OSID", PyInt 159); ("name", PyStr "Custom");
                    ("family", PyStr "iso"); ("windows", PyBool false)])].

Definition scripts : pyval :=
  obj [("793055", obj [("SCRIPTID", PyStr "793055"); ("name", PyStr "boot")]);
       ("793056", obj [("SCRIPTID", PyStr "793056"); ("name", PyStr "pxe")])].

Definition firewall_groups : pyval :=
  obj [("2aac0c5f", obj [("FIREWALLGROUPID", PyStr "2aac0c5f"); ("description", PyStr "group1")]);
       ("ef8d7e3c", obj [("FIREWALLGROUPID", PyStr "ef8d7e3c"); ("description", PyStr "group2")])].

Definition keys : pyval :=
  obj [("6043ec83f126a", obj [("SSHKEYID", PyStr "6043ec83f126a");
                              ("name", PyStr "ed25519 SSH Key")]);
       ("6043eccc2800d", obj [("SSHKEYID", PyStr "6043eccc2800d");
                              ("name", PyStr "rsa-4096 SSH Key")])].

(** The server [host1] once it is up. *)
Definition host1 : pyval :=
  obj [("SUBID", PyStr "42164666"); ("os", PyStr "CentOS 8 x64");
       ("main_ip", PyStr "192.0.2.143"); ("default_password", PyStr "c0Jkwj(p;&?4sY5Y");
       ("status", PyStr "active"); ("server_state", PyStr "ok");
       ("VPSPLANID", PyStr "201"); ("label", PyStr "host1"); ("internal_ip", PyStr "")].

(** The path of a request, read off its URL. *)
Definition asks (path url : string) : bool :=
  substring_of ("/v1/" ++ path ++ "?") url.

(** A provider that serves the listings above, accepts every creation
    request and every destroy request, and reports [host1] as running. *)
Definition respond (locations : pyval) (history : list event) (url method : string)
    (data : option string) (decode : bool) : result pyval :=
  if asks "regions/list" url then ok (obj [("dict", locations)])
  else if asks "plans/list" url then ok (obj [("dict", sizes)])
  else if asks "os/list" url then ok (obj [("dict", images)])
  else if asks "startupscript/list" url then ok (obj [("dict", scripts)])
  else if asks "firewall/group_list" url then ok (obj [("dict", firewall_groups)])
  else if asks "sshkey/list" url then ok (obj [("dict", keys)])
  else if asks "server/create" url then ok (obj [("dict", obj [("SUBID", PyStr "42164666")])])
  else if asks "server/list" url then ok (obj [("dict", obj [("42164666", host1)])])
  else if asks "server/destroy" url
       then ok (obj [("body", PyStr ""); ("text", PyStr ""); ("status", PyInt 200)])
  else ok (obj [("dict", PyList [])]).

(** The local files: one startup template. *)
Definition userdata_path : string := "/srv/scripts/userdata.tmpl".
Definition userdata_text : string := "#!/bin/sh".

Definition world_with (locations : pyval) : World :=
  mkWorld (respond locations)
    (fun _ => obj [("api_key", PyStr "KEY")])
    true
    (fun url => String.prefix "https://" url)
    (fun path => py_eqb path (PyStr userdata_path))
    (fun path => if py_eqb path (PyStr userdata_path) then ok userdata_text
                 else err (ExternalError "No such file"))
    (fun _ _ text => ok (PyStr text))
    (fun _ _ => ok (obj [("deployed", PyBool true)]))
    (fun _ => 3%nat).

Definition world : World := world_with locations.


Definition opts : dict :=
  [(PyStr "sock_dir", PyStr "/var/run/salt/master"); (PyStr "transport", PyStr "zeromq")].

(** The request of the end-to-end scenario. *)
Definition request : dict :=
  [(PyStr "name", PyStr "host1"); (PyStr "image", PyStr "CentOS 8 x64");
   (PyStr "size", PyStr "1024 MB RAM,25 GB SSD,1.00 TB BW");
   (PyStr "location", PyStr "Amsterdam"); (PyStr "provider", PyStr "my-vultr-config")].


(** The same request with a startup script of the account. *)
Definition scripted : dict := dict_set (PyStr "startup_script_id") (PyStr "793055") request.

(** The same request with the startup template as user data. *)
Definition templated : dict := dict_set (PyStr "userdata") (PyStr userdata_path) request.

(** A listing in which the display name of one location is the identifier
    of another. *)
Definition clashing_locations : pyval :=
  obj [("1", obj [("DCID", PyStr "1"); ("name", PyStr "7")]);
       ("7", obj [("DCID", PyStr "7"); ("name", PyStr "Amsterdam")])].

End Fixture.

(** ** The rest of the driver *)

Section Listing.

Context (w : World).

(** Lines 154-161: [get_configured_provider() is False] is an identity
    test, only the value [False] itself passes it. *)
Definition __virtual__ : M pyval :=
  def_ (
    p ← get_configured_provider w;
    when (match p with PyBool false => true | _ => false end) (return_ (PyBool false));;
    return_ (PyStr "vultr")).

(** Lines 238-338: the functions behind [salt-cloud -f]; [conn] and [call]
    are not looked at. *)
Definition list_acct_isos (call : pyval) : M pyval := avail_acct_isos w.
Definition list_public_isos (call : pyval) : M pyval := avail_public_isos w.
Definition list_scripts (call : pyval) : M pyval := avail_scripts w.
Definition list_firewall_groups (call : pyval) : M pyval := avail_firewall_groups w.
Definition list_keypairs (call : pyval) : M pyval := avail_keys w.

(** Lines 341-367 *)
Definition show_keypair (kwargs call : pyval) : M pyval :=
  def_ (
    let kwargs := if negb (truthy kwargs) then PyDict [] else kwargs in
    has ← lift (py_in (PyStr "keyname") kwargs);
    when (negb has) (return_ (PyBool false));;
    keys ← list_keypairs (PyStr "function");
    keyname ← lift (py_getitem kwargs (PyStr "keyname"));
    key ← lift (py_getitem keys keyname);
    keyid ← lift (py_getitem key (PyStr "SSHKEYID"));
    keyname ← lift (py_getitem kwargs (PyStr "keyname"));
    key ← lift (py_getitem keys keyname);
    return_ key).

(** Lines 410-414: the properties [list_nodes] keeps of a node. *)
Definition brief_properties : list string :=
  ["id"; "image"; "size"; "state"; "private_ips"; "public_ips"].

(** [ret[node][prop] = nodes[node][prop]] for each property in turn. *)
Fixpoint brief_props (nodes node : pyval) (props : list string) (ret_ : pyval) : result pyval :=
  match props with
  | [] => ok ret_
  | prop :: props' =>
      match (n ← py_getitem nodes node;
             v ← py_getitem n (PyStr prop);
             store_in ret_ node (PyStr prop) v) with
      | inr ret' => brief_props nodes node props' ret'
      | inl e => inl e
      end
  end.

(** The body of the loop of [list_nodes], for one key of [nodes]. *)
Definition brief_node (nodes node : pyval) (ret_ : pyval) : result pyval :=
  ret_ ← py_setitem ret_ node (PyDict []);
  brief_props nodes node brief_properties ret_.

Fixpoint brief_nodes_loop (nodes : pyval) (keys : list pyval) (ret_ : pyval) : result pyval :=
  match keys with
  | [] => ok ret_
  | node :: keys' =>
      match brief_node nodes node ret_ with
      | inr ret' => brief_nodes_loop nodes keys' ret'
      | inl e => inl e
      end
  end.

(** Lines 396-416 *)
Definition list_nodes : M pyval :=
  def_ (
    nodes ← list_nodes_full w;
    keys ← lift (py_iter nodes);
    ret_ ← lift (brief_nodes_loop nodes keys (PyDict []));
    return_ ret_).

End Listing.

(** Lines 494-525: neither action looks at its arguments. *)
Module Action.
Definition stop (w : World) : M pyval := _query w "server/halt" "GET" None true.
Definition start (w : World) : M pyval := _query w "server/start" "GET" None true.
End Action.

(** *** Vocabulary of the servers *)

(** What [list_nodes_full] makes of the answer to [server/list]. *)
Definition listed (response : result pyval) : result pyval :=
  nodes ← decoded response;
  keys ← py_iter nodes;
  list_nodes_loop nodes keys (PyDict []).

(** The answer the provider gives to [server/list] in state [s]. *)
Definition servers (w : World) (s : state) : result pyval :=
  http_query w (trace s) (query_url w s "server/list") "GET" None true.

Definition asked_servers (w : World) (s : state) : event :=
  EvQuery "server/list" "GET" None true (servers w s).

(** The entry [list_nodes_full] files under the label of a server: a copy
    of the server with six properties of the driver's own on top. *)
Definition full_entry (node : pyval) (server : dict) : option dict :=
  os ← dict_get (PyStr "os") server;
  plan ← dict_get (PyStr "VPSPLANID") server;
  status ← dict_get (PyStr "status") server;
  internal_ip ← dict_get (PyStr "internal_ip") server;
  main_ip ← dict_get (PyStr "main_ip") server;
  Some (dict_set (PyStr "public_ips") main_ip
          (dict_set (PyStr "private_ips") internal_ip
             (dict_set (PyStr "state") status
                (dict_set (PyStr "size") plan
                   (dict_set (PyStr "image") os
                      (dict_set (PyStr "id") node server)))))).

(** A server of the listing that [list_nodes_full] can file: a dictionary
    with a hashable label and the five fields the driver reads. *)
Definition fileable (nodes : dict) (node : pyval) : bool :=
  hashable node
  && match dict_get node nodes with
     | Some (PyDict server) =>
         match dict_get (PyStr "label") server with
         | Some label => hashable label
         | None => false
         end
         && match full_entry node server with Some _ => true | None => false end
     | _ => false
     end.

(** An entry of the full listing: a dictionary that has the six properties
    [list_nodes] reads. *)
Definition is_entry (v : pyval) : bool :=
  match v with
  | PyDict e => forallb (fun prop => dict_has (PyStr prop) e) brief_properties
  | _ => false
  end.

(** Every name of the listing is hashable and stands for an entry. *)
Definition filed (d : dict) : bool :=
  forallb (fun kv => hashable (fst kv) && is_entry (snd kv)) d.

(** What [list_nodes] keeps of an entry of the full listing. *)
Definition brief_entry (entry : pyval) : option pyval :=
  match entry with
  | PyDict e =>
      id ← dict_get (PyStr "id") e;
      image ← dict_get (PyStr "image") e;
      size ← dict_get (PyStr "size") e;
      state ← dict_get (PyStr "state") e;
      private_ips ← dict_get (PyStr "private_ips") e;
      public_ips ← dict_get (PyStr "public_ips") e;
      Some (PyDict [(PyStr "id", id); (PyStr "image", image); (PyStr "size", size);
                    (PyStr "state", state); (PyStr "private_ips", private_ips);
                    (PyStr "public_ips", public_ips)])
  | _ => None
  end.

(** The entry the full listing holds under [name] once the servers [keys]
    of the answer [nodes] are filed, in this order: the last server that
    carries the label wins. *)
Fixpoint filed_under (nodes : dict) (keys : list pyval) (name : pyval) : option pyval :=
  match keys with
  | [] => None
  | node :: keys' =>
      match filed_under nodes keys' name with
      | Some entry => Some entry
      | None =>
          match dict_get node nodes with
          | Some (PyDict server) =>
              match dict_get (PyStr "label") server with
              | Some label =>
                  if key_eqb label name then PyDict <$> full_entry node server else None
              | None => None
              end
          | _ => None
          end
      end
  end.

(** ** More providers *)

Module Scene.

(** A provider like [Fixture.world], except for what it answers to the
    request [path]. *)
Definition answering (path : string) (answer : pyval) : World :=
  mkWorld
    (fun history url method data decode =>
       if Fixture.asks path url then ok answer
       else Fixture.respond Fixture.locations history url method data decode)
    (is_provider_configured Fixture.world) (HAS_VALIDATORS Fixture.world)
    (validators_url Fixture.world) (os_path_isfile Fixture.world)
    (fopen_read Fixture.world) (userdata_template Fixture.world)
    (bootstrap Fixture.world) (attempts_within Fixture.world).

(** Two servers that carry the same label. *)
Definition twin (subid ip : string) : pyval :=
  Fixture.obj [("SUBID", PyStr subid); ("os", PyStr "CentOS 8 x64");
               ("main_ip", PyStr ip); ("default_password", PyStr "secret");
               ("status", PyStr "active"); ("server_state", PyStr "ok");
               ("VPSPLANID", PyStr "201"); ("label", PyStr "host1");
               ("internal_ip", PyStr EmptyString)].

Definition twins : World :=
  answering "server/list"
    (Fixture.obj [("dict", Fixture.obj [("111", twin "111" "192.0.2.1");
                                        ("222", twin "222" "192.0.2.2")])]).

(** An account without servers: the provider answers with an empty array. *)
Definition no_servers : World :=
  answering "server/list" (Fixture.obj [("dict", PyList [])]).

(** A provider that cannot be reached for the first request of the process
    and answers like [Fixture.world] from then on. *)
Definition flaky : World :=
  mkWorld
    (fun history url method data decode =>
       match history with
       | [] => err (ExternalError "Connection timed out")
       | _ => Fixture.respond Fixture.locations history url method data decode
       end)
    (is_provider_configured Fixture.world) (HAS_VALIDATORS Fixture.world)
    (validators_url Fixture.world) (os_path_isfile Fixture.world)
    (fopen_read Fixture.world) (userdata_template Fixture.world)
    (bootstrap Fixture.world) (attempts_within Fixture.world).


End Scene.

(** *** Vocabulary of the requests *)

Definition is_destroy_request (ev : event) : bool :=
  match ev with
  | EvQuery path _ _ _ _ => (path =? "server/destroy")%string
  | _ => false
  end.

(** The calls made from [s] to [s']. *)
Definition calls_between (s s' : state) (evs : list event) : Prop :=
  trace s' = (trace s ++ evs)%list.

(** The answer the provider gives to [sshkey/list] in state [s]. *)
Definition keypairs (w : World) (s : state) : result pyval :=
  http_query w (trace s) (query_url w s "sshkey/list") "GET" None true.

(** *** Vocabulary of the catalog *)

(** The cache as the first three statements of a refresh leave it. *)
Definition empty_catalog : dict :=
  [(PyStr "avail_locations", PyDict []); (PyStr "avail_sizes", PyDict []);
   (PyStr "avail_images", PyDict [])].

(** A request that came back with an error instead of an answer. *)
Definition query_failed (ev : event) : bool :=
  match ev with
  | EvQuery _ _ _ _ response =>
      match decoded response with
      | inl _ => true
      | inr _ => false
      end
  | _ => false
  end.

(** *** Vocabulary of the payload *)

(** A field of the payload that is sent only when its setting is truthy. *)
Definition optional (key : string) (v : pyval) : dict :=
  if truthy v then [(PyStr key, v)] else [].

(** The user data of the payload, for a setting that is a string or
    absent. *)
Definition encoded_userdata (userdata : pyval) : dict :=
  match userdata with
  | PyStr u => [(PyStr "userdata", PyBytes (b64encode u))]
  | _ => []
  end.


Definition is_bootstrap (ev : event) : bool :=
  match ev with
  | EvBootstrap _ _ => true
  | _ => false
  end.

(** Requests of the scenario that [create] turns down. *)
Module Bad.

(** Private networking asked for with a string instead of a boolean. *)
Definition private_string : dict :=
  dict_set (PyStr "enable_private_network") (PyStr "yes") Fixture.request.

(** No size. *)
Definition sizeless : dict :=
  [(PyStr "name", PyStr "host1"); (PyStr "image", PyStr "CentOS 8 x64");
   (PyStr "location", PyStr "Amsterdam"); (PyStr "provider", PyStr "my-vultr-config")].

End Bad.

Definition no_bootstrap (ev : event) : bool := negb (is_bootstrap ev).

(** A key of the request record that [create] does not write. *)
Definition kept (key : pyval) : bool :=
  negb (key_eqb (PyStr "driver") key) && negb (key_eqb (PyStr "ssh_host") key)
  && negb (key_eqb (PyStr "ssh_username") key) && negb (key_eqb (PyStr "password") key).

(** * Proofs *)

Local Open Scope list_scope.

(** ** Dictionaries *)

Lemma key_eqb_refl k : hashable k = true -> key_eqb k k = true.
Proof.
  destruct k as [| [] | z | s | s | |]; simpl; intros; try done;
    try apply Z.eqb_refl; apply String.eqb_refl.
Qed.

Lemma key_eqb_sym a b : key_eqb a b = key_eqb b a.
Proof.
  destruct a as [| [] | x | x | x | |], b as [| [] | y | y | y | |]; simpl; try done;
    try apply Z.eqb_sym; apply String.eqb_sym.
Qed.

Lemma key_eqb_trans a b c : key_eqb a b = true -> key_eqb b c = true -> key_eqb a c = true.
Proof.
  destruct a as [| [] | x | x | x | |], b as [| [] | y | y | y | |],
    c as [| [] | z | z | z | |]; simpl; try done;
    rewrite ?Z.eqb_eq, ?String.eqb_eq; try congruence; try lia.
Qed.

Lemma dict_get_set_eq k v d : hashable k = true -> dict_get k (dict_set k v d) = Some v.
Proof.
  intros Hk. induction d as [| [k' v'] d IH]; simpl.
  - by rewrite key_eqb_refl.
  - destruct (key_eqb k' k) eqn:E; simpl; rewrite E; done.
Qed.

Lemma dict_get_set_other k k' v d :
  key_eqb k k' = false -> dict_get k' (dict_set k v d) = dict_get k' d.
Proof.
  intros Hne. induction d as [| [k0 v0] d IH]; simpl.
  - by rewrite Hne.
  - destruct (key_eqb k0 k) eqn:E; simpl.
    + destruct (key_eqb k0 k') eqn:E'; [| done].
      rewrite key_eqb_sym in E. pose proof (key_eqb_trans _ _ _ E E'). congruence.
    + by rewrite IH.
Qed.

Lemma dict_set_nonempty k v d : dict_set k v d <> [].
Proof. destruct d as [| [k' v'] d]; simpl; [done |]. by destruct (key_eqb k' k). Qed.

Lemma dict_set_same k v d : dict_get k d = Some v -> dict_set k v d = d.
Proof.
  induction d as [| [k' v'] d IH]; simpl; [done |].
  destruct (key_eqb k' k); intros H; [by simplify_eq | by rewrite IH].
Qed.

Lemma dict_set_set k v1 v2 d :
  hashable k = true -> dict_set k v2 (dict_set k v1 d) = dict_set k v2 d.
Proof.
  intros Hk. induction d as [| [k' v'] d IH]; simpl.
  - by rewrite key_eqb_refl.
  - destruct (key_eqb k' k) eqn:E; simpl; rewrite E; [done | by rewrite IH].
Qed.

Lemma dict_get_equal_keys k k' d : key_eqb k k' = true -> dict_get k d = dict_get k' d.
Proof.
  intros E. induction d as [| [k0 v0] d IH]; simpl; [done |].
  destruct (key_eqb k0 k) eqn:E1.
  - by rewrite (key_eqb_trans _ _ _ E1 E).
  - destruct (key_eqb k0 k') eqn:E2; [| done].
    rewrite key_eqb_sym in E. pose proof (key_eqb_trans _ _ _ E2 E). congruence.
Qed.

Lemma forallb_weaken {A} (f g : A -> bool) l :
  (forall x, f x = true -> g x = true) -> forallb f l = true -> forallb g l = true.
Proof.
  intros Hfg. rewrite !forallb_forall. intros H x Hx. by apply Hfg, H.
Qed.

Ltac dict_solve :=
  rewrite ?dict_get_set_other by done; rewrite ?dict_get_set_eq by done; done.

Ltac bool_cases :=
  repeat match goal with
         | |- context [py_getitem ?a ?b] => destruct (py_getitem a b)
         | |- context [key_eqb ?a ?b] => destruct (key_eqb a b)
         end; simpl; done.

(** ** Stepping through a block *)

Ltac run :=
  repeat (progress (unfold mbind, mret, M_bind, M_ret, bind, ret, lift, def_, emit,
    get_DETAILS, put_DETAILS, get_opts, put_opts, get_trace, return_, raise, when, sleep,
    try_except, result_bind, result_ret, ok, err in *;
    cbn beta iota zeta delta [fst snd DETAILS __opts__ trace to_outcome record] in *)).

Lemma _query_run w path method data decode s :
  let response := http_query w (trace s) (query_url w s path) method data decode in
  _query w path method data decode s
  = (to_outcome (decoded response), record (EvQuery path method data decode response) s).
Proof.
  intros response. unfold _query, get_configured_provider. run.
  fold (query_url w s path). fold response.
  unfold decoded. destruct response as [e | result]; run; [done |].
  destruct (py_in "dict" result) as [e | []]; run; try done.
  destruct (py_getitem result "dict"); run; done.
Qed.

Lemma bind_next {A B} (m : M A) (f : A -> M B) s a s1 :
  m s = (Next a, s1) -> (m ≫= f) s = f a s1.
Proof. intros E. unfold mbind, M_bind, bind. by rewrite E. Qed.

Lemma bind_return {A B} (m : M A) (f : A -> M B) s v s1 :
  m s = (Return v, s1) -> (m ≫= f) s = (Return v, s1).
Proof. intros E. unfold mbind, M_bind, bind. by rewrite E. Qed.

Lemma bind_raise {A B} (m : M A) (f : A -> M B) s e s1 :
  m s = (Raise e, s1) -> (m ≫= f) s = (Raise e, s1).
Proof. intros E. unfold mbind, M_bind, bind. by rewrite E. Qed.

Lemma for_cons {A} (x : A) l body : for_ (x :: l) body = body x ≫= fun _ => for_ l body.
Proof. reflexivity. Qed.

Lemma def_inv body s o s' :
  def_ body s = (o, s') ->
  (exists u, body s = (Next u, s') /\ o = Next PyNone)
  \/ (exists v, body s = (Return v, s') /\ o = Next v)
  \/ (exists e, body s = (Raise e, s') /\ o = Raise e).
Proof.
  unfold def_. destruct (body s) as [[u | v | e] s1]; intros; simplify_eq; eauto.
Qed.

Lemma lift_inv {A} (r : result A) s o s' :
  lift r s = (o, s') -> s' = s /\ o = to_outcome r.
Proof. destruct r; unfold lift, raise, ret; simpl; intros; by simplify_eq. Qed.

Lemma to_outcome_next {A} (r : result A) a : to_outcome r = Next a -> r = inr a.
Proof. destruct r; simpl; intros; by simplify_eq. Qed.

Lemma to_outcome_raise {A} (r : result A) e : to_outcome r = Raise e -> r = inl e.
Proof. destruct r; simpl; intros; by simplify_eq. Qed.

Lemma to_outcome_return {A} (r : result A) v : to_outcome r <> Return v.
Proof. by destruct r. Qed.

Lemma not_listed_run ref listing s :
  not_listed ref listing s
  = (to_outcome (match py_in (PyStr (py_str ref)) listing with
                 | inr listed => inr (negb listed)
                 | inl e => inl e
                 end), s).
Proof. unfold not_listed. run. by destruct (py_in _ _). Qed.

(** Bring the equation of one primitive statement into normal form. *)
Ltac norm E :=
  lazymatch type of E with
  | _query _ _ _ _ _ _ = _ => rewrite _query_run in E
  | not_listed _ _ _ = _ => rewrite not_listed_run in E
  | lift _ _ = _ => apply lift_inv in E; destruct E as [-> E]; symmetry in E
  | get_DETAILS _ = _ => unfold get_DETAILS in E
  | put_DETAILS _ _ = _ => unfold put_DETAILS in E
  | get_opts _ = _ => unfold get_opts in E
  | put_opts _ _ = _ => unfold put_opts in E
  | get_trace _ = _ => unfold get_trace in E
  | emit _ _ = _ => unfold emit in E
  | sleep _ _ = _ => unfold sleep, emit in E
  | when _ _ _ = _ => unfold when in E
  | mret _ _ = _ => unfold mret, M_ret, ret in E
  | ret _ _ = _ => unfold ret in E
  | return_ _ _ = _ => unfold return_ in E
  | raise _ _ = _ => unfold raise in E
  | (_, _) = (_, _) => idtac
  end;
  try match type of E with
      | (_, _) = (_, _) => injection E as E ?
      end;
  try match type of E with
      | to_outcome _ = Next _ => apply to_outcome_next in E
      | to_outcome _ = Raise _ => apply to_outcome_raise in E
      | to_outcome _ = Return _ => by apply to_outcome_return in E
      | Next _ = Next _ => injection E as E
      end;
  simplify_eq.

(** Split the first statement off the block in [H]; the goals that remain
    are that it fell through, returned, or raised; [E] names what the
    statement did. *)
Tactic Notation "step" hyp(H) "as" ident(E) :=
  lazymatch type of H with
  | (@mbind M _ ?A ?B ?f ?m) ?s = _ =>
      let a := fresh "a" in
      let v := fresh "v" in
      let e := fresh "e" in
      let s1 := fresh "s" in
      destruct (m s) as [[a | v | e] s1] eqn:E;
      [ rewrite (@bind_next A B m f s a s1 E) in H;
        try lazymatch type of a with unit => destruct a end
      | rewrite (@bind_return A B m f s v s1 E) in H
      | rewrite (@bind_raise A B m f s e s1 E) in H ];
      cbv beta in H; try norm E;
      try lazymatch type of H with
          | (@mbind M _ _ _ _ _) _ = _ => idtac
          | _ => norm H
          end
  end.

Tactic Notation "step" hyp(H) := let E := fresh "E" in step H as E.

Ltac forget_response H :=
  match type of H with
  | decoded ?r = _ => let x := fresh "response" in set (x := r) in *; clearbody x
  end.

Ltac no_units := repeat match goal with u : () |- _ => destruct u end.

(** ** Frame conditions *)

#[global] Instance moves_preorder Q : PreOrder (moves Q).
Proof.
  split.
  - intros s. split; [done |]. exists []. by rewrite app_nil_r.
  - intros s1 s2 s3 [Hd1 (e1 & Ht1 & Hq1)] [Hd2 (e2 & Ht2 & Hq2)]. split; [congruence |].
    exists (e1 ++ e2)%list. rewrite Ht2, Ht1, app_assoc, forallb_app, Hq1, Hq2. done.
Qed.

#[global] Instance calls_preorder Q : PreOrder (calls Q).
Proof.
  split.
  - intros s. exists []. by rewrite app_nil_r.
  - intros s1 s2 s3 (e1 & Ht1 & Hq1) (e2 & Ht2 & Hq2).
    exists (e1 ++ e2)%list. rewrite Ht2, Ht1, app_assoc, forallb_app, Hq1, Hq2. done.
Qed.

#[global] Instance settled_preorder Q : PreOrder (settled Q).
Proof.
  split.
  - intros s _. reflexivity.
  - intros s1 s2 s3 H12 H23 Hd. specialize (H12 Hd). etrans; [done |].
    apply H23. destruct H12 as [-> _]. done.
Qed.

Lemma moves_weaken (Q Q' : event -> bool) s s' :
  (forall ev, Q ev = true -> Q' ev = true) -> moves Q s s' -> moves Q' s s'.
Proof.
  intros HQ [Hd (evs & Ht & Hq)]. split; [done |]. exists evs. split; [done |].
  by eapply forallb_weaken.
Qed.

Lemma moves_record Q ev s : Q ev = true -> moves Q s (record ev s).
Proof. intros H. split; [done |]. exists [ev]. simpl. by rewrite H. Qed.

Section Obeys.

Context (R : state -> state -> Prop) `{!PreOrder R} (P : pyval -> Prop).

Lemma obeys_ret {A} (a : A) : obeys R P (mret a).
Proof. intros s o s' H. unfold mret, M_ret, ret in H. by simplify_eq. Qed.

Lemma obeys_return {A} v : P v -> obeys R P (@return_ A v).
Proof. intros Hv s o s' H. unfold return_ in H. simplify_eq. split; [done | naive_solver]. Qed.

Lemma obeys_raise {A} e : obeys R P (@raise A e).
Proof. intros s o s' H. unfold raise in H. by simplify_eq. Qed.

Lemma obeys_lift {A} (r : result A) : obeys R P (lift r).
Proof.
  intros s o s' H. apply lift_inv in H as [-> ->]. split; [done |].
  intros v Hv. by apply to_outcome_return in Hv.
Qed.

Lemma obeys_bind {A B} (m : M A) (f : A -> M B) :
  obeys R P m -> (forall a, obeys R P (f a)) -> obeys R P (m ≫= f).
Proof.
  intros Hm Hf s o s' H. step H.
  - destruct (Hm _ _ _ E) as [H1 _], (Hf _ _ _ _ H) as [H2 H3]. split; [by etrans | done].
  - simplify_eq. destruct (Hm _ _ _ E) as [H1 H2]. split; [done |].
    intros v0 [= <-]. by apply H2.
  - simplify_eq. destruct (Hm _ _ _ E) as [H1 H2]. done.
Qed.

Lemma obeys_def body : obeys R anything body -> obeys R P (def_ body).
Proof.
  intros Hb s o s' H. apply def_inv in H as [(u & H & ->) | [(v & H & ->) | (e & H & ->)]];
    (split; [exact (proj1 (Hb _ _ _ H)) | done]).
Qed.

Lemma obeys_try {A} (body : M A) caught handler :
  obeys R P body -> obeys R P handler -> obeys R P (try_except body caught handler).
Proof.
  intros Hb Hh s o s' H. unfold try_except in H.
  destruct (body s) as [[a | v | e] s1] eqn:E; simplify_eq; try exact (Hb _ _ _ E).
  destruct (caught e); simplify_eq; [| exact (Hb _ _ _ E)].
  destruct (Hb _ _ _ E) as [H1 _], (Hh _ _ _ H) as [H2 H3]. split; [by etrans | done].
Qed.

Lemma obeys_when c body : obeys R P body -> obeys R P (when c body).
Proof. intros Hb. unfold when. destruct c; [done | apply obeys_ret]. Qed.

Lemma obeys_for {A} (l : list A) body :
  (forall x, obeys R P (body x)) -> obeys R P (for_ l body).
Proof.
  intros Hb. induction l as [| x l IH]; simpl; [apply obeys_ret |].
  apply (obeys_bind (body x) (fun _ => for_ l body)); [apply Hb | done].
Qed.

Lemma obeys_get_opts : obeys R P get_opts.
Proof. intros s o s' H. unfold get_opts in H. by simplify_eq. Qed.

Lemma obeys_get_trace : obeys R P get_trace.
Proof. intros s o s' H. unfold get_trace in H. by simplify_eq. Qed.

Lemma obeys_get_DETAILS : obeys R P get_DETAILS.
Proof. intros s o s' H. unfold get_DETAILS in H. by simplify_eq. Qed.

End Obeys.

Lemma obeys_weaken (R R' : state -> state -> Prop) (P P' : pyval -> Prop) {A} (m : M A) :
  (forall s s', R s s' -> R' s s') -> (forall v, P v -> P' v) ->
  obeys R P m -> obeys R' P' m.
Proof. intros HR HP Hm s o s' H. destruct (Hm _ _ _ H). split; eauto. Qed.

Lemma moves_emit Q P ev : Q ev = true -> obeys (moves Q) P (emit ev).
Proof.
  intros HQ s o s' H. unfold emit in H. simplify_eq. split; [by apply moves_record | done].
Qed.

Lemma moves_put_opts Q P o : obeys (moves Q) P (put_opts o).
Proof.
  intros s o' s' H. unfold put_opts in H. simplify_eq. split; [| done]. split; [done |].
  exists []. simpl. by rewrite app_nil_r.
Qed.

Lemma moves_query Q P w path method data decode :
  (forall response, Q (EvQuery path method data decode response) = true) ->
  obeys (moves Q) P (_query w path method data decode).
Proof.
  intros HQ s o s' H. rewrite _query_run in H. simplify_eq. split; [by apply moves_record |].
  intros v Hv. by apply to_outcome_return in Hv.
Qed.

(** One rule of the frame calculus, chosen by the shape of the block. *)
Ltac frame_step :=
  lazymatch goal with
  | |- PreOrder _ => apply _
  | |- anything _ => exact I
  | |- only_False _ => reflexivity
  | |- obeys _ _ ((fun _ => _) _) => cbv beta
  | |- obeys _ _ (mret _) => apply obeys_ret
  | |- obeys _ _ (return_ _) => apply obeys_return
  | |- obeys _ _ (raise _) => apply obeys_raise
  | |- obeys _ _ (lift _) => apply obeys_lift
  | |- obeys _ _ get_opts => apply obeys_get_opts
  | |- obeys _ _ get_trace => apply obeys_get_trace
  | |- obeys _ _ get_DETAILS => apply obeys_get_DETAILS
  | |- obeys _ _ (put_opts _) => apply moves_put_opts
  | |- obeys _ _ (emit _) => apply moves_emit; solve [auto]
  | |- obeys _ _ (_query _ _ _ _ _) => apply moves_query; solve [auto]
  | |- obeys _ _ (@mbind _ _ _ _ _ _) => apply obeys_bind; [.. | intros ?]
  | |- obeys _ _ (def_ _) => apply obeys_def
  | |- obeys _ _ (try_except _ _ _) => apply obeys_try
  | |- obeys _ _ (when _ _) => apply obeys_when
  | |- obeys _ _ (for_ _ _) => apply obeys_for; [.. | intros ?]
  | |- obeys _ _ (if ?c then _ else _) => destruct c
  | |- obeys _ _ (match ?x with _ => _ end) => destruct x
  | |- obeys _ _ _ => solve [eauto]
  end.

Ltac frame := repeat frame_step.

(** ** The codecs on samples *)

Example b64encode_sample : b64encode "any carnal pleas" = "YW55IGNhcm5hbCBwbGVhcw==".
Proof. reflexivity. Qed.

Example urlencode_sample :
  urlencode [(PyStr "label", PyStr "host 1"); (PyStr "OSID", PyInt 362);
             (PyStr "userdata", PyBytes "YQ==")]
  = "label=host+1&OSID=362&userdata=YQ%3D%3D".
Proof. reflexivity. Qed.

Example split_sample : split_on "," "dev1,,salt-master" = ["dev1"; ""; "salt-master"].
Proof. reflexivity. Qed.

Example py_int_sample : py_int (PyStr "412") = ok 412 /\ py_int (PyStr "4x") = err ValueError.
Proof. split; reflexivity. Qed.


(** ** The catalog cache *)

Lemma DETAILS_store_run availkey key value category s :
  dict_get (PyStr availkey) (DETAILS s) = Some (PyDict category) ->
  DETAILS_store availkey key value s
  = if hashable key
    then (Next tt, mkState (dict_set (PyStr availkey) (PyDict (dict_set key value category))
                              (DETAILS s)) (__opts__ s) (trace s))
    else (Raise TypeError, s).
Proof.
  intros H. unfold DETAILS_store, py_getitem, py_setitem. run. simpl. rewrite H.
  by destruct (hashable key).
Qed.

(** The loop of the source computes [indexed]. *)
Lemma index_entries_run availkey items : forall category s o s',
  dict_get (PyStr availkey) (DETAILS s) = Some (PyDict category) ->
  index_entries availkey items s = (o, s') ->
  __opts__ s' = __opts__ s /\ trace s' = trace s
  /\ (exists category', DETAILS s' = dict_set (PyStr availkey) (PyDict category') (DETAILS s)
      /\ (o = Next tt -> indexed items category = ok category'))
  /\ (forall v, o <> Return v).
Proof.
  unfold index_entries.
  induction items as [| [key entry] items IH]; intros category s o s' Hcat Hrun.
  - simpl in Hrun. run. simplify_eq. repeat split; [| done].
    exists category. split; [by rewrite dict_set_same | done].
  - simpl in Hrun. run. simpl in *.
    destruct (py_getitem entry "name") as [e | name] eqn:Hname; run.
    { simplify_eq. repeat split; [| done].
      exists category. split; [by rewrite dict_set_same | done]. }
    rewrite (DETAILS_store_run _ _ _ category) in Hrun by done.
    destruct (hashable name) eqn:Hn; run.
    2:{ simplify_eq. repeat split; [| done].
        exists category. split; [by rewrite dict_set_same | done]. }
    rewrite (DETAILS_store_run _ _ _ (dict_set name entry category)) in Hrun
      by (simpl; by rewrite dict_get_set_eq).
    simpl in Hrun. destruct (hashable key) eqn:Hk; run.
    2:{ simplify_eq. simpl. repeat split; [| done].
        eexists. split; [done | done]. }
    rewrite dict_set_set in Hrun by done.
    eapply IH in Hrun as (Ho & Ht & (c' & Hd & Hidx) & Hret);
      [| simpl; by rewrite dict_get_set_eq].
    simpl in *. repeat split; [done | done | | done].
    exists c'. rewrite Hd, dict_set_set by done. split; [done |].
    intros ->. by apply Hidx.
Qed.

Lemma indexed_untouched key items : forall category category',
  indexed items category = ok category' ->
  forallb (fun item => negb (matches key item)) items = true ->
  dict_get key category' = dict_get key category.
Proof.
  induction items as [| [k e] items IH]; intros c c' Hidx Hfree; simpl in *.
  - unfold ok in Hidx. by simplify_eq.
  - run. unfold matches in Hfree at 1. simpl in Hfree.
    destruct (py_getitem e "name") as [| n]; [done |].
    destruct (hashable n && hashable k); [| done].
    apply andb_prop in Hfree as [[Hk Hn]%negb_true_iff%orb_false_elim Hfree].
    rewrite (IH _ _ Hidx Hfree). by rewrite !dict_get_set_other.
Qed.

Lemma indexed_app a : forall b category,
  indexed (a ++ b) category = indexed a category ≫= indexed b.
Proof.
  induction a as [| [k e] a IH]; intros b c; simpl; [done |].
  run. destruct (py_getitem e "name") as [| n]; [done |].
  destruct (hashable n && hashable k); [| done]. apply IH.
Qed.

(** The last writer wins: an entry is found under its key and under its
    name unless a later item overwrites one of the two. *)
Lemma indexed_lookup pre key entry post name category category' :
  indexed (pre ++ (key, entry) :: post) category = ok category' ->
  py_getitem entry (PyStr "name") = ok name ->
  forallb (fun item => negb (clashes key name item)) post = true ->
  dict_get key category' = Some entry /\ dict_get name category' = Some entry.
Proof.
  intros Hidx Hname Hfree. rewrite indexed_app in Hidx.
  destruct (indexed pre category) as [| c1] eqn:Hpre; [done |].
  run. cbn [indexed] in Hidx. rewrite Hname in Hidx. run.
  destruct (hashable name) eqn:Hn; [| done]. destruct (hashable key) eqn:Hk; [| done].
  simpl in Hidx. split.
  - rewrite (indexed_untouched key _ _ _ Hidx).
    + by rewrite dict_get_set_eq.
    + eapply forallb_weaken; [| exact Hfree]. intros item. unfold clashes, matches.
      bool_cases.
  - rewrite (indexed_untouched name _ _ _ Hidx).
    + destruct (key_eqb key name) eqn:E.
      * rewrite <- (dict_get_equal_keys key name) by done. by rewrite dict_get_set_eq.
      * rewrite dict_get_set_other by done. by rewrite dict_get_set_eq.
    + eapply forallb_weaken; [| exact Hfree]. intros item. unfold clashes, matches.
      bool_cases.
Qed.

(** A populated cache is only read. *)
Lemma lookup_cached w which_key availkey keyname s :
  DETAILS s <> [] ->
  _lookup_vultrid w which_key availkey keyname s
  = (cached (DETAILS s) which_key availkey keyname, s).
Proof.
  intros Hd. unfold _lookup_vultrid, cached. run.
  destruct (DETAILS s) eqn:E; [done |]. run. rewrite E.
  destruct (DETAILS_field _ _ _ _) as [e |]; [| done]. by destruct (is_KeyError e).
Qed.

Ltac close_exit :=
  lazymatch goal with
  | |- DETAILS _ <> [] =>
      simpl; repeat match goal with H : DETAILS _ = _ |- _ => rewrite H end;
      first [apply dict_set_nonempty | done]
  | |- __opts__ _ = __opts__ _ => simpl; congruence
  | |- exists evs, _ =>
      repeat match goal with H : trace _ = trace _ |- _ => rewrite H end;
      first [done | eexists; split; [simpl; rewrite <- ?app_assoc; reflexivity | done]]
  end.

Ltac leave :=
  simplify_eq;
  match goal with
  | H : forall e, _ = Raise e -> _ |- _ => eapply H; [reflexivity | close_exit..]
  end.

Ltac trace_ext :=
  eexists; split; [simpl; rewrite <- ?app_assoc; reflexivity | done].

(** What a refresh does: the cache is non-empty from its first statement
    on, three listings are fetched, and on success the cache holds the three
    indexes. *)
Lemma refresh_run w s o s' :
  _cache_provider_details w s = (o, s') ->
  DETAILS s' <> [] /\ __opts__ s' = __opts__ s
  /\ (exists evs, trace s' = (trace s ++ evs)%list /\ forallb is_catalog_query evs = true)
  /\ (forall v, o <> Return v)
  /\ (DETAILS s = [] -> forall v, o = Next v ->
      exists rl ri rs il ii is_ cl ci cs,
        trace s' = (trace s ++ [EvQuery "regions/list" "GET" None true rl;
                                EvQuery "os/list" "GET" None true ri;
                                EvQuery "plans/list" "GET" None true rs])%list
        /\ decoded rl ≫= py_items = ok il /\ decoded ri ≫= py_items = ok ii
        /\ decoded rs ≫= py_items = ok is_
        /\ indexed il [] = ok cl /\ indexed ii [] = ok ci /\ indexed is_ [] = ok cs
        /\ DETAILS s' = [(PyStr "avail_locations", PyDict cl); (PyStr "avail_sizes", PyDict cs);
                         (PyStr "avail_images", PyDict ci)]).
Proof.
  unfold _cache_provider_details, avail_locations, avail_images, avail_sizes.
  intros Hrun.
  assert (forall u, def_ u s = (o, s') -> exists o', u s = (o', s')
            /\ (forall v, o <> Return v)
            /\ (forall v, o = Next v -> o' = Next tt \/ o' = Return v)) as Hdef.
  { intros u [(x & H & ->) | [(v & H & ->) | (e & H & ->)]]%def_inv.
    - exists (Next x). destruct x. naive_solver.
    - exists (Return v). naive_solver.
    - exists (Raise e). naive_solver. }
  apply Hdef in Hrun as (o' & Hrun & Hret & Hnext). clear Hdef.
  do 6 (step Hrun).
  assert (Hexit : forall e, o' = Raise e -> DETAILS s' <> [] -> __opts__ s' = __opts__ s0 ->
            (exists evs, trace s' = (trace s0 ++ evs)%list
                         /\ forallb is_catalog_query evs = true) ->
            DETAILS s' ≠ [] ∧ __opts__ s' = __opts__ s0
            ∧ (∃ evs, trace s' = (trace s0 ++ evs)%list ∧ forallb is_catalog_query evs = true)
            ∧ (∀ v, o ≠ Return v)
            ∧ (DETAILS s0 = [] → ∀ v, o = Next v → ∃ rl ri rs il ii is_ cl ci cs,
                 trace s' = (trace s0 ++ [EvQuery "regions/list" "GET" None true rl;
                     EvQuery "os/list" "GET" None true ri;
                     EvQuery "plans/list" "GET" None true rs])%list
                 ∧ decoded rl ≫= py_items = ok il ∧ decoded ri ≫= py_items = ok ii
                 ∧ decoded rs ≫= py_items = ok is_
                 ∧ indexed il [] = ok cl ∧ indexed ii [] = ok ci ∧ indexed is_ [] = ok cs
                 ∧ DETAILS s' = [(PyStr "avail_locations", PyDict cl);
                                 (PyStr "avail_sizes", PyDict cs);
                                 (PyStr "avail_images", PyDict ci)])).
  { intros e -> ? ? ?. repeat split; eauto.
    intros _ v Hv. destruct (Hnext v Hv); done. }
  step Hrun as Hl; [| leave]. forget_response Hl.
  step Hrun as Hi; [| leave]. forget_response Hi.
  step Hrun as Hs; [| leave]. forget_response Hs.
  match type of Hrun with context [record ?a (record ?b (record ?c ?x))] =>
    set (s1 := record a (record b (record c x))) in * end.
  assert (Hs1 : exists evs, trace s1 = (trace s0 ++ evs)%list
                            /\ forallb is_catalog_query evs = true) by trace_ext.
  assert (Hs1t : trace s1 = (trace s0 ++ [EvQuery "regions/list" "GET" None true _;
             EvQuery "os/list" "GET" None true _; EvQuery "plans/list" "GET" None true _])%list)
    by (subst s1; simpl; rewrite <- !app_assoc; reflexivity).
  assert (Hs1' : DETAILS s1 = dict_set (PyStr "avail_images") (PyDict [])
            (dict_set (PyStr "avail_sizes") (PyDict [])
               (dict_set (PyStr "avail_locations") (PyDict []) (DETAILS s0)))) by done.
  assert (Hs1'' : __opts__ s1 = __opts__ s0) by done.
  clearbody s1.
  step Hrun as Hil; [| leave].
  step Hrun as Hxl;
    (eapply index_entries_run in Hxl as (Ho & Ht & (cl & Hd & Hcl) & Hnr);
     [| rewrite Hs1'; dict_solve]);
    [| by destruct (Hnr v) | leave].
  no_units. specialize (Hcl eq_refl). clear Hnr.
  step Hrun as Hii; [| leave].
  step Hrun as Hxi;
    (eapply index_entries_run in Hxi as (Ho' & Ht' & (ci & Hd' & Hci) & Hnr);
     [| rewrite Hd, Hs1'; dict_solve]);
    [| by destruct (Hnr v) | leave].
  no_units. specialize (Hci eq_refl). clear Hnr.
  step Hrun as His; [| leave].
  eapply index_entries_run in Hrun as (Ho'' & Ht'' & (cs & Hd'' & Hcs) & Hnr);
    [| rewrite Hd', Hd, Hs1'; dict_solve].
  split; [rewrite Hd''; apply dict_set_nonempty |].
  split; [congruence |].
  split; [by rewrite Ht'', Ht', Ht |].
  split; [done |].
  intros Hempty v Hv. destruct (Hnext v Hv) as [-> | ->]; [| by destruct (Hnr v)].
  specialize (Hcs eq_refl).
  do 9 eexists. split; [rewrite Ht'', Ht', Ht; exact Hs1t |].
  rewrite Hl, Hi, Hs. run. rewrite Hil, Hii, His.
  repeat split; try done.
  rewrite Hd'', Hd', Hd, Hs1', Hempty. reflexivity.
Qed.

Lemma lookup_run w which_key availkey keyname s o s' :
  _lookup_vultrid w which_key availkey keyname s = (o, s') ->
  DETAILS s' <> [] /\ __opts__ s' = __opts__ s
  /\ (DETAILS s <> [] -> s' = s)
  /\ (exists evs, trace s' = (trace s ++ evs)%list /\ forallb is_catalog_query evs = true)
  /\ (o = cached (DETAILS s') which_key availkey keyname \/ exists e, o = Raise e).
Proof.
  intros Hrun. destruct (DETAILS s) as [| item d] eqn:Hd.
  2:{ rewrite lookup_cached in Hrun by (rewrite Hd; done). simplify_eq.
      rewrite Hd. split; [done |]. split; [done |]. split; [done |].
      split; [exists []; by rewrite app_nil_r | by left]. }
  unfold _lookup_vultrid, def_ in Hrun.
  match type of Hrun with context [?b s] => destruct (b s) as [ob sb] eqn:Hb end.
  step Hb. rewrite Hd in Hb.
  step Hb as Hr; step Hr as Hr'; try norm Hr;
    apply refresh_run in Hr' as (Hne & Ho & Hev & Hnr & _);
    simplify_eq; try (exfalso; eapply Hnr; reflexivity).
  - unfold try_except in Hb.
    match type of Hb with context [?b s] => destruct (b s) as [[u | v | e] sc] eqn:Hc end;
      step Hc; step Hc as Hf.
    all: try norm Hc; simplify_eq.
    + split_and!; try done. left. unfold cached. by rewrite Hf.
    + destruct (is_KeyError e) eqn:Hk; try norm Hb; simplify_eq.
      * split_and!; try done. left. unfold cached. by rewrite Hf, Hk.
      * split_and!; try done. left. unfold cached. by rewrite Hf, Hk.
  - simplify_eq. split_and!; try done. right. by eexists.
Qed.

(** ** What each part of the driver may touch *)

Section Frames.

Context (w : World) (Q : event -> bool) (P : pyval -> Prop).

Lemma moves_list_nodes_full :
  (forall r, Q (EvQuery "server/list" "GET" None true r) = true) ->
  obeys (moves Q) P (list_nodes_full w).
Proof. intros. unfold list_nodes_full. frame. Qed.

Lemma moves_show_instance name call :
  allows_polling Q -> obeys (moves Q) P (show_instance w name call).
Proof.
  intros (? & ? & ?). unfold show_instance, list_nodes_full. frame.
Qed.

Lemma moves_fire_event description t :
  Q (EvFireEvent description t) = true -> obeys (moves Q) P (fire_event description t).
Proof. intros. unfold fire_event. frame. Qed.

Lemma moves_topic vm_ what : obeys (moves Q) P (topic vm_ what).
Proof. unfold topic. frame. Qed.

Lemma moves_probe vm_ p :
  allows_polling Q ->
  obeys (moves Q) P
    (match p with
     | Hostname => wait_for_hostname w vm_
     | DefaultPassword => wait_for_default_password w vm_
     | Status => wait_for_status w vm_
     | ServerState => wait_for_server_state w vm_
     end).
Proof.
  intros (? & ? & ?).
  destruct p; unfold wait_for_hostname, wait_for_default_password, wait_for_status,
    wait_for_server_state, sleep, show_instance, list_nodes_full; frame.
Qed.

Lemma moves_wait_loop n fun_ : obeys (moves Q) P fun_ -> obeys (moves Q) P (wait_loop n fun_).
Proof. intros. induction n; simpl; frame. Qed.

Lemma moves_wait_for_fun p fun_ timeout :
  Q (EvWaitForFun p timeout) = true ->
  obeys (moves Q) P fun_ -> obeys (moves Q) P (wait_for_fun w p fun_ timeout).
Proof. intros. pose proof moves_wait_loop. unfold wait_for_fun. frame. Qed.

Lemma moves_wait_until_ready vm_ o :
  allows_polling Q -> (forall p t, Q (EvWaitForFun p t) = true) ->
  obeys (moves Q) P (wait_until_ready w vm_ o).
Proof.
  intros Hp Hw. unfold wait_until_ready.
  pose proof (fun vm_ => moves_probe vm_ Hostname Hp) as H1.
  pose proof (fun vm_ => moves_probe vm_ DefaultPassword Hp) as H2.
  pose proof (fun vm_ => moves_probe vm_ Status Hp) as H3.
  pose proof (fun vm_ => moves_probe vm_ ServerState Hp) as H4.
  cbv beta iota in H1, H2, H3, H4.
  cbv zeta. frame; (apply moves_wait_for_fun; [apply Hw | done]).
Qed.

Lemma moves_attach_userdata o vm_ userdata kwargs :
  obeys (moves Q) P (attach_userdata w o vm_ userdata kwargs).
Proof. unfold attach_userdata. frame. Qed.

Lemma moves_assemble vm_ o osid vpsplanid dcid :
  obeys (moves Q) P (assemble w vm_ o osid vpsplanid dcid).
Proof. pose proof moves_attach_userdata. unfold assemble. cbv zeta. frame. Qed.

Lemma moves_set_driver vm_ : obeys (moves Q) P (set_driver vm_).
Proof. unfold set_driver. frame. Qed.

End Frames.

Section MoreFrames.

Context (w : World) (Q : event -> bool).

Lemma moves_bootstrap_and_report vm_ :
  allows_polling Q -> (forall v o, Q (EvBootstrap v o) = true) ->
  (forall t, Q (EvFireEvent "created instance" t) = true) ->
  obeys (moves Q) anything (bootstrap_and_report w vm_).
Proof.
  intros (? & ? & ?) ? ?.
  unfold bootstrap_and_report, get_configured_provider, show_instance, list_nodes_full,
    topic, fire_event.
  frame.
Qed.

Lemma moves_request_instance vm_ kwargs :
  (forall d r, Q (EvQuery "server/create" "POST" d true r) = true) ->
  (forall d t, Q (EvFireEvent d t) = true) ->
  obeys (moves Q) only_False (request_instance w vm_ kwargs).
Proof.
  intros ? ?. unfold request_instance, request_failed, topic, fire_event. frame.
Qed.

Lemma moves_check_references vm_ o :
  allows_listings Q -> obeys (moves Q) only_False (check_references w vm_ o).
Proof.
  intros HQ.
  pose proof (fun r => HQ "startupscript/list" r ltac:(simpl; tauto)).
  pose proof (fun r => HQ "iso/list" r ltac:(simpl; tauto)).
  pose proof (fun r => HQ "iso/list_public" r ltac:(simpl; tauto)).
  pose proof (fun r => HQ "firewall/group_list" r ltac:(simpl; tauto)).
  pose proof (fun r => HQ "sshkey/list" r ltac:(simpl; tauto)).
  unfold check_references, require_listed, require_iso, require_url, require_keys,
    require_bool, not_listed, avail_scripts, avail_acct_isos, avail_public_isos,
    avail_firewall_groups, avail_keys.
  frame.
Qed.

End MoreFrames.
Lemma create_unfold w vm_ s :
  create w vm_ s = def_ (prepare w vm_ ≫= provision w) s.
Proof.
  unfold create, prepare, provision, def_.
  unfold mbind, M_bind, bind, mret, M_ret, ret.
  repeat (case_match; cbn [fst snd] in *; simplify_eq; try done).
Qed.

(** ** The checks of the optional references *)

Lemma after_nothing s : after s [] s.
Proof. unfold after. by rewrite app_nil_r. Qed.

Lemma after_record ev s : after s [ev] (record ev s).
Proof. done. Qed.

Lemma after_trans s evs s1 evs' s2 : after s evs s1 -> after s1 evs' s2 -> after s (evs ++ evs') s2.
Proof. unfold after. intros (? & ? & ?) (? & ? & ?). rewrite app_assoc. split_and!; congruence. Qed.

(** Close a path of a check: name the calls made, then compute. *)
Ltac leaf :=
  simplify_eq;
  eexists;
  split; [first [apply after_nothing | apply after_record
                | eapply (after_trans _ [_] _ [_]); apply after_record] |];
  split; [simpl; rewrite ?String.eqb_refl; reflexivity |];
  split;
  [ intros Hx; try discriminate Hx; unfold unlisted; simpl; rewrite ?String.eqb_refl;
    repeat match goal with H : truthy _ = _ |- _ => rewrite H end;
    repeat match goal with H : decoded _ = _ |- _ => rewrite H end; run;
    repeat match goal with H : py_in _ _ = _ |- _ => rewrite H end; done
  | intros v' Hv'; by simplify_eq ].

(** Follow every path of a block of pure statements and queries. *)
Ltac explore :=
  repeat first
    [ match goal with
      | H : (@mbind M _ _ _ _ _) _ = _ |- _ => step H
      end
    | match goal with
      | H : decoded ?r = _ |- _ => tryif is_var r then fail else forget_response H
      end
    | match goal with
      | H : match py_in ?a ?b with _ => _ end = _ |- _ =>
          destruct (py_in a b) as [? | []] eqn:?; simplify_eq
      end
    | match goal with
      | H : (if ?c then _ else _) _ = _ |- _ =>
          first [is_var c; destruct c | progress simpl in H]
      end
    | match goal with
      | H : ?m ?s = (_, _) |- _ => progress norm H
      end ].

Lemma require_listed_run w path ref s x s1 :
  require_listed ref (_query w path "GET" None true) s = (x, s1) ->
  exists evs, after s evs s1
    /\ paths_in [path] evs = true
    /\ (x = Next tt -> unlisted evs path ref = false)
    /\ (forall v, x = Return v -> v = False_).
Proof.
  unfold require_listed. intros Hrun. destruct (truthy ref) eqn:Href; explore; leaf.
Qed.

Lemma require_iso_run w isoid s x s1 :
  require_iso w isoid s = (x, s1) ->
  exists evs, after s evs s1
    /\ paths_in ["iso/list"; "iso/list_public"] evs = true
    /\ (x = Next tt ->
        unlisted evs "iso/list" isoid && unlisted evs "iso/list_public" isoid = false)
    /\ (forall v, x = Return v -> v = False_).
Proof.
  unfold require_iso, avail_acct_isos, avail_public_isos. intros Hrun.
  destruct (truthy isoid) eqn:Href; explore; leaf.
Qed.

Lemma require_url_run w url s x s1 :
  require_url w url s = (x, s1) ->
  s1 = s
  /\ (x = Next tt -> truthy url && negb (validators_url w (py_str url)) = false)
  /\ (forall v, x = Return v -> v = False_).
Proof.
  unfold require_url. intros Hrun.
  destruct (truthy url), (HAS_VALIDATORS w), (validators_url w (py_str url));
    explore; simplify_eq; split_and!; try done; by intros ? [= <-].
Qed.

Lemma require_bool_run pn s x s1 :
  require_bool pn s = (x, s1) -> s1 = s /\ forall v, x <> Return v.
Proof.
  unfold require_bool. intros Hrun.
  destruct (is_none pn), (is_bool pn); simpl in Hrun; explore; simplify_eq; done.
Qed.

Lemma keys_loop_run available_keys key_list : forall s x s1,
  for_ key_list (fun key =>
    missing ← (if truthy (PyStr key) then not_listed (PyStr key) available_keys
               else mret false);
    when missing (return_ False_)) s = (x, s1) ->
  s1 = s
  /\ (x = Next tt ->
      existsb (fun key => truthy (PyStr key)
                          && match py_in (PyStr key) available_keys with
                             | inr listed => negb listed
                             | inl _ => false
                             end) key_list = false)
  /\ (forall v, x = Return v -> v = False_).
Proof.
  induction key_list as [| key keys IH]; intros s x s1 Hrun.
  { simpl in Hrun. norm Hrun. done. }
  rewrite for_cons in Hrun. step Hrun as Hbody.
  - apply IH in Hrun as (-> & Hok & Hret).
    destruct (truthy key) eqn:Hk; explore; simpl in *; rewrite ?Hk; simpl;
      repeat match goal with H : py_in _ _ = _ |- _ => rewrite H end; simpl; done.
  - destruct (truthy key) eqn:Hk; explore. split_and!; try done. by intros ? [= <-].
  - destruct (truthy key) eqn:Hk; explore. done.
Qed.

Lemma existsb_eq {A} (f g : A -> bool) l :
  (forall x, f x = g x) -> existsb f l = existsb g l.
Proof. intros H. induction l as [| x l IH]; simpl; [done |]. by rewrite H, IH. Qed.

Lemma require_keys_run w ssh_key_ids s x s1 :
  require_keys w ssh_key_ids s = (x, s1) ->
  exists evs, after s evs s1
    /\ paths_in ["sshkey/list"] evs = true
    /\ (x = Next tt ->
        existsb (fun key => unlisted evs "sshkey/list" (PyStr key)) (keys_of ssh_key_ids)
        = false)
    /\ (forall v, x = Return v -> v = False_).
Proof.
  unfold require_keys, avail_keys. intros Hrun.
  destruct (is_none ssh_key_ids) eqn:Hnone; simpl in Hrun.
  { norm Hrun. exists []. split; [apply after_nothing |]. split; [done |].
    split; [| done]. intros _. by destruct ssh_key_ids. }
  step Hrun as Hsplit.
  2:{ exists []. split; [apply after_nothing |]. done. }
  step Hrun as Hq; [forget_response Hq | forget_response Hq; leaf].
  apply keys_loop_run in Hrun as (-> & Hok & Hret).
  eexists. split; [apply after_record |]. split; [done |]. split; [| done].
  intros Hx. specialize (Hok Hx).
  destruct ssh_key_ids; try done. simpl in Hsplit. simplify_eq. simpl.
  unfold ok in Hsplit. simplify_eq.
  etrans; [| exact Hok]. apply existsb_eq. intros key. unfold unlisted. simpl.
  rewrite Hq. run. done.
Qed.

Lemma answer_app p e1 e2 :
  answer p (e1 ++ e2) = match answer p e1 with Some r => Some r | None => answer p e2 end.
Proof.
  induction e1 as [| ev e1 IH]; simpl; [done |].
  destruct ev; try done. by destruct (path =? p)%string.
Qed.

Lemma answer_outside ps p evs :
  paths_in ps evs = true -> existsb (String.eqb p) ps = false -> answer p evs = None.
Proof.
  intros Hin Hp. induction evs as [| ev evs IH]; simpl in *; [done |].
  apply andb_prop in Hin as [Hev Hin]. destruct ev; try done.
  destruct (path =? p)%string eqn:E; [| by apply IH].
  apply String.eqb_eq in E as ->. congruence.
Qed.

Lemma unlisted_app_l p ref e1 e2 :
  answer p e2 = None -> unlisted (e1 ++ e2) p ref = unlisted e1 p ref.
Proof. intros H. unfold unlisted. rewrite answer_app, H. by destruct (answer p e1). Qed.

Lemma unlisted_app_r p ref e1 e2 :
  answer p e1 = None -> unlisted (e1 ++ e2) p ref = unlisted e2 p ref.
Proof. intros H. unfold unlisted. by rewrite answer_app, H. Qed.

Lemma paths_in_app ps e1 e2 : paths_in ps (e1 ++ e2) = paths_in ps e1 && paths_in ps e2.
Proof. apply forallb_app. Qed.

Lemma paths_in_weaken ps ps' evs :
  (forall p, existsb (String.eqb p) ps = true -> existsb (String.eqb p) ps' = true) ->
  paths_in ps evs = true -> paths_in ps' evs = true.
Proof. intros H. apply forallb_weaken. intros []; try done. apply H. Qed.

Lemma paths_in_sub ps ps' evs :
  forallb (fun p => existsb (String.eqb p) ps') ps = true ->
  paths_in ps evs = true -> paths_in ps' evs = true.
Proof.
  intros H. apply paths_in_weaken. intros p Hp.
  apply existsb_exists in Hp as (q & Hq & ->%String.eqb_eq).
  rewrite forallb_forall in H. by apply H.
Qed.

(** [answer p evs = None] for a trace built from pieces with known paths. *)
Ltac no_answer :=
  rewrite ?answer_app;
  repeat match goal with
         | H : paths_in ?ps ?e = true |- context [answer ?p ?e] =>
             rewrite (answer_outside ps p e H eq_refl)
         end;
  reflexivity.

(** Reduce [unlisted] on a trace built from pieces to the piece that asked. *)
Ltac focus_unlisted :=
  repeat first
    [ rewrite unlisted_app_l by no_answer
    | rewrite unlisted_app_r by no_answer ].

Ltac sub_paths := eapply paths_in_sub; [| eassumption]; reflexivity.

(** What the checks do: they only ask the five listings; when they fall
    through no reference failed; when they return they return [False]. *)
Lemma check_references_run w vm_ o s x s1 :
  check_references w vm_ o s = (x, s1) ->
  exists evs, after s evs s1
    /\ paths_in reference_listings evs = true
    /\ (x = Next tt -> fails_validation w vm_ o evs = false)
    /\ (forall v, x = Return v -> v = False_).
Proof.
  unfold check_references, avail_scripts, avail_firewall_groups. intros Hrun.
  assert (forall evs, after s evs s1 -> paths_in reference_listings evs = true ->
            (forall v, x = Return v -> v = False_) -> x <> Next tt ->
            exists evs, after s evs s1
              /\ paths_in reference_listings evs = true
              /\ (x = Next tt -> fails_validation w vm_ o evs = false)
              /\ (forall v, x = Return v -> v = False_)) as Hexit.
  { intros evs ? ? ? ?. exists evs. done. }
  step Hrun as HA; apply require_listed_run in HA as (eA & HA & PA & UA & RA);
    [specialize (UA eq_refl)
    | eapply Hexit; [exact HA | sub_paths | done | done]
    | eapply Hexit; [exact HA | sub_paths | done | done]].
  step Hrun as HB; apply require_iso_run in HB as (eB & HB & PB & UB & RB);
    pose proof (after_trans _ _ _ _ _ HA HB) as HAB;
    [specialize (UB eq_refl)
    | eapply Hexit; [exact HAB | rewrite paths_in_app; apply andb_true_intro;
                                 split; sub_paths | done | done]
    | eapply Hexit; [exact HAB | rewrite paths_in_app; apply andb_true_intro;
                                 split; sub_paths | done | done]].
  assert (PAB : paths_in reference_listings (eA ++ eB) = true)
    by (rewrite paths_in_app; apply andb_true_intro; split; sub_paths).
  step Hrun as HC; apply require_url_run in HC as (-> & UC & RC);
    [specialize (UC eq_refl)
    | eapply Hexit; [exact HAB | done | done | done]
    | eapply Hexit; [exact HAB | done | done | done]].
  step Hrun as HD; apply require_listed_run in HD as (eD & HD & PD & UD & RD);
    pose proof (after_trans _ _ _ _ _ HAB HD) as HABD;
    assert (PABD : paths_in reference_listings ((eA ++ eB) ++ eD) = true)
      by (rewrite paths_in_app; apply andb_true_intro; split; [done | sub_paths]);
    [specialize (UD eq_refl)
    | eapply Hexit; [exact HABD | done | done | done]
    | eapply Hexit; [exact HABD | done | done | done]].
  step Hrun as HE; apply require_keys_run in HE as (eE & HE & PE & UE & RE);
    pose proof (after_trans _ _ _ _ _ HABD HE) as HABDE;
    assert (PABDE : paths_in reference_listings (((eA ++ eB) ++ eD) ++ eE) = true)
      by (rewrite paths_in_app; apply andb_true_intro; split; [done | sub_paths]);
    [specialize (UE eq_refl)
    | eapply Hexit; [exact HABDE | done | done | done]
    | eapply Hexit; [exact HABDE | done | done | done]].
  apply require_bool_run in Hrun as (-> & Hnr).
  exists (((eA ++ eB) ++ eD) ++ eE). split; [done |]. split; [done |].
  split; [| intros v ->; by destruct (Hnr v)].
  intros _. unfold fails_validation.
  rewrite (existsb_eq _ (fun key => unlisted eE "sshkey/list" (PyStr key)))
    by (intros key; by focus_unlisted).
  focus_unlisted. by rewrite UA, UB, UC, UD, UE.
Qed.

(** ** Resolution and assembly *)

Lemma resolve_run w vm_ field availkey keyname s x s1 :
  resolve w vm_ field availkey keyname s = (x, s1) ->
  (DETAILS s <> [] -> s1 = s) /\ __opts__ s1 = __opts__ s
  /\ (exists evs, trace s1 = trace s ++ evs /\ forallb is_catalog_query evs = true)
  /\ (forall v, x = Return v -> v = False_)
  /\ (forall v, x = Next v ->
      DETAILS s1 <> []
      /\ unresolved (DETAILS s1) vm_ field availkey keyname = false
      /\ exists key, dict_get (PyStr field) vm_ = Some key
                     /\ cached (DETAILS s1) key availkey keyname = Next v
                     /\ truthy v = true).
Proof.
  unfold resolve. intros Hrun.
  step Hrun as Hkey.
  2:{ split_and!; try done. exists []. by rewrite app_nil_r. }
  simpl in Hkey. destruct (dict_get field vm_) as [key |] eqn:Hget; [| done].
  unfold ok in Hkey. simplify_eq.
  step Hrun as Hlook; apply lookup_run in Hlook as (Hne & Ho & Hsame & Hev & Hc).
  - destruct Hc as [Hc | [? ?]]; [| done]. symmetry in Hc.
    destruct (truthy a0) eqn:Ht; simpl in Hrun; explore.
    + split_and!; try done. intros v [= <-]. split_and!; try done.
      * unfold unresolved. by rewrite Hget, Hc, Ht.
      * eauto.
    + split_and!; try done. by intros v [= <-].
  - destruct Hc as [Hc | [? ?]]; [| done]. unfold cached in Hc.
    destruct (DETAILS_field _ _ _ _); [destruct (is_KeyError _) |]; done.
  - simplify_eq. split_and!; try done.
Qed.

Lemma attach_userdata_run w o vm_ userdata kwargs s x s1 :
  attach_userdata w o vm_ userdata kwargs s = (x, s1) -> s1 = s /\ forall v, x <> Return v.
Proof.
  unfold attach_userdata, try_except. intros Hrun.
  unfold lift, mbind, M_bind, bind, mret, M_ret, ret, raise in Hrun.
  repeat (case_match; simplify_eq; try done).
Qed.

Lemma assemble_run w vm_ o osid vpsplanid dcid s x s1 :
  assemble w vm_ o osid vpsplanid dcid s = (x, s1) -> s1 = s /\ forall v, x <> Return v.
Proof.
  unfold assemble. cbv zeta. intros Hrun.
  step Hrun as E1; try done.
  step Hrun as E2; try done.
  step Hrun as E3; apply attach_userdata_run in E3 as [-> Hx]; try done.
Qed.

(** ** The block before the submission *)

Lemma set_driver_run vm_ s x s1 :
  set_driver vm_ s = (x, s1) ->
  s1 = s /\ (forall v, x <> Return v) /\ forall vm1, x = Next vm1 -> with_driver vm_ vm1.
Proof.
  unfold set_driver, with_driver. intros Hrun.
  destruct (dict_has _ _); [norm Hrun; naive_solver |].
  step Hrun as E; try done. naive_solver.
Qed.

Lemma topic_run vm_ what s x s1 :
  topic vm_ what s = (x, s1) -> s1 = s /\ forall v, x <> Return v.
Proof. unfold topic. intros Hrun. step Hrun as E; done. Qed.

Lemma fire_event_run description t s x s1 :
  fire_event description t s = (x, s1) ->
  (x = Next tt /\ s1 = record (EvFireEvent description t) s)
  \/ ((exists e, x = Raise e) /\ s1 = s).
Proof.
  unfold fire_event. intros Hrun. explore; eauto.
Qed.

Lemma setting_with_driver vm_ vm1 o name default :
  with_driver vm_ vm1 -> key_eqb (PyStr "driver") (PyStr name) = false ->
  setting vm1 o name default = setting vm_ o name default.
Proof.
  intros [-> | [p ->]] Hne; [done |].
  unfold setting, get_cloud_config_value. by rewrite dict_get_set_other.
Qed.

Lemma fails_validation_with_driver w vm_ vm1 o tr :
  with_driver vm_ vm1 -> fails_validation w vm1 o tr = fails_validation w vm_ o tr.
Proof.
  intros H. unfold fails_validation. by rewrite !(setting_with_driver vm_ vm1) by done.
Qed.

Lemma unresolved_with_driver d vm_ vm1 field availkey keyname :
  with_driver vm_ vm1 -> key_eqb (PyStr "driver") (PyStr field) = false ->
  unresolved d vm1 field availkey keyname = unresolved d vm_ field availkey keyname.
Proof.
  intros [-> | [p ->]] Hne; [done |]. unfold unresolved. by rewrite dict_get_set_other.
Qed.

Lemma answer_no_reference p evs :
  forallb no_reference_listing evs = true -> In p reference_listings -> answer p evs = None.
Proof.
  intros Hq Hp. induction evs as [| ev evs IH]; simpl in *; [done |].
  apply andb_prop in Hq as [Hev Hq]. destruct ev; try by apply IH.
  destruct (path =? p)%string eqn:E; [| by apply IH].
  apply String.eqb_eq in E as ->. unfold no_reference_listing in Hev. simpl in *.
  destruct Hp as [<- | [<- | [<- | [<- | [<- | []]]]]]; done.
Qed.

(** Calls that are not reference listings do not change what validation
    found. *)
Lemma fails_validation_app w vm_ o e1 e2 :
  forallb no_reference_listing e2 = true ->
  fails_validation w vm_ o (e1 ++ e2) = fails_validation w vm_ o e1.
Proof.
  intros Hq. unfold fails_validation.
  rewrite !unlisted_app_l by (apply answer_no_reference; simpl; tauto).
  f_equal. f_equal. apply existsb_eq. intros key.
  apply unlisted_app_l, answer_no_reference; simpl; tauto.
Qed.

Ltac stop := simplify_eq; split_and!; try done; try (intros ? [= <-]); eauto.

Lemma resolution_run w vm_ o s x s1 :
  (osid ← resolve w vm_ "image" "avail_images" "OSID";
   vpsplanid ← resolve w vm_ "size" "avail_sizes" "VPSPLANID";
   dcid ← resolve w vm_ "location" "avail_locations" "DCID";
   kwargs ← assemble w vm_ o osid vpsplanid dcid;
   mret (vm_, o, kwargs)) s = (x, s1) ->
  __opts__ s1 = __opts__ s
  /\ (DETAILS s <> [] -> s1 = s)
  /\ (exists evs, trace s1 = trace s ++ evs /\ forallb is_catalog_query evs = true)
  /\ (forall v, x = Return v -> v = False_)
  /\ (forall p, x = Next p ->
      p.1.1 = vm_ /\ p.1.2 = o /\ DETAILS s1 <> []
      /\ fails_resolution (DETAILS s1) vm_ = false
      /\ exists osid vpsplanid dcid,
           resolves_to (DETAILS s1) vm_ osid vpsplanid dcid
           /\ assemble w vm_ o osid vpsplanid dcid s1 = (Next p.2, s1)).
Proof.
  intros Hrun.
  step Hrun as H1; apply resolve_run in H1 as (Hs1 & Ho1 & Hev1 & Hr1 & Hn1);
    [| by stop | by stop].
  destruct (Hn1 _ eq_refl) as (Hd & Hu1 & Hk1). clear Hn1 Hr1.
  step Hrun as H2; apply resolve_run in H2 as (Hs2 & Ho2 & _ & Hr2 & Hn2);
    specialize (Hs2 Hd) as ->; [| by stop | by stop].
  destruct (Hn2 _ eq_refl) as (_ & Hu2 & Hk2). clear Hn2 Hr2.
  step Hrun as H3; apply resolve_run in H3 as (Hs3 & Ho3 & _ & Hr3 & Hn3);
    specialize (Hs3 Hd) as ->; [| by stop | by stop].
  destruct (Hn3 _ eq_refl) as (_ & Hu3 & Hk3). clear Hn3 Hr3.
  step Hrun as H4; pose proof H4 as H4'; apply assemble_run in H4' as [-> Hnr];
    [| by destruct (Hnr v) | by simplify_eq].
  simplify_eq. split_and!; try done.
  intros p [= <-]. split_and!; try done.
  - unfold fails_resolution. by rewrite Hu1, Hu2, Hu3.
  - eexists _, _, _. split; [| done]. done.
Qed.

Lemma resolves_to_with_driver d vm_ vm1 osid vpsplanid dcid :
  with_driver vm_ vm1 ->
  resolves_to d vm1 osid vpsplanid dcid -> resolves_to d vm_ osid vpsplanid dcid.
Proof.
  intros [-> | [p ->]]; [done |]. unfold resolves_to.
  by rewrite !dict_get_set_other by done.
Qed.

(** What the block before the submission does.  It asks reference listings,
    then, only when no reference failed, it announces the creation, and
    only then it asks the catalog.  When it falls through, every required
    field resolved in the cache. *)
Ltac early evs :=
  simplify_eq; exists evs, []; rewrite ?app_nil_r;
  split_and!; try done; try (by left); try naive_solver.

Lemma prepare_run w vm_ s x s1 :
  prepare w vm_ s = (x, s1) ->
  exists evs1 evs2,
    trace s1 = trace s ++ evs1 ++ evs2
    /\ __opts__ s1 = __opts__ s
    /\ (DETAILS s <> [] -> DETAILS s1 = DETAILS s)
    /\ paths_in reference_listings evs1 = true
    /\ (evs2 = []
        \/ exists t evs3,
             evs2 = EvFireEvent "starting create" t :: evs3
             /\ forallb is_catalog_query evs3 = true
             /\ (DETAILS s <> [] -> evs3 = [])
             /\ fails_validation w vm_ (__opts__ s) evs1 = false)
    /\ (forall v, x = Return v -> v = False_)
    /\ (forall p, x = Next p ->
        evs2 <> [] /\ with_driver vm_ p.1.1 /\ p.1.2 = __opts__ s
        /\ DETAILS s1 <> [] /\ fails_resolution (DETAILS s1) vm_ = false
        /\ exists osid vpsplanid dcid,
             resolves_to (DETAILS s1) vm_ osid vpsplanid dcid
             /\ assemble w p.1.1 p.1.2 osid vpsplanid dcid s1 = (Next p.2, s1)).
Proof.
  unfold prepare. intros Hrun.
  step Hrun as Hdrv; apply set_driver_run in Hdrv as (-> & Hnr & Hwd);
    [| by destruct (Hnr v) | early (@nil event)].
  specialize (Hwd _ eq_refl).
  step Hrun as Hopts.
  step Hrun as Hchk;
    apply check_references_run in Hchk as (evs1 & (Hd1 & Ho1 & Ht1) & Hp1 & Hok & Hret);
    [| early evs1 | early evs1].
  specialize (Hok eq_refl). rewrite (fails_validation_with_driver _ vm_) in Hok by done.
  step Hrun as Htopic; apply topic_run in Htopic as (-> & Hnr1);
    [| by destruct (Hnr1 v) | early evs1].
  step Hrun as Hfire; apply fire_event_run in Hfire as [[? ->] | [[e' ?] ->]]; simplify_eq;
    try by early evs1.
  apply resolution_run in Hrun as (Ho & Hs & (evs3 & Ht3 & Hq3) & Hret3 & Hnext).
  exists evs1, (EvFireEvent "starting create" a0 :: evs3). split_and!.
  - rewrite Ht3. simpl. rewrite Ht1. by rewrite <- !app_assoc.
  - by rewrite Ho.
  - intros Hne. rewrite Hs; [done |]. simpl. congruence.
  - done.
  - right. eexists _, _. split_and!; try done.
    intros Hne. rewrite Hs in Ht3; [| simpl; congruence].
    by eapply app_inv_head; rewrite app_nil_r.
  - done.
  - intros p Hp. destruct (Hnext p Hp) as (E1 & E2 & Hd & Hf & osid & vps & dcid & Hres & Hasm).
    rewrite E1, E2. split_and!; try done.
    + unfold fails_resolution in *.
      by rewrite <- !(unresolved_with_driver _ vm_ a) by done.
    + exists osid, vps, dcid. split; [| done].
      by eapply resolves_to_with_driver.
Qed.

(** ** The submission and what follows *)

Lemma create_inv w vm_ s o s' :
  create w vm_ s = (o, s') ->
  exists x s1, prepare w vm_ s = (x, s1)
    /\ match x with
       | Next p => exists y, provision w p s1 = (y, s')
                             /\ o = match y with
                                    | Next _ => Next PyNone
                                    | Return v => Next v
                                    | Raise e => Raise e
                                    end
       | Return v => s' = s1 /\ o = Next v
       | Raise e => s' = s1 /\ o = Raise e
       end.
Proof.
  rewrite create_unfold. intros H.
  apply def_inv in H as [(u & H & ->) | [(v & H & ->) | (e & H & ->)]];
    (destruct (prepare w vm_ s) as [x s1] eqn:Hp; exists x, s1; split; [done |];
     unfold mbind, M_bind, bind in H; rewrite Hp in H; destruct x; simplify_eq; eauto).
Qed.

Lemma request_failed_run vm_ s x s1 :
  request_failed vm_ s = (x, s1) ->
  (exists t, s1 = record (EvFireEvent "instance request failed" t) s /\ x = Return False_)
  \/ (s1 = s /\ exists e, x = Raise e).
Proof.
  unfold request_failed. intros Hrun.
  step Hrun as Htopic; apply topic_run in Htopic as (-> & Hnr);
    [| by destruct (Hnr v) | simplify_eq; by eauto].
  step Hrun as Hfire; apply fire_event_run in Hfire as [[? ->] | [[e' ?] ->]]; simplify_eq;
    eauto.
Qed.

Ltac shape :=
  simplify_eq; eexists _, _; unfold record; simpl; rewrite <- ?app_assoc; simpl;
  (split; [reflexivity |]);
  (split; [first [by left | right; split; [by eexists | done]]
          | intros ? ?; by simplify_eq]).

Lemma request_instance_run w vm_ kwargs s x s1 :
  request_instance w vm_ kwargs s = (x, s1) ->
  DETAILS s1 = DETAILS s /\ __opts__ s1 = __opts__ s
  /\ (forall v, x = Return v -> v = False_)
  /\ ((trace s1 = trace s /\ exists e, x = Raise e)
      \/ exists t r rest,
           trace s1 = trace s ++ EvFireEvent "requesting instance" t
                        :: EvQuery "server/create" "POST" (Some (urlencode kwargs)) true r
                        :: rest
           /\ (rest = [] \/ exists t', rest = [EvFireEvent "instance request failed" t'])).
Proof.
  unfold request_instance. intros Hrun.
  step Hrun as Htopic; apply topic_run in Htopic as (-> & Hnr);
    [| by destruct (Hnr v) | simplify_eq; split_and!; first [done | left; by eauto]].
  step Hrun as Hfire; apply fire_event_run in Hfire as [[? ->] | [[e' ?] ->]]; simplify_eq;
    try (split_and!; first [done | left; by eauto]).
  unfold try_except in Hrun.
  match type of Hrun with context [?b ?s0] =>
    lazymatch b with mbind _ _ => destruct (b s0) as [xb sb] eqn:Hb end end.
  assert (exists r rest,
    sb = mkState (DETAILS s) (__opts__ s)
           (trace s ++ EvFireEvent "requesting instance" a
              :: EvQuery "server/create" "POST" (Some (urlencode kwargs)) true r :: rest)
    /\ (rest = []
        \/ (exists t', rest = [EvFireEvent "instance request failed" t'])
            /\ xb = Return False_)
    /\ (forall v, xb = Return v -> v = False_)) as (r & rest & -> & Hrest & Hret).
  { step Hb as Hq; [| shape].
    step Hb as Hst; [| shape].
    step Hb as Hcode; [| shape].
    unfold when in Hb. destruct (300 <=? a2).
    - apply request_failed_run in Hb as [(t' & -> & ->) | (-> & e' & ->)]; shape.
    - norm Hb. shape. }
  clear Hb. destruct xb as [u | v | e]; simplify_eq.
  - split_and!; try done.
    right. eexists _, _, _. split; [done |]. destruct Hrest as [-> | [? _]]; eauto.
  - split_and!; try done.
    right. eexists _, _, _. split; [done |]. destruct Hrest as [-> | [? _]]; eauto.
  - simpl in Hrun. destruct Hrest as [-> | [_ ?]]; [| done].
    apply request_failed_run in Hrun as [(t' & -> & ->) | (-> & e' & ->)]; simpl.
    + split_and!; try done; [by intros v [= <-] |].
      right. eexists _, _, _. rewrite <- app_assoc. simpl. split; [done |]. eauto.
    + split_and!; try done. right. eexists _, _, _. split; [done |]. eauto.
Qed.

(** ** The readiness stages *)

Lemma stages_app e1 e2 : stages (e1 ++ e2) = stages e1 ++ stages e2.
Proof. apply omap_app. Qed.

Lemma stages_no_wait evs : forallb no_wait evs = true -> stages evs = [].
Proof.
  induction evs as [| ev evs IH]; simpl; [done |]. intros [Hev Hq]%andb_prop.
  unfold stages in *. simpl. destruct ev; try done; by apply IH.
Qed.

Lemma staged_refl s : staged s s [].
Proof. exists []. by rewrite app_nil_r. Qed.

Lemma staged_trans s s1 s2 l1 l2 :
  staged s s1 l1 -> staged s1 s2 l2 -> staged s s2 (l1 ++ l2).
Proof.
  intros (e1 & H1 & <-) (e2 & H2 & <-). exists (e1 ++ e2).
  by rewrite H2, H1, app_assoc, stages_app.
Qed.

Lemma staged_moves s s1 : moves no_wait s s1 -> staged s s1 [].
Proof. intros [_ (evs & Ht & Hq)]. exists evs. split; [done | by apply stages_no_wait]. Qed.

Lemma polling_no_wait : allows_polling no_wait.
Proof. by split_and!. Qed.

Lemma wait_for_fun_run w p fun_ t s x s1 :
  obeys (moves no_wait) never fun_ ->
  wait_for_fun w p fun_ t s = (x, s1) ->
  DETAILS s1 = DETAILS s /\ staged s s1 [(p, t)] /\ forall v, x <> Return v.
Proof.
  intros Hf Hrun. unfold wait_for_fun in Hrun. step Hrun as Hemit.
  apply (moves_wait_loop no_wait never _ _ Hf) in Hrun as [[Hd (evs & Ht & Hq)] Hnever].
  split_and!; [done | | intros v ->; by apply (Hnever v)].
  exists (EvWaitForFun p t :: evs). split.
  - rewrite Ht. simpl. by rewrite <- app_assoc.
  - unfold stages. simpl. f_equal. by apply stages_no_wait.
Qed.

Lemma wait_for_fun_timeout_set k v vm_ o :
  key_eqb k (PyStr "wait_for_fun_timeout") = false ->
  wait_for_fun_timeout (dict_set k v vm_) o = wait_for_fun_timeout vm_ o.
Proof.
  intros Hk. unfold wait_for_fun_timeout, get_cloud_config_value.
  by rewrite dict_get_set_other.
Qed.

Lemma staged_cons s s1 s2 a l :
  staged s s1 [a] -> staged s1 s2 l -> staged s s2 (a :: l).
Proof. apply (staged_trans _ _ _ [a]). Qed.

Ltac chain :=
  first [ eassumption | apply staged_refl
        | eapply staged_cons; [eassumption | chain] ].

(** Close a path of [wait_until_ready] with the stages that ran on it. *)
Ltac ran :=
  simplify_eq; split_and!;
  [ congruence
  | eexists; split_and!;
    [ chain | by eexists | intros ? ?; by simplify_eq ]
  | intros ? ?; by simplify_eq ].

Lemma wait_until_ready_run w vm_ o s x s1 :
  wait_until_ready w vm_ o s = (x, s1) ->
  DETAILS s1 = DETAILS s
  /\ (exists l, staged s s1 l /\ l `prefix_of` readiness_stages vm_ o
                /\ forall a, x = Next a -> l = readiness_stages vm_ o)
  /\ forall v, x <> Return v.
Proof.
  unfold wait_until_ready, readiness_stages. cbv zeta. intros Hrun.
  pose proof (fun vm_ p => moves_probe w no_wait never vm_ p polling_no_wait) as Hprobe.
  step Hrun as H1; apply wait_for_fun_run in H1 as (Hd1 & Hs1 & Hn1);
    try exact (Hprobe _ Hostname); [| by destruct (Hn1 v) | ran].
  match type of Hrun with context [wait_for_default_password w ?vm] =>
    set (vm2 := vm) in * end.
  assert (wait_for_fun_timeout vm2 o = wait_for_fun_timeout vm_ o) as Ht2.
  { unfold vm2. destruct (truthy (setting vm_ o "ssh_username" False_));
      by rewrite !wait_for_fun_timeout_set by done. }
  clearbody vm2.
  destruct (truthy (setting vm_ o "password" False_)); simpl in Hrun.
  - step Hrun as Hvm.
    rewrite wait_for_fun_timeout_set, Ht2 in Hrun by done.
    step Hrun as H3; apply wait_for_fun_run in H3 as (Hd3 & Hs3 & Hn3);
      try exact (Hprobe _ Status); [| by destruct (Hn3 v) | ran].
    step Hrun as H4; apply wait_for_fun_run in H4 as (Hd4 & Hs4 & Hn4);
      try exact (Hprobe _ ServerState);
      [| by destruct (Hn4 v) | ran].
    ran.
  - rewrite Ht2 in Hrun.
    step Hrun as Hpw.
    + step Hpw as H2; apply wait_for_fun_run in H2 as (Hd2 & Hs2 & Hn2);
        try exact (Hprobe _ DefaultPassword); try done.
      rewrite wait_for_fun_timeout_set, Ht2 in Hrun by done.
      step Hrun as H3; apply wait_for_fun_run in H3 as (Hd3 & Hs3 & Hn3);
        try exact (Hprobe _ Status);
        [| by destruct (Hn3 v)
         | ran].
      step Hrun as H4; apply wait_for_fun_run in H4 as (Hd4 & Hs4 & Hn4);
        try exact (Hprobe _ ServerState);
        [| by destruct (Hn4 v)
         | ran].
      ran.
    + step Hpw as H2; apply wait_for_fun_run in H2 as (Hd2 & Hs2 & Hn2);
        try exact (Hprobe _ DefaultPassword); try done. by destruct (Hn2 v).
    + step Hpw as H2; apply wait_for_fun_run in H2 as (Hd2 & Hs2 & Hn2);
        try exact (Hprobe _ DefaultPassword); try done.
      ran.
Qed.

(** ** From the submission to the end *)

Lemma provision_moves w p Q :
  allows_provisioning Q -> obeys (moves Q) anything (provision w p).
Proof.
  intros (Hp & Hw & Hb & Hf & Hc). unfold provision.
  pose proof (moves_request_instance w Q p.1.1 p.2 Hc Hf) as H1.
  pose proof (fun vm_ => moves_bootstrap_and_report w Q vm_ Hp Hb (Hf _)) as H3.
  apply obeys_bind; [apply _ | eapply obeys_weaken; [| | exact H1]; done |].
  intros _. apply obeys_bind; [apply _ | by apply moves_wait_until_ready |].
  intros vm_. apply H3.
Qed.

Lemma phases_app e1 e2 : phases (e1 ++ e2) = phases e1 ++ phases e2.
Proof. apply omap_app. Qed.

Lemma submissions_app e1 e2 : submissions (e1 ++ e2) = submissions e1 ++ submissions e2.
Proof. apply omap_app. Qed.

Lemma phases_no_phase evs : forallb no_phase evs = true -> phases evs = [].
Proof.
  induction evs as [| ev evs IH]; simpl; [done |]. intros [Hev Hq]%andb_prop.
  unfold phases, no_phase in *. simpl. destruct (phase_of ev); [done | by apply IH].
Qed.

Lemma submissions_no_submission evs : forallb no_submission evs = true -> submissions evs = [].
Proof.
  induction evs as [| ev evs IH]; simpl; [done |]. intros [Hev Hq]%andb_prop.
  unfold submissions, no_submission in *. simpl. destruct ev; try by apply IH.
  simpl in Hev. destruct (path =? "server/create")%string; [done | by apply IH].
Qed.

(** A call that is neither a step of the order nor a wait nor a submission. *)
Lemma polling_quiet : allows_polling (fun ev => no_phase ev && no_submission ev).
Proof. by split_and!. Qed.

(** The submission is made at most once, with the assembled payload, and
    nothing else of what follows is a step of the order. *)
Lemma provision_submits w p s y s' :
  provision w p s = (y, s') ->
  exists evs, trace s' = trace s ++ evs
    /\ ((evs = [] /\ exists e, y = Raise e)
        \/ (submissions evs = [Some (urlencode p.2)] /\ phases evs = [Submission])).
Proof.
  unfold provision. intros Hrun. set (Q := fun ev => no_phase ev && no_submission ev).
  assert (forall evs, forallb Q evs = true -> submissions evs = [] /\ phases evs = []) as HQ.
  { intros evs H. split.
    - apply submissions_no_submission. eapply forallb_weaken; [| done].
      by intros ev [_ ?]%andb_prop.
    - apply phases_no_phase. eapply forallb_weaken; [| done].
      by intros ev [? _]%andb_prop. }
  step Hrun as Hreq; apply request_instance_run in Hreq as (Hd & Ho & Hret & Hshape).
  - destruct Hshape as [[_ [? ?]] | (t & r & rest & Ht & Hrest)]; [done |].
    assert (obeys (moves Q) anything
              (vm_ ← wait_until_ready w p.1.1 p.1.2; bootstrap_and_report w vm_)) as Hm.
    { apply obeys_bind;
        [apply _ | apply moves_wait_until_ready; [apply polling_quiet | done] |].
      intros vm_. apply moves_bootstrap_and_report; [apply polling_quiet | done | done]. }
    destruct (Hm _ _ _ Hrun) as [[_ (evs & Ht' & Hq)] _]. destruct (HQ _ Hq) as [Hsub Hph].
    eexists. split; [by rewrite Ht', Ht, <- app_assoc |]. right.
    rewrite submissions_app, phases_app, Hsub, Hph, !app_nil_r.
    by destruct Hrest as [-> | [t' ->]].
  - destruct Hshape as [[Ht [? ?]] | (t & r & rest & Ht & Hrest)]; [done |].
    simplify_eq. eexists. split; [done |]. right. by destruct Hrest as [-> | [t' ->]].
  - simplify_eq. destruct Hshape as [[Ht _] | (t & r & rest & Ht & Hrest)].
    + exists []. rewrite app_nil_r. split; [done |]. left. eauto.
    + eexists. split; [done |]. right. by destruct Hrest as [-> | [t' ->]].
Qed.

Lemma provision_stages w p s y s' :
  provision w p s = (y, s') ->
  exists l, staged s s' l /\ l `prefix_of` readiness_stages p.1.1 p.1.2
    /\ ((forall e, y <> Raise e) -> y <> Return False_ -> l = readiness_stages p.1.1 p.1.2).
Proof.
  unfold provision. intros Hrun.
  step Hrun as Hreq;
    apply (moves_request_instance w no_wait) in Hreq as [Hm Hret]; try done.
  - step Hrun as Hwait; apply wait_until_ready_run in Hwait as (_ & (l & Hs & Hp & Hl) & Hnr).
    + apply (moves_bootstrap_and_report w no_wait) in Hrun as [Hb _];
        try done; try apply polling_no_wait.
      exists l. split_and!; [| done | intros _ _; exact (Hl _ eq_refl)].
      apply (staged_trans s s0 s' [] l); [by apply staged_moves |].
      rewrite <- (app_nil_r l).
      apply (staged_trans s0 s1 s' l []); [done | by apply staged_moves].
    + by destruct (Hnr v).
    + simplify_eq. exists l. split_and!; [| done | intros H; by destruct (H e)].
      apply (staged_trans s s0 s' [] l); [by apply staged_moves | done].
  - simplify_eq. exists []. split_and!; [by apply staged_moves | by eexists |].
    intros _ H. destruct H. f_equal. by apply Hret.
  - simplify_eq. exists []. split_and!; [by apply staged_moves | by eexists |].
    intros H. by destruct (H e).
Qed.

(** ** What the calls before the submission are *)

Lemma listing_calls evs :
  paths_in reference_listings evs = true ->
  phases evs = replicate (length evs) Validation
  /\ submissions evs = [] /\ stages evs = []
  /\ forallb no_catalog_query evs = true.
Proof.
  induction evs as [| ev evs IH]; simpl; [done |]. intros [Hev Hq]%andb_prop.
  destruct (IH Hq) as (IH1 & IH2 & IH3 & IH4).
  unfold phases, submissions, stages in *. destruct ev; try done. simpl in Hev.
  rewrite !orb_true_iff, !String.eqb_eq in Hev.
  destruct Hev as [-> | [-> | [-> | [-> | [-> | ?]]]]]; try done; simpl;
    (split_and!; [congruence | done | done | done]).
Qed.

Lemma catalog_calls evs :
  forallb is_catalog_query evs = true ->
  phases evs = replicate (length evs) Resolution
  /\ submissions evs = [] /\ stages evs = []
  /\ forallb no_reference_listing evs = true.
Proof.
  induction evs as [| ev evs IH]; simpl; [done |]. intros [Hev Hq]%andb_prop.
  destruct (IH Hq) as (IH1 & IH2 & IH3 & IH4).
  unfold phases, submissions, stages in *. destruct ev; try done. simpl in Hev.
  rewrite !orb_true_iff, !String.eqb_eq in Hev.
  destruct Hev as [[-> | ->] | ->]; simpl;
    (split_and!; [congruence | done | done | done]).
Qed.

Lemma provisioning_no_reference_listing : allows_provisioning no_reference_listing.
Proof. by split_and!. Qed.

Lemma provisioning_no_catalog_query : allows_provisioning no_catalog_query.
Proof. by split_and!. Qed.

Lemma wait_for_fun_timeout_with_driver vm_ vm1 o :
  with_driver vm_ vm1 -> wait_for_fun_timeout vm1 o = wait_for_fun_timeout vm_ o.
Proof. intros [-> | [p ->]]; [done |]. by apply wait_for_fun_timeout_set. Qed.

Lemma readiness_stages_with_driver vm_ vm1 o :
  with_driver vm_ vm1 -> readiness_stages vm1 o = readiness_stages vm_ o.
Proof.
  intros H. unfold readiness_stages.
  by rewrite (wait_for_fun_timeout_with_driver vm_ vm1), (setting_with_driver vm_ vm1).
Qed.

(** ** Claims about the catalog cache *)

(** C10. Catalog resolution stringifies its lookup key before it indexes the
    cache: for every category, every field and every key, resolving the key
    and resolving its string form give the same result in the same state; in
    particular the integer 7 and the string "7" resolve alike. *)
Theorem lookup_stringifies_key (w : World) (availkey keyname : string) (s : state) :
  (forall which_key,
     _lookup_vultrid w which_key availkey keyname s
     = _lookup_vultrid w (PyStr (py_str which_key)) availkey keyname s)
  /\ _lookup_vultrid w (PyInt 7) availkey keyname s
     = _lookup_vultrid w (PyStr "7") availkey keyname s.
Proof. split; [intros which_key |]; reflexivity. Qed.

Lemma fetched_of_refresh tr rl ri rs il ii is_ availkey :
  tr = [EvQuery "regions/list" "GET" None true rl; EvQuery "os/list" "GET" None true ri;
        EvQuery "plans/list" "GET" None true rs] ->
  decoded rl ≫= py_items = ok il -> decoded ri ≫= py_items = ok ii ->
  decoded rs ≫= py_items = ok is_ ->
  In availkey ["avail_locations"; "avail_sizes"; "avail_images"] ->
  fetched tr (catalog_path availkey)
  = Some (if (availkey =? "avail_locations")%string then il
          else if (availkey =? "avail_images")%string then ii else is_).
Proof.
  intros -> Hl Hi Hs Hin. unfold fetched.
  destruct Hin as [<- | [<- | [<- | []]]]; simpl; by rewrite ?Hl, ?Hi, ?Hs.
Qed.

(** C2, as amended. After a refresh, for every category and every fetched
    entry whose identifier and display name are not also the identifier or
    the display name of another entry of the category, a lookup by the
    identifier and a lookup by the name give the same result, the requested
    field of that entry ([False] when the entry lacks it); and a key that is
    neither the identifier nor the name of any entry gives [False]. *)
Theorem lookup_by_id_and_by_name_agree (w : World) (o0 : dict) (v : pyval) (s' : state)
    (availkey keyname : string) (pre post : list (pyval * pyval))
    (key name : string) (entry : pyval) :
  _cache_provider_details w (start o0) = (Next v, s') ->
  In availkey ["avail_locations"; "avail_sizes"; "avail_images"] ->
  fetched (trace s') (catalog_path availkey) = Some (pre ++ (PyStr key, entry) :: post) ->
  py_getitem entry (PyStr "name") = ok (PyStr name) ->
  forallb (fun item => negb (clashes (PyStr key) (PyStr name) item)) (pre ++ post) = true ->
  _lookup_vultrid w (PyStr key) availkey keyname s' = (field_or_False entry keyname, s')
  /\ _lookup_vultrid w (PyStr name) availkey keyname s' = (field_or_False entry keyname, s')
  /\ forall which_key,
       forallb (fun item => negb (matches (PyStr (py_str which_key)) item))
         (pre ++ (PyStr key, entry) :: post) = true ->
       _lookup_vultrid w which_key availkey keyname s' = (Next False_, s').
Proof.
  intros Hrun Hin Hfetched Hname Hfree.
  apply refresh_run in Hrun as (Hne & _ & _ & _ & Hok).
  destruct (Hok eq_refl v eq_refl)
    as (rl & ri & rs & il & ii & is_ & cl & ci & cs & Ht & Hl & Hi & Hs & Hcl & Hci & Hcs & Hd).
  simpl in Ht.
  rewrite (fetched_of_refresh _ _ _ _ _ _ _ _ Ht Hl Hi Hs Hin) in Hfetched.
  assert (exists category,
            indexed (pre ++ (PyStr key, entry) :: post) [] = ok category
            /\ py_getitem (PyDict (DETAILS s')) (PyStr availkey) = ok (PyDict category))
    as (category & Hidx & Hcat).
  { rewrite Hd. destruct Hin as [<- | [<- | [<- | []]]]; simpl in Hfetched; simplify_eq;
      eexists; (split; [eassumption | reflexivity]). }
  rewrite forallb_app in Hfree. apply andb_prop in Hfree as [_ Hpost].
  destruct (indexed_lookup _ _ _ _ _ _ _ Hidx Hname Hpost) as [Hk Hn].
  rewrite !lookup_cached by done. unfold cached, DETAILS_field, field_or_False.
  run. rewrite Hcat. simpl. rewrite Hk, Hn. split; [done |]. split; [done |].
  intros which_key Hnone. rewrite lookup_cached by done. unfold cached, DETAILS_field.
  run. rewrite Hcat. simpl. by rewrite (indexed_untouched _ _ _ _ Hidx Hnone).
Qed.

(** The theorem applies to Amsterdam in the listing of the unit tests. *)
Lemma lookup_by_id_and_by_name_agree_witness :
  let s' := snd (_cache_provider_details Fixture.world (start Fixture.opts)) in
  _lookup_vultrid Fixture.world (PyStr "7") "avail_locations" "DCID" s' = (Next (PyStr "7"), s')
  /\ _lookup_vultrid Fixture.world (PyStr "Amsterdam") "avail_locations" "DCID" s'
     = (Next (PyStr "7"), s').
Proof.
  intros s'.
  destruct (lookup_by_id_and_by_name_agree Fixture.world Fixture.opts PyNone s'
              "avail_locations" "DCID"
              [(PyStr "1", Fixture.obj [("DCID", PyStr "1"); ("name", PyStr "New Jersey");
                                        ("country", PyStr "US"); ("regioncode", PyStr "EWR")])]
              [(PyStr "22", Fixture.obj [("DCID", PyStr "22"); ("name", PyStr "Toronto");
                                         ("country", PyStr "CA"); ("regioncode", PyStr "YTO")])]
              "7" "Amsterdam"
              (Fixture.obj [("DCID", PyStr "7"); ("name", PyStr "Amsterdam");
                            ("country", PyStr "NL"); ("regioncode", PyStr "AMS")]))
    as (H1 & H2 & _).
  - vm_compute. reflexivity.
  - simpl. tauto.
  - vm_compute. reflexivity.
  - reflexivity.
  - reflexivity.
  - split; [exact H1 | exact H2].
Defined.

(** C2, as stated, fails when the display name of one entry is the
    identifier of another: the location with identifier "1" is named "7";
    by its identifier it resolves to "1", by its name to "7". *)
Lemma lookup_by_id_and_by_name_differ :
  let s' := snd (_cache_provider_details (Fixture.world_with Fixture.clashing_locations)
                   (start Fixture.opts)) in
  fetched (trace s') "regions/list"
  = Some [(PyStr "1", Fixture.obj [("DCID", PyStr "1"); ("name", PyStr "7")]);
          (PyStr "7", Fixture.obj [("DCID", PyStr "7"); ("name", PyStr "Amsterdam")])]
  /\ fst (_lookup_vultrid (Fixture.world_with Fixture.clashing_locations)
            (PyStr "1") "avail_locations" "DCID" s') = Next (PyStr "1")
  /\ fst (_lookup_vultrid (Fixture.world_with Fixture.clashing_locations)
            (PyStr "7") "avail_locations" "DCID" s') = Next (PyStr "7")
  /\ _lookup_vultrid (Fixture.world_with Fixture.clashing_locations)
       (PyStr "1") "avail_locations" "DCID" s'
     <> _lookup_vultrid (Fixture.world_with Fixture.clashing_locations)
          (PyStr "7") "avail_locations" "DCID" s'.
Proof. vm_compute. repeat split. discriminate. Qed.

(** ** The order of the steps of [create] *)



(** C4, as the code has it.  [create] first validates the optional
    references, then emits the "starting create" notification, and only
    then resolves image, size and location through the catalog cache; the
    submission comes last.  Each step is a precondition for the next: the
    notification is emitted only when no reference failed validation, and
    the submission is made only when every required field resolved. *)
Theorem create_validates_announces_resolves w vm_ d o0 o s' :
  create w vm_ (resume d o0) = (o, s') ->
  exists n rest,
    phases (trace s') = replicate n Validation ++ rest
    /\ (rest = []
        \/ exists m rest',
             rest = Notification :: replicate m Resolution ++ rest'
             /\ fails_validation w vm_ o0 (trace s') = false
             /\ (rest' = []
                 \/ (rest' = [Submission]
                     /\ fails_resolution (DETAILS s') vm_ = false))).
Proof.
  intros Hrun. apply create_inv in Hrun as (x & s1 & Hprep & Hrest).
  apply prepare_run in Hprep
    as (evs1 & evs2 & Ht & Ho & _ & Hp1 & Hshape & Hret & Hnext).
  simpl in Ht, Ho, Hshape. destruct (listing_calls _ Hp1) as (Hph1 & _ & _ & _).
  exists (length evs1).
  assert (s' = s1 -> exists rest,
    phases (trace s') = replicate (length evs1) Validation ++ rest
    /\ (rest = []
        \/ exists m rest',
             rest = Notification :: replicate m Resolution ++ rest'
             /\ fails_validation w vm_ o0 (trace s') = false
             /\ (rest' = []
                 \/ (rest' = [Submission]
                     /\ fails_resolution (DETAILS s') vm_ = false)))) as Hstop.
  { intros ->. rewrite Ht, phases_app, Hph1.
    destruct Hshape as [-> | (t & evs3 & -> & Hq3 & _ & Hval)].
    - exists []. split; [done | by left].
    - destruct (catalog_calls _ Hq3) as (Hph3 & _ & _ & Hnr3).
      eexists. split; [done |]. right. exists (length evs3), [].
      rewrite app_nil_r. split_and!; [| | by left].
      { change (phases (?ev :: ?l)) with (Notification :: phases l). by rewrite Hph3. }
      by rewrite fails_validation_app. }
  destruct x as [p | v | e]; [| apply Hstop, Hrest | apply Hstop, Hrest].
  clear Hstop. destruct Hrest as (y & Hprov & _).
  destruct (Hnext _ eq_refl) as (Hne & _ & _ & _ & Hres & _).
  destruct Hshape as [-> | (t & evs3 & -> & Hq3 & _ & Hval)]; [done |].
  destruct (catalog_calls _ Hq3) as (Hph3 & _ & _ & Hnr3).
  pose proof Hprov as Hsub. apply provision_submits in Hsub as (evs & Ht' & Hsub).
  apply (provision_moves w p no_reference_listing provisioning_no_reference_listing)
    in Hprov as [[Hd (evs' & Ht'' & Hq)] _].
  assert (evs' = evs) as -> by (rewrite Ht' in Ht''; by apply app_inv_head in Ht'').
  eexists. rewrite Ht', Ht, !phases_app, Hph1, <- app_assoc. split; [done |].
  right. exists (length evs3), (phases evs). split_and!.
  - change (phases (?ev :: ?l)) with (Notification :: phases l). by rewrite Hph3.
  - rewrite <- !app_assoc, fails_validation_app; [done |].
    rewrite forallb_app. simpl. by rewrite Hnr3, Hq.
  - destruct Hsub as [[-> _] | [_ ->]]; [by left | right]. by rewrite Hd.
Qed.

Lemma create_validates_announces_resolves_witness :
  let run := create Fixture.world Fixture.scripted (resume [] Fixture.opts) in
  exists n rest,
    phases (trace run.2) = replicate n Validation ++ rest
    /\ (rest = []
        \/ exists m rest',
             rest = Notification :: replicate m Resolution ++ rest'
             /\ fails_validation Fixture.world Fixture.scripted Fixture.opts (trace run.2)
                = false
             /\ (rest' = []
                 \/ (rest' = [Submission]
                     /\ fails_resolution (DETAILS run.2) Fixture.scripted = false))).
Proof.
  intros run.
  apply (create_validates_announces_resolves Fixture.world Fixture.scripted []
           Fixture.opts run.1 run.2).
  vm_compute. reflexivity.
Defined.

(** C4, as the specification words it, fails.  In a run on an empty cache,
    for a request with a startup script, the steps come in the order
    validation, notification, resolution, submission: when the notification
    is emitted no catalog query has been made yet, and the catalog is
    queried after it. *)
Lemma create_announces_before_resolving :
  let tr := trace (create Fixture.world Fixture.scripted (start Fixture.opts)).2 in
  phases tr = [Validation; Notification; Resolution; Resolution; Resolution; Submission]
  /\ exists tr1 ev tr2,
       tr = tr1 ++ ev :: tr2
       /\ is_starting_notification ev = true
       /\ forallb no_catalog_query tr1 = true
       /\ existsb is_catalog_query tr2 = true.
Proof.
  split; [vm_compute; reflexivity |].
  eexists [_], _, _. split; [vm_compute; reflexivity |]. by vm_compute.
Qed.

(** C6.  The readiness stages a run of [create] starts are, in this order,
    the network address, the default password, the status and the server
    state, each with the timeout [wait_for_fun_timeout] configures; the
    password stage is left out exactly when the request supplies a
    password; a run may stop early, and a run that succeeds has started
    them all.  Without a configured timeout the timeout is 900 seconds. *)
Theorem create_drives_readiness_stages w vm_ d o0 o s' :
  create w vm_ (resume d o0) = (o, s') ->
  let t := wait_for_fun_timeout vm_ o0 in
  let expected :=
    (Hostname, t)
      :: (if truthy (setting vm_ o0 "password" False_) then [] else [(DefaultPassword, t)])
      ++ [(Status, t); (ServerState, t)] in
  stages (trace s') `prefix_of` expected
  /\ ((forall e, o <> Raise e) -> o <> Next False_ -> stages (trace s') = expected)
  /\ (dict_get (PyStr "wait_for_fun_timeout") vm_ = None ->
      dict_get (PyStr "wait_for_fun_timeout") o0 = None -> t = PyInt 900).
Proof.
  intros Hrun t expected. change expected with (readiness_stages vm_ o0).
  split_and!.
  3:{ intros H1 H2. unfold t, wait_for_fun_timeout, get_cloud_config_value.
      by rewrite H1, H2. }
  all: apply create_inv in Hrun as (x & s1 & Hprep & Hrest);
    apply prepare_run in Hprep
      as (evs1 & evs2 & Ht & Ho & _ & Hp1 & Hshape & Hret & Hnext);
    simpl in Ht, Ho, Hshape; destruct (listing_calls _ Hp1) as (_ & _ & Hst1 & _);
    assert (stages evs2 = []) as Hst2
      by (destruct Hshape as [-> | (t' & evs3 & -> & Hq3 & _ & _)]; [done |];
          by destruct (catalog_calls _ Hq3) as (_ & _ & ? & _));
    assert (stages (trace s1) = []) as Hnone by (by rewrite Ht, stages_app, Hst1, Hst2).
  - destruct x as [p | v | e]; [| destruct Hrest as [-> _] | destruct Hrest as [-> _]];
      try (rewrite Hnone; by eexists).
    destruct Hrest as (y & Hprov & _).
    destruct (Hnext _ eq_refl) as (_ & Hwd & Hopts & _).
    apply provision_stages in Hprov as (l & (evs & Ht' & <-) & Hpre & _).
    rewrite Hopts, (readiness_stages_with_driver vm_) in Hpre by done.
    by rewrite Ht', stages_app, Hnone.
  - intros Hraise Hfalse.
    destruct x as [p | v | e]; [| destruct Hrest as [-> ->] | destruct Hrest as [-> ->]].
    + destruct Hrest as (y & Hprov & ->).
      destruct (Hnext _ eq_refl) as (_ & Hwd & Hopts & _).
      apply provision_stages in Hprov as (l & (evs & Ht' & <-) & _ & Hall).
      rewrite Hopts, (readiness_stages_with_driver vm_) in Hall by done.
      rewrite Ht', stages_app, Hnone. simpl. apply Hall.
      * intros e ->. by destruct (Hraise e).
      * by intros ->.
    + destruct Hfalse. f_equal. by apply Hret.
    + by destruct (Hraise e).
Qed.

Lemma create_drives_readiness_stages_witness :
  let run := create Fixture.world Fixture.request (resume [] Fixture.opts) in
  stages (trace run.2)
  = [(Hostname, PyInt 900); (DefaultPassword, PyInt 900); (Status, PyInt 900);
     (ServerState, PyInt 900)].
Proof.
  intros run.
  pose proof (create_drives_readiness_stages Fixture.world Fixture.request []
                Fixture.opts run.1 run.2) as H.
  apply H; vm_compute; [reflexivity | by intros e | done].
Defined.

(** ** The catalog cache *)

(** C9.  A lookup leaves a cache that is not empty, and it leaves a cache
    that was not empty as it found it, together with the rest of the state.
    So after any lookup a later [create] in the same process keeps the
    cache, makes no catalog query, and every lookup after that answers
    from the same snapshot without a call. *)
Theorem cache_is_populated_once w key availkey keyname vm_ s o1 s1 o2 s2 :
  _lookup_vultrid w key availkey keyname s = (o1, s1) ->
  create w vm_ s1 = (o2, s2) ->
  DETAILS s1 <> []
  /\ (DETAILS s <> [] -> s1 = s)
  /\ DETAILS s2 = DETAILS s1
  /\ (exists evs, trace s2 = trace s1 ++ evs /\ forallb no_catalog_query evs = true)
  /\ forall key' availkey' keyname',
       _lookup_vultrid w key' availkey' keyname' s2
       = (cached (DETAILS s1) key' availkey' keyname', s2).
Proof.
  intros Hlook Hrun. apply lookup_run in Hlook as (Hne & _ & Hsame & _ & _).
  apply create_inv in Hrun as (x & s3 & Hprep & Hrest).
  apply prepare_run in Hprep
    as (evs1 & evs2 & Ht & Ho & Hd & Hp1 & Hshape & Hret & Hnext).
  specialize (Hd Hne). destruct (listing_calls _ Hp1) as (_ & _ & _ & Hq1).
  assert (forallb no_catalog_query evs2 = true) as Hq2.
  { destruct Hshape as [-> | (t' & evs3 & -> & _ & Hnil & _)]; [done |].
    by rewrite (Hnil Hne). }
  assert (DETAILS s2 = DETAILS s1
          /\ exists evs, trace s2 = trace s1 ++ evs /\ forallb no_catalog_query evs = true)
    as [Hd2 Hev].
  { destruct x as [p | v | e]; [| destruct Hrest as [-> _] | destruct Hrest as [-> _]];
      try (split; [done |]; exists (evs1 ++ evs2); by rewrite forallb_app, Hq1, Hq2).
    destruct Hrest as (y & Hprov & _).
    apply (provision_moves w p no_catalog_query provisioning_no_catalog_query)
      in Hprov as [[Hd' (evs & Ht' & Hq)] _].
    split; [congruence |]. exists ((evs1 ++ evs2) ++ evs).
    rewrite Ht', Ht, !forallb_app, Hq1, Hq2, Hq. by rewrite <- !app_assoc. }
  split_and!; try done.
  intros key' availkey' keyname'. rewrite lookup_cached by congruence. by rewrite Hd2.
Qed.

Lemma cache_is_populated_once_witness :
  let looked := _lookup_vultrid Fixture.world (PyStr "Amsterdam") "avail_locations" "DCID"
                  (start Fixture.opts) in
  let run := create Fixture.world Fixture.request looked.2 in
  DETAILS run.2 = DETAILS looked.2
  /\ submissions (trace run.2) <> [].
Proof.
  intros looked run.
  pose proof (cache_is_populated_once Fixture.world (PyStr "Amsterdam") "avail_locations"
                "DCID" Fixture.request (start Fixture.opts) looked.1 looked.2 run.1 run.2)
    as H.
  split; [apply H; vm_compute; reflexivity | by vm_compute].
Defined.

(** ** The payload of the submission *)

(** C7.  For the request of the scenario (name host1, image CentOS 8 x64,
    size 1024 MB RAM,25 GB SSD,1.00 TB BW, location Amsterdam), against a
    catalog in which these names resolve to OSID 362, VPSPLANID 201 and
    DCID 7, the only payload [create] ever submits carries exactly these
    identifiers and the host name, and a run that succeeds has submitted
    it. *)
Theorem scenario_payload w d o0 o s' osid vpsplanid dcid :
  create w Fixture.request (resume d o0) = (o, s') ->
  cached (DETAILS s') (PyStr "CentOS 8 x64") "avail_images" "OSID" = Next osid ->
  cached (DETAILS s') (PyStr "1024 MB RAM,25 GB SSD,1.00 TB BW") "avail_sizes" "VPSPLANID"
  = Next vpsplanid ->
  cached (DETAILS s') (PyStr "Amsterdam") "avail_locations" "DCID" = Next dcid ->
  quote_value osid = "362" -> quote_value vpsplanid = "201" -> quote_value dcid = "7" ->
  let payload :=
    "label=host1&OSID=362&VPSPLANID=201&DCID=7&hostname=host1&enable_private_network=no" in
  (submissions (trace s') = [] \/ submissions (trace s') = [Some payload])
  /\ ((forall e, o <> Raise e) -> o <> Next False_ -> submissions (trace s') = [Some payload]).
Proof.
  intros Hrun Himg Hsize Hloc Hq1 Hq2 Hq3 payload.
  apply create_inv in Hrun as (x & s1 & Hprep & Hrest).
  apply prepare_run in Hprep
    as (evs1 & evs2 & Ht & Ho & _ & Hp1 & Hshape & Hret & Hnext).
  simpl in Ht, Ho, Hshape. destruct (listing_calls _ Hp1) as (_ & Hsub1 & _ & _).
  assert (submissions (trace s1) = []) as Hnone.
  { rewrite Ht, submissions_app, Hsub1.
    destruct Hshape as [-> | (t & evs3 & -> & Hq & _ & _)]; [done |].
    destruct (catalog_calls _ Hq) as (_ & Hsub3 & _ & _). exact Hsub3. }
  destruct x as [p | v | e].
  2:{ destruct Hrest as [-> ->]. split; [by left |]. intros _ H. destruct H. f_equal.
      by apply Hret. }
  2:{ destruct Hrest as [-> ->]. split; [by left |]. intros H. by destruct (H e). }
  destruct Hrest as (y & Hprov & ->).
  destruct (Hnext _ eq_refl)
    as (_ & Hwd & Hopts & _ & _ & osid' & vps' & dcid' & Hres & Hasm).
  pose proof Hprov as Hsub. apply provision_submits in Hsub as (evs & Ht' & Hsub).
  apply (provision_moves w p no_catalog_query provisioning_no_catalog_query)
    in Hprov as [[Hd _] _].
  destruct Hres as ((k1 & Hk1 & Hc1 & _) & (k2 & Hk2 & Hc2 & _) & (k3 & Hk3 & Hc3 & _)).
  vm_compute in Hk1, Hk2, Hk3. simplify_eq. rewrite <- Hd in Hc1, Hc2, Hc3.
  rewrite Himg in Hc1. rewrite Hsize in Hc2. rewrite Hloc in Hc3. simplify_eq.
  assert (urlencode p.2 = payload) as Hpay.
  { destruct Hwd as [Hwd | [p0 Hwd]]; rewrite Hwd in Hasm;
      unfold Fixture.request in Hasm; cbv in Hasm; simplify_eq;
      match goal with H : ?l = _ |- urlencode ?kw = _ => replace kw with l by exact H end;
      unfold urlencode, join; cbn [map fst snd String.concat];
      rewrite Hq1, Hq2, Hq3; vm_compute; reflexivity. }
  rewrite Ht', submissions_app, Hnone, Hpay in *. simpl.
  split.
  - destruct Hsub as [[-> _] | [-> _]]; [by left | by right].
  - intros Hraise _. destruct Hsub as [[_ [e ->]] | [-> _]]; [| done].
    by destruct (Hraise e).
Qed.

Lemma scenario_payload_witness :
  let run := create Fixture.world Fixture.request (resume [] Fixture.opts) in
  submissions (trace run.2)
  = [Some "label=host1&OSID=362&VPSPLANID=201&DCID=7&hostname=host1&enable_private_network=no"].
Proof.
  intros run.
  pose proof (scenario_payload Fixture.world [] Fixture.opts run.1 run.2
                (PyInt 362) (PyStr "201") (PyStr "7")) as H.
  apply H; vm_compute; try reflexivity; [by intros e | done].
Defined.


(** ** User data *)

(** C3.  Whatever the file system holds, the user data [create] puts into
    the payload is the base64 encoding of the configured string itself:
    what was read from the file it names, and rendered, is overwritten.
    For the startup template of the fixture the payload carries the
    encoded path, not the encoded contents of the file. *)
Theorem userdata_file_is_overwritten w o vm_ path kwargs s :
  attach_userdata w o vm_ (PyStr path) kwargs s
  = (Next (dict_set (PyStr "userdata") (PyBytes (b64encode path)) kwargs), s)
  /\ submissions
       (trace (create Fixture.world Fixture.templated (start Fixture.opts)).2)
     = [Some ("label=host1&OSID=362&VPSPLANID=201&DCID=7&hostname=host1"
              ++ "&enable_private_network=no&userdata="
              ++ quote_plus (b64encode Fixture.userdata_path))%string]
  /\ b64encode Fixture.userdata_path <> b64encode Fixture.userdata_text.
Proof.
  split; [| split; [vm_compute; reflexivity | by vm_compute]].
  unfold attach_userdata, try_except. simpl.
  destruct (os_path_isfile w path); simpl; [| done].
  unfold mbind, M_bind, bind, lift, mret, M_ret, ret, raise.
  destruct (fopen_read w path) as [e | text]; simpl; [done |].
  destruct (userdata_template w o vm_ text) as [e | rendered]; simpl; [done |].
  by rewrite dict_set_set.
Qed.

(** ** The probes *)

(** C5.  Once the status of the instance is "active", [wait_for_status]
    hands out the default password of the instance, not its status; and
    once the server state is "ok", [wait_for_server_state] does the same. *)
Theorem status_probes_return_the_password w vm_ name s data s1 st :
  py_getitem (PyDict vm_) (PyStr "name") = inr name ->
  show_instance w name (PyStr "action") s = (Next data, s1) ->
  (py_get data (PyStr "status") (PyStr "") = inr st -> py_str st = "active" ->
   wait_for_status w vm_ s
   = (to_outcome (py_getitem data (PyStr "default_password")), s1))
  /\ (py_get data (PyStr "server_state") (PyStr "") = inr st -> py_str st = "ok" ->
      wait_for_server_state w vm_ s
      = (to_outcome (py_getitem data (PyStr "default_password")), s1)).
Proof.
  intros Hname Hshow. split; intros Hst Hactive;
    unfold wait_for_status, wait_for_server_state, def_;
    unfold mbind, M_bind, bind, lift, when, return_, mret, M_ret, ret, raise;
    rewrite Hname, Hshow, Hst, Hactive; simpl;
    by destruct (py_getitem data "default_password").
Qed.

Lemma status_probes_return_the_password_witness :
  (wait_for_status Fixture.world Fixture.request (start Fixture.opts)).1
  = Next (PyStr "c0Jkwj(p;&?4sY5Y")
  /\ (wait_for_server_state Fixture.world Fixture.request (start Fixture.opts)).1
     = Next (PyStr "c0Jkwj(p;&?4sY5Y").
Proof.
  pose proof (status_probes_return_the_password Fixture.world Fixture.request
                (PyStr "host1") (start Fixture.opts)) as H.
  split.
  - edestruct H as [-> _]; [reflexivity | vm_compute; reflexivity | vm_compute; reflexivity
                           | reflexivity | by vm_compute].
  - edestruct H as [_ ->]; [reflexivity | vm_compute; reflexivity | vm_compute; reflexivity
                           | reflexivity | by vm_compute].
Defined.

(** ** Destroying a server *)



(** * The rest of the driver *)

(** ** Listing the servers *)

Lemma list_nodes_full_run w s :
  list_nodes_full w s = (to_outcome (listed (servers w s)), record (asked_servers w s) s).
Proof.
  unfold list_nodes_full, def_. unfold mbind at 1, M_bind, bind.
  rewrite _query_run. cbv zeta. fold (servers w s). fold (asked_servers w s).
  unfold listed. destruct (decoded (servers w s)) as [e | nodes]; simpl; [done |].
  unfold mbind, M_bind, bind, lift, return_, ret, raise.
  destruct (py_iter nodes) as [e | keys]; simpl; [done |].
  by destruct (list_nodes_loop nodes keys (PyDict [])).
Qed.

(** What [show_instance] does for the listing [nodes]. *)
Lemma show_instance_run w name s :
  show_instance w name (PyStr "action") s
  = match listed (servers w s) with
    | inl e => (Raise e, record (asked_servers w s) s)
    | inr nodes =>
        match py_in name nodes with
        | inl e => (Raise e, record (asked_servers w s) s)
        | inr false => (Next (PyDict []), record (asked_servers w s) s)
        | inr true =>
            match py_getitem nodes name with
            | inl e => (Raise e, record (asked_servers w s) s)
            | inr node =>
                (Next node, record (EvCacheNode node) (record (asked_servers w s) s))
            end
        end
    end.
Proof.
  unfold show_instance, def_. unfold mbind at 1, M_bind, bind. simpl.
  unfold mbind at 1, M_bind, bind. rewrite list_nodes_full_run.
  destruct (listed (servers w s)) as [e | nodes]; simpl; [done |].
  unfold mbind, M_bind, bind, lift, when, return_, ret, raise, emit, mret, M_ret, ret.
  destruct (py_in name nodes) as [e | []]; simpl; try done.
  destruct (py_getitem nodes name) as [e | node]; simpl; done.
Qed.

Lemma store_in_set r name key v inner :
  hashable name = true -> hashable key = true ->
  dict_get name r = Some (PyDict inner) ->
  store_in (PyDict r) name key v
  = inr (PyDict (dict_set name (PyDict (dict_set key v inner)) r)).
Proof.
  intros Hn Hk Hget. unfold store_in, py_getitem, py_setitem. by rewrite Hn, Hget, Hk.
Qed.

Lemma list_node_ok nodes node r :
  fileable nodes node = true ->
  exists server label entry,
    dict_get node nodes = Some (PyDict server)
    /\ dict_get (PyStr "label") server = Some label /\ hashable label = true
    /\ full_entry node server = Some entry
    /\ list_node (PyDict nodes) node (PyDict r)
       = inr (PyDict (dict_set label (PyDict entry) r)).
Proof.
  unfold fileable. intros [Hn H]%andb_prop.
  destruct (dict_get node nodes) as [[| | | | | | server] |] eqn:Hserver; try done.
  apply andb_prop in H as [Hl He].
  destruct (dict_get "label" server) as [label |] eqn:Hlabel; [| done].
  destruct (full_entry node server) as [entry |] eqn:Hentry; [| done].
  exists server, label, entry. split_and!; try done.
  unfold full_entry in Hentry.
  destruct (dict_get "os" server) as [os |] eqn:Hos; [| done].
  destruct (dict_get "VPSPLANID" server) as [plan |] eqn:Hplan; [| done].
  destruct (dict_get "status" server) as [status |] eqn:Hstatus; [| done].
  destruct (dict_get "internal_ip" server) as [internal |] eqn:Hint; [| done].
  destruct (dict_get "main_ip" server) as [main |] eqn:Hmain; [| done].
  simpl in Hentry. simplify_eq.
  unfold list_node, mbind, result_bind. simpl.
  rewrite Hn, Hserver. simpl. rewrite Hlabel. simpl. rewrite Hl. simpl.
  rewrite Hos, Hplan, Hstatus, Hint, Hmain. simpl.
  repeat (erewrite store_in_set; [| done | done | by rewrite dict_get_set_eq]; simpl;
          rewrite ?dict_set_set by done).
  done.
Qed.

(** File one property of a server, in the hypothesis [H]. *)
Ltac file H :=
  match type of H with
  | context [store_in (PyDict ?d) ?label ?k ?v] =>
      erewrite (store_in_set d label k v) in H;
      [| done | done | by rewrite dict_get_set_eq]; rewrite ?dict_set_set in H by done;
      cbn beta iota in H
  end.

Lemma list_node_inv nodes node r ret' :
  list_node (PyDict nodes) node (PyDict r) = inr ret' -> fileable nodes node = true.
Proof.
  unfold list_node, mbind, result_bind, py_getitem at 1 3 4 6 8 10 12, ok, err. intros H.
  destruct (hashable node) eqn:Hn; [| done].
  destruct (dict_get node nodes) as [server |] eqn:Hserver; [| done].
  cbn beta iota in H.
  destruct server as [| | | | | | server]; try done.
  unfold py_getitem, py_copy, py_setitem, ok, err in H.
  cbn beta iota delta [hashable] in H.
  destruct (dict_get "label" server) as [label |] eqn:Hlabel; [| done].
  cbn beta iota in H.
  destruct (hashable label) eqn:Hl; cbn beta iota in H; [| done].
  file H. destruct (dict_get "os" server) as [os |] eqn:Hos; [| done].
  file H. destruct (dict_get "VPSPLANID" server) as [plan |] eqn:Hplan; [| done].
  file H. destruct (dict_get "status" server) as [status |] eqn:Hstatus; [| done].
  file H. destruct (dict_get "internal_ip" server) as [internal |] eqn:Hint; [| done].
  file H. destruct (dict_get "main_ip" server) as [main |] eqn:Hmain; [| done].
  unfold fileable, full_entry. rewrite Hn, Hserver, Hlabel, Hl. simpl.
  by rewrite Hos, Hplan, Hstatus, Hint, Hmain.
Qed.

(** ** Dictionaries, once more *)

Lemma dict_get_set k k' v d :
  dict_get k' (dict_set k v d) = if key_eqb k k' then Some v else dict_get k' d.
Proof.
  induction d as [| [k0 v0] d IH]; simpl; [done |].
  destruct (key_eqb k0 k) eqn:E; simpl.
  - destruct (key_eqb k k') eqn:E'.
    + by rewrite (key_eqb_trans _ _ _ E E').
    + destruct (key_eqb k0 k') eqn:E0; [| done].
      rewrite key_eqb_sym in E. pose proof (key_eqb_trans _ _ _ E E0). congruence.
  - rewrite IH. destruct (key_eqb k0 k') eqn:E0; [| done].
    destruct (key_eqb k k') eqn:E'; [| done].
    rewrite key_eqb_sym in E'. pose proof (key_eqb_trans _ _ _ E0 E'). congruence.
Qed.

Lemma dict_get_In k d v : dict_get k d = Some v -> exists k0, In (k0, v) d /\ key_eqb k0 k = true.
Proof.
  induction d as [| [k0 v0] d IH]; simpl; [done |].
  destruct (key_eqb k0 k) eqn:E.
  - intros [= ->]. eauto.
  - intros (k1 & Hin & Hk)%IH. eauto.
Qed.

Lemma dict_get_absent k d :
  existsb (fun k0 => key_eqb k0 k) (map fst d) = false -> dict_get k d = None.
Proof.
  induction d as [| [k0 v0] d IH]; simpl; [done |].
  intros [E H]%orb_false_elim. rewrite E. by apply IH.
Qed.

Lemma dict_get_present k d :
  In k (map fst d) -> hashable k = true -> exists v, dict_get k d = Some v.
Proof.
  induction d as [| [k0 v0] d IH]; simpl; [done |].
  intros [-> | Hin] Hk.
  - rewrite key_eqb_refl by done. eauto.
  - destruct (key_eqb k0 k); eauto.
Qed.

Lemma forallb_dict_set (A B : pyval -> bool) k v d :
  forallb (fun kv => A (fst kv) && B (snd kv)) d = true -> A k = true -> B v = true ->
  forallb (fun kv => A (fst kv) && B (snd kv)) (dict_set k v d) = true.
Proof.
  intros Hd Hk Hv. induction d as [| [k0 v0] d IH]; simpl in *.
  - by rewrite Hk, Hv.
  - apply andb_prop in Hd as [[H0 H1]%andb_prop Hd].
    destruct (key_eqb k0 k); simpl; rewrite H0; simpl.
    + by rewrite Hv, Hd.
    + by rewrite H1, IH.
Qed.

(** ** The full listing *)

Lemma full_entry_is_entry node server entry :
  full_entry node server = Some entry -> is_entry (PyDict entry) = true.
Proof.
  unfold full_entry. intros H.
  destruct (dict_get "os" server); [| done].
  destruct (dict_get "VPSPLANID" server); [| done].
  destruct (dict_get "status" server); [| done].
  destruct (dict_get "internal_ip" server); [| done].
  destruct (dict_get "main_ip" server); [| done].
  simpl in H. simplify_eq. unfold is_entry, brief_properties, dict_has. simpl.
  by rewrite !dict_get_set.
Qed.

Lemma filed_get name d entry :
  filed d = true -> dict_get name d = Some entry -> is_entry entry = true.
Proof.
  unfold filed. rewrite forallb_forall. intros Hd (k & Hin & _)%dict_get_In.
  by destruct (andb_prop _ _ (Hd _ Hin)).
Qed.

Lemma list_nodes_loop_dict nodes keys r :
  forallb (fileable nodes) keys = true -> filed r = true ->
  exists r', list_nodes_loop (PyDict nodes) keys (PyDict r) = inr (PyDict r')
             /\ filed r' = true.
Proof.
  revert r. induction keys as [| node keys IH]; simpl; intros r Hk Hr; [by eauto |].
  apply andb_prop in Hk as [Hnode Hk].
  destruct (list_node_ok nodes node r Hnode)
    as (server & label & entry & _ & _ & Hl & Hentry & ->).
  apply IH; [done |]. apply forallb_dict_set; [done.. |].
  by eapply full_entry_is_entry.
Qed.

Lemma list_nodes_loop_inv nodes keys r ret' :
  list_nodes_loop (PyDict nodes) keys (PyDict r) = inr ret' ->
  forallb (fileable nodes) keys = true.
Proof.
  revert r. induction keys as [| node keys IH]; simpl; intros r H; [done |].
  destruct (list_node (PyDict nodes) node (PyDict r)) as [e | ret1] eqn:Hnode; [done |].
  pose proof (list_node_inv _ _ _ _ Hnode) as Hf. rewrite Hf. simpl.
  destruct (list_node_ok nodes node r Hf) as (? & ? & ? & _ & _ & _ & _ & Heq).
  rewrite Heq in Hnode. simplify_eq. by eapply IH.
Qed.

Lemma list_node_getitem nodes node ret_ ret' :
  list_node nodes node ret_ = inr ret' ->
  exists server, py_getitem nodes node = inr (PyDict server).
Proof.
  unfold list_node, mbind, result_bind. intros H.
  destruct (py_getitem nodes node) as [e | n]; [done |].
  destruct n as [| | | | | l | server]; try done. by eauto.
Qed.

Lemma list_nodes_loop_getitem nodes keys ret_ ret' :
  list_nodes_loop nodes keys ret_ = inr ret' ->
  Forall (fun node => exists server, py_getitem nodes node = inr (PyDict server)) keys.
Proof.
  revert ret_. induction keys as [| node keys IH]; simpl; intros ret_ H; [done |].
  destruct (list_node nodes node ret_) as [e | ret1] eqn:Hnode; [done |].
  constructor; [by eapply list_node_getitem | by eapply IH].
Qed.

Lemma py_getitem_list_In l key v : py_getitem (PyList l) key = inr v -> In v l.
Proof.
  unfold py_getitem. intros H. destruct key as [| b | i | | | |]; try done.
  - destruct (nth_error l (if b then 1%nat else 0%nat)) eqn:E; [| done].
    injection H as <-. exact (nth_error_In _ _ E).
  - destruct (_ <? 0); [done |].
    destruct (nth_error l _) eqn:E; [| done]. injection H as <-.
    exact (nth_error_In _ _ E).
Qed.

(** Whatever the provider answers, a listing that [list_nodes_full] returns
    is a dictionary of entries. *)
Lemma listed_filed response ret_ :
  listed response = inr ret_ -> exists d, ret_ = PyDict d /\ filed d = true.
Proof.
  unfold listed, mbind, result_bind. intros H.
  destruct (decoded response) as [e | nodes]; [done |].
  destruct (py_iter nodes) as [e | keys] eqn:Hkeys; [done |].
  destruct keys as [| node keys]; [simpl in H; unfold ok in H; simplify_eq; by exists (@nil (pyval * pyval)) |].
  pose proof (list_nodes_loop_getitem _ _ _ _ H) as Hall.
  destruct nodes as [| | | | | l | nodes]; simpl in Hkeys; simplify_eq.
  - exfalso. pose proof Hall as Hfirst. apply Forall_inv in Hfirst as [server Hget].
    apply py_getitem_list_In in Hget. unfold ok in Hkeys. injection Hkeys as Hkeys.
    rewrite <- Hkeys in Hall.
    rewrite List.Forall_forall in Hall. destruct (Hall _ Hget) as [? Hx].
    by unfold py_getitem, err in Hx.
  - unfold ok in Hkeys. injection Hkeys as Hkeys.
    rewrite <- Hkeys in H. pose proof (list_nodes_loop_inv _ _ _ _ H) as Hf.
    destruct (list_nodes_loop_dict nodes (map fst nodes) [] Hf eq_refl) as (r' & Hr & ?).
    rewrite Hr in H. simplify_eq. eauto.
Qed.

(** ** The brief listing *)

Lemma brief_node_ok full node entry acc :
  hashable node = true -> dict_get node full = Some entry -> is_entry entry = true ->
  exists b, brief_entry entry = Some b
            /\ brief_node (PyDict full) node (PyDict acc)
               = inr (PyDict (dict_set node b acc)).
Proof.
  intros Hn Hentry He. destruct entry as [| | | | | | e]; try done.
  unfold is_entry, brief_properties, dict_has in He. simpl in He.
  destruct (dict_get "id" e) as [v1 |] eqn:H1; [| done].
  destruct (dict_get "image" e) as [v2 |] eqn:H2; [| done].
  destruct (dict_get "size" e) as [v3 |] eqn:H3; [| done].
  destruct (dict_get "state" e) as [v4 |] eqn:H4; [| done].
  destruct (dict_get "private_ips" e) as [v5 |] eqn:H5; [| done].
  destruct (dict_get "public_ips" e) as [v6 |] eqn:H6; [| done].
  eexists. split; [simpl; by rewrite H1, H2, H3, H4, H5, H6 |].
  unfold brief_node, brief_properties, mbind, result_bind, py_setitem. rewrite Hn.
  unfold ok. cbn [brief_props]. unfold mbind, result_bind, py_getitem.
  rewrite Hn, Hentry. cbn beta iota delta [hashable]. unfold ok.
  rewrite H1, H2, H3, H4, H5, H6.
  repeat (erewrite store_in_set; [| done | done | by rewrite dict_get_set_eq];
          rewrite ?dict_set_set by done; cbn beta iota).
  reflexivity.
Qed.

Lemma brief_nodes_loop_ok full keys seen acc :
  filed full = true -> Forall (fun k => In k (map fst full)) keys ->
  (forall name, dict_get name acc
     = if existsb (fun k => key_eqb k name) seen
       then dict_get name full ≫= brief_entry else None) ->
  exists brief,
    brief_nodes_loop (PyDict full) keys (PyDict acc) = inr (PyDict brief)
    /\ forall name, dict_get name brief
         = if existsb (fun k => key_eqb k name) (seen ++ keys)
           then dict_get name full ≫= brief_entry else None.
Proof.
  intros Hfull. revert seen acc.
  induction keys as [| node keys IH]; intros seen acc Hkeys Hacc.
  - exists acc. by rewrite app_nil_r.
  - apply Forall_cons in Hkeys as [Hin Hkeys].
    assert (hashable node = true) as Hn.
    { unfold filed in Hfull. rewrite forallb_forall in Hfull.
      apply in_map_iff in Hin as ([k v] & <- & Hin).
      by destruct (andb_prop _ _ (Hfull _ Hin)). }
    destruct (dict_get_present _ _ Hin Hn) as [entry Hentry].
    destruct (brief_node_ok full node entry acc Hn Hentry (filed_get _ _ _ Hfull Hentry))
      as (b & Hb & Hnode).
    simpl. rewrite Hnode.
    destruct (IH (seen ++ [node]) (dict_set node b acc) Hkeys) as (brief & Hloop & Hbrief).
    + intros name. rewrite dict_get_set, existsb_app, Hacc. simpl. rewrite orb_false_r.
      destruct (key_eqb node name) eqn:E.
      * rewrite orb_true_r, <- (dict_get_equal_keys _ _ _ E), Hentry. done.
      * by rewrite orb_false_r.
    + exists brief. split; [done |]. intros name. by rewrite Hbrief, <- app_assoc.
Qed.

(** [list_nodes] on top of a full listing that came back. *)
Lemma list_nodes_run w s full :
  listed (servers w s) = inr (PyDict full) ->
  exists brief,
    list_nodes w s = (Next (PyDict brief), record (asked_servers w s) s)
    /\ forall name, dict_get name brief = dict_get name full ≫= brief_entry.
Proof.
  intros Hfull. destruct (listed_filed _ _ Hfull) as (d & [= <-] & Hfiled).
  destruct (brief_nodes_loop_ok full (map fst full) [] [] Hfiled) as (brief & Hloop & Hbrief).
  { by apply List.Forall_forall. }
  { done. }
  exists brief. split.
  - unfold list_nodes, def_. unfold mbind at 1, M_bind, bind.
    rewrite list_nodes_full_run, Hfull. simpl.
    unfold mbind, M_bind, bind, lift, return_, ret. simpl. by rewrite Hloop.
  - intros name. rewrite Hbrief. simpl.
    destruct (existsb _ _) eqn:E; [done |]. by rewrite (dict_get_absent _ _ E).
Qed.

(** ** Running a block forwards *)

Lemma bind_lift {A B} (r : result A) (f : A -> M B) s :
  (lift r ≫= f) s = match r with inr a => f a s | inl e => (Raise e, s) end.
Proof. by destruct r. Qed.

Lemma bind_when {B} (c : bool) (body : M unit) (f : unit -> M B) s :
  (when c body ≫= f) s = if c then (body ≫= f) s else f tt s.
Proof. by destruct c. Qed.

Lemma bind_return_ {A B} v (f : A -> M B) s : (return_ v ≫= f) s = (Return v, s).
Proof. done. Qed.

Lemma bind_raise_ {A B} e (f : A -> M B) s : (raise e ≫= f) s = (Raise e, s).
Proof. done. Qed.

Lemma bind_mret {A B} (a : A) (f : A -> M B) s : (mret a ≫= f) s = f a s.
Proof. done. Qed.

Lemma bind_query {B} w path method data decode (f : pyval -> M B) s :
  (_query w path method data decode ≫= f) s
  = let response := http_query w (trace s) (query_url w s path) method data decode in
    match decoded response with
    | inr v => f v (record (EvQuery path method data decode response) s)
    | inl e => (Raise e, record (EvQuery path method data decode response) s)
    end.
Proof.
  unfold mbind, M_bind, bind. rewrite _query_run. cbv zeta.
  by destruct (decoded _).
Qed.

Lemma bind_assoc {A B C} (m : M A) (f : A -> M B) (g : B -> M C) s :
  ((m ≫= f) ≫= g) s = (m ≫= fun a => f a ≫= g) s.
Proof. unfold mbind, M_bind, bind. by destruct (m s) as [[] ?]. Qed.

(** ** Properties of the listings *)

Lemma list_nodes_loop_content nodes keys acc ret_ :
  list_nodes_loop (PyDict nodes) keys (PyDict acc) = inr (PyDict ret_) ->
  forall name, dict_get name ret_
    = match filed_under nodes keys name with
      | Some entry => Some entry
      | None => dict_get name acc
      end.
Proof.
  revert acc. induction keys as [| node keys IH]; simpl; intros acc H name.
  - unfold ok in H. by simplify_eq.
  - destruct (list_node (PyDict nodes) node (PyDict acc)) as [e | ret1] eqn:Hnode; [done |].
    pose proof (list_node_inv _ _ _ _ Hnode) as Hf.
    destruct (list_node_ok nodes node acc Hf)
      as (server & label & entry & Hserver & Hlabel & Hl & Hentry & Heq).
    rewrite Heq in Hnode. simplify_eq. rewrite (IH _ H name).
    destruct (filed_under nodes keys name); [done |].
    rewrite Hserver, Hlabel, Hentry, dict_get_set. simpl. by destruct (key_eqb label name).
Qed.

(** X1.  For a [server/list] answer that is a dictionary, [list_nodes_full]
    returns a listing exactly when every server of the answer is a
    dictionary with a hashable [label] and the fields [os], [VPSPLANID],
    [status], [internal_ip] and [main_ip]; otherwise it raises. *)
Theorem list_nodes_full_needs_complete_servers w s nodes :
  decoded (servers w s) = inr (PyDict nodes) ->
  (exists ret_, (list_nodes_full w s).1 = Next ret_)
  <-> forallb (fileable nodes) (map fst nodes) = true.
Proof.
  intros Hnodes. rewrite list_nodes_full_run. unfold listed. rewrite Hnodes. simpl. split.
  - intros [ret_ H]. destruct (list_nodes_loop _ _ _) as [e | r] eqn:Hloop; [done |].
    by eapply list_nodes_loop_inv.
  - intros Hf. destruct (list_nodes_loop_dict nodes (map fst nodes) [] Hf eq_refl)
      as (r & -> & _). by eexists.
Qed.

Lemma list_nodes_full_needs_complete_servers_witness :
  exists ret_, (list_nodes_full Fixture.world (start Fixture.opts)).1 = Next ret_.
Proof.
  eapply list_nodes_full_needs_complete_servers; [vm_compute; reflexivity |].
  vm_compute. reflexivity.
Defined.

(** X2.  The listing [list_nodes_full] returns is keyed by label: under a
    name it holds the record of the last server of the answer with this
    label, with [id], [image], [size], [state], [private_ips] and
    [public_ips] set from the server's key, [os], [VPSPLANID], [status],
    [internal_ip] and [main_ip]; an earlier server with the same label is
    not listed. *)
Theorem list_nodes_full_files_by_label w s nodes ret_ s' :
  decoded (servers w s) = inr (PyDict nodes) ->
  list_nodes_full w s = (Next ret_, s') ->
  exists full, ret_ = PyDict full
    /\ forall name, dict_get name full = filed_under nodes (map fst nodes) name.
Proof.
  intros Hnodes. rewrite list_nodes_full_run. intros H.
  destruct (listed (servers w s)) as [e | r] eqn:Hlisted; [done |]. simpl in H.
  simplify_eq. destruct (listed_filed _ _ Hlisted) as (full & -> & _).
  exists full. split; [done |]. intros name.
  unfold listed in Hlisted. rewrite Hnodes in Hlisted. simpl in Hlisted.
  rewrite (list_nodes_loop_content _ _ _ _ Hlisted name).
  by destruct (filed_under _ _ _).
Qed.

Lemma list_nodes_full_files_by_label_witness :
  exists full,
    (list_nodes_full Scene.twins (start Fixture.opts)).1 = Next (PyDict full)
    /\ (dict_get (PyStr "host1") full ≫= brief_entry)
       = Some (PyDict [(PyStr "id", PyStr "222"); (PyStr "image", PyStr "CentOS 8 x64");
                       (PyStr "size", PyStr "201"); (PyStr "state", PyStr "active");
                       (PyStr "private_ips", PyStr EmptyString);
                       (PyStr "public_ips", PyStr "192.0.2.2")]).
Proof.
  edestruct (list_nodes_full_files_by_label Scene.twins (start Fixture.opts))
    as (full & Hret & Hget); [vm_compute; reflexivity | vm_compute; reflexivity |].
  exists full. split.
  - rewrite <- Hret. vm_compute. reflexivity.
  - rewrite Hget. vm_compute. reflexivity.
Defined.

Lemma is_entry_brief entry : is_entry entry = true -> exists b, brief_entry entry = Some b.
Proof.
  destruct entry as [| | | | | | e]; try done.
  unfold is_entry, brief_properties, dict_has. simpl. intros H.
  destruct (dict_get "id" e); [| done]. destruct (dict_get "image" e); [| done].
  destruct (dict_get "size" e); [| done]. destruct (dict_get "state" e); [| done].
  destruct (dict_get "private_ips" e); [| done].
  destruct (dict_get "public_ips" e); [| done]. by eexists.
Qed.

(** X3.  Whenever [list_nodes_full] returns a listing, [list_nodes] returns
    one too, after the same single request: it has the same names, and
    under each name exactly the properties [id], [image], [size], [state],
    [private_ips] and [public_ips] of the full entry. *)
Theorem list_nodes_keeps_six_properties w s ret_ s' :
  list_nodes_full w s = (Next ret_, s') ->
  exists full brief,
    ret_ = PyDict full
    /\ list_nodes w s = (Next (PyDict brief), s')
    /\ forall name,
         dict_get name brief = dict_get name full ≫= brief_entry
         /\ dict_has name brief = dict_has name full.
Proof.
  rewrite list_nodes_full_run. intros H.
  destruct (listed (servers w s)) as [e | r] eqn:Hlisted; [done |]. simpl in H.
  simplify_eq. destruct (listed_filed _ _ Hlisted) as (full & -> & Hfiled).
  destruct (list_nodes_run w s full Hlisted) as (brief & Hrun & Hbrief).
  exists full, brief. split_and!; try done. intros name. split; [done |].
  unfold dict_has. rewrite Hbrief. destruct (dict_get name full) as [entry |] eqn:E; [| done].
  simpl. by destruct (is_entry_brief _ (filed_get _ _ _ Hfiled E)) as [b ->].
Qed.

Lemma list_nodes_keeps_six_properties_witness :
  exists brief,
    (list_nodes Fixture.world (start Fixture.opts)).1 = Next (PyDict brief)
    /\ dict_get (PyStr "host1") brief
       = Some (Fixture.obj
                 [("id", PyStr "42164666"); ("image", PyStr "CentOS 8 x64");
                  ("size", PyStr "201"); ("state", PyStr "active");
                  ("private_ips", PyStr EmptyString);
                  ("public_ips", PyStr "192.0.2.143")]).
Proof.
  edestruct (list_nodes_keeps_six_properties Fixture.world (start Fixture.opts))
    as (full & brief & Hret & Hrun & Hget); [vm_compute; reflexivity |].
  injection Hret as <-. exists brief. split; [by rewrite Hrun |].
  destruct (Hget (PyStr "host1")) as [-> _]. vm_compute. reflexivity.
Defined.

Lemma listed_array response l ret_ :
  decoded response = inr (PyList l) -> listed response = inr ret_ -> l = [].
Proof.
  unfold listed, mbind, result_bind. intros -> H. simpl in H.
  destruct l as [| node keys]; [done |]. exfalso.
  pose proof (list_nodes_loop_getitem _ _ _ _ H) as Hall.
  pose proof Hall as Hfirst. apply Forall_inv in Hfirst as [server Hget].
  apply py_getitem_list_In in Hget.
  rewrite List.Forall_forall in Hall. destruct (Hall _ Hget) as [? Hx].
  by unfold py_getitem, err in Hx.
Qed.

(** X4.  When the provider answers [server/list] with an array, as it does
    for an account without servers, [list_nodes_full] returns the empty
    listing for the empty array and raises for any other. *)
Theorem list_nodes_full_of_an_array w s l :
  decoded (servers w s) = inr (PyList l) ->
  (l = [] -> (list_nodes_full w s).1 = Next (PyDict []))
  /\ (l <> [] -> exists e, (list_nodes_full w s).1 = Raise e).
Proof.
  intros Hl. rewrite list_nodes_full_run. simpl. split.
  - intros ->. unfold listed. by rewrite Hl.
  - intros Hne. destruct (listed (servers w s)) as [e | r] eqn:Hlisted; [by eexists |].
    by destruct (Hne (listed_array _ _ _ Hl Hlisted)).
Qed.

Lemma list_nodes_full_of_an_array_witness :
  (list_nodes_full Scene.no_servers (start Fixture.opts)).1 = Next (PyDict []).
Proof.
  eapply list_nodes_full_of_an_array; [vm_compute; reflexivity | reflexivity].
Defined.

(** ** Properties of [show_instance], [destroy] and the probes *)

Lemma py_eqb_action call : py_eqb call (PyStr "action") = true -> call = PyStr "action".
Proof.
  destruct call as [| [] | z | c | c | l | d]; simpl; try done.
  by intros ->%String.eqb_eq.
Qed.

(** X5.  [show_instance] refuses any call other than an action before it
    asks the provider anything.  As an action it asks for the servers
    once; for a name that is not listed it returns the empty dictionary
    and caches nothing; for a listed name it caches the node, once, and
    returns that node; when it raises nothing is cached. *)
Theorem show_instance_caches_what_it_returns w name call s x s' :
  show_instance w name call s = (x, s') ->
  let s1 := record (asked_servers w s) s in
  (py_eqb call (PyStr "action") = false ->
   s' = s
   /\ x = Raise (SaltCloudSystemExit
                  "The show_instance action must be called with -a or --action."))
  /\ (py_eqb call (PyStr "action") = true ->
      match x with
      | Next node =>
          exists nodes, listed (servers w s) = inr nodes
            /\ ((py_in name nodes = inr false /\ node = PyDict [] /\ s' = s1)
                \/ (py_in name nodes = inr true /\ py_getitem nodes name = inr node
                    /\ s' = record (EvCacheNode node) s1))
      | Return _ => False
      | Raise e => s' = s1
      end).
Proof.
  intros Hrun s1. split; intros Hcall.
  - unfold show_instance, def_ in Hrun. unfold mbind at 1, M_bind, bind, when in Hrun.
    rewrite Hcall in Hrun. simpl in Hrun. unfold raise in Hrun. by simplify_eq.
  - apply py_eqb_action in Hcall as ->. rewrite show_instance_run in Hrun.
    destruct (listed (servers w s)) as [e | nodes]; [by simplify_eq |].
    destruct (py_in name nodes) as [e | []] eqn:Hin; [by simplify_eq | |].
    + destruct (py_getitem nodes name) as [e | node] eqn:Hget; simplify_eq; [done |].
      exists nodes. split; [done |]. right. done.
    + simplify_eq. exists nodes. split; [done |]. by left.
Qed.

Lemma show_instance_caches_what_it_returns_witness :
  let run := show_instance Fixture.world (PyStr "host9") (PyStr "action")
               (start Fixture.opts) in
  run.1 = Next (PyDict [])
  /\ forallb (fun ev => match ev with EvCacheNode _ => false | _ => true end) (trace run.2)
     = true.
Proof.
  intros run.
  pose proof (show_instance_caches_what_it_returns Fixture.world (PyStr "host9")
                (PyStr "action") (start Fixture.opts) run.1 run.2) as H.
  destruct H as [_ H]; [vm_compute; reflexivity |].
  specialize (H eq_refl). destruct run.1 as [node | v | e] eqn:E; [| done | by vm_compute in E].
  destruct H as (nodes & Hnodes & [(_ & -> & ->) | (Hin & _ & _)]).
  - split; [done |]. vm_compute. reflexivity.
  - vm_compute in Hnodes. injection Hnodes as <-. by vm_compute in Hin.
Defined.

(** X6.  [destroy] sends a destroy request only for a server the provider
    lists under the name, after it asked for the servers, and the request
    is a POST that carries the [SUBID] of this server and nothing else;
    for a name that is not listed, or a server without [SUBID], it raises
    [KeyError] and sends no destroy request. *)
Theorem destroy_only_listed_servers w name s x s' :
  destroy w name s = (x, s') ->
  exists evs, calls_between s s' evs
    /\ (existsb is_destroy_request evs = true ->
        exists nodes node subid response,
          listed (servers w s) = inr nodes
          /\ py_getitem nodes name = inr node
          /\ py_getitem node (PyStr "SUBID") = inr subid
          /\ evs = [asked_servers w s; EvCacheNode node;
                    EvQuery "server/destroy" "POST"
                      (Some (urlencode [(PyStr "SUBID", subid)])) false response])
    /\ (existsb is_destroy_request evs = false ->
        exists e, x = Raise e
          /\ ((exists nodes, listed (servers w s) = inr nodes
                             /\ py_in name nodes = inr false)
              -> e = KeyError (PyStr "SUBID"))).
Proof.
  unfold destroy, def_, calls_between. unfold mbind at 1, M_bind, bind.
  rewrite show_instance_run.
  destruct (listed (servers w s)) as [e | nodes] eqn:Hnodes.
  { intros [= <- <-]. exists [asked_servers w s]. split_and!; [done | done |].
    intros _. exists e. split; [done |]. by intros (? & ? & _). }
  destruct (py_in name nodes) as [e | []] eqn:Hin.
  { intros [= <- <-]. exists [asked_servers w s]. split_and!; [done | done |].
    intros _. exists e. split; [done |]. intros (? & [= <-] & ?); congruence. }
  2:{ unfold mbind at 1, M_bind, bind. simpl. intros [= <- <-].
      exists [asked_servers w s]. split_and!; [done | done |]. intros _. eexists.
      split; [done | done]. }
  destruct (py_getitem nodes name) as [e | node] eqn:Hnode.
  { intros [= <- <-]. exists [asked_servers w s]. split_and!; [done | done |].
    intros _. exists e. split; [done |]. intros (? & [= <-] & ?); congruence. }
  unfold mbind at 1, M_bind, bind, lift.
  destruct (py_getitem node "SUBID") as [e | subid] eqn:Hsubid.
  { simpl. intros [= <- <-]. exists [asked_servers w s; EvCacheNode node].
    split_and!; [simpl; by rewrite <- app_assoc | done |].
    intros _. exists e. split; [done |]. intros (? & [= <-] & ?); congruence. }
  unfold ret at 1. unfold mbind at 1, M_bind, bind. rewrite _query_run. cbv zeta.
  match goal with |- context [EvQuery _ _ _ _ ?r] => set (response := r) end.
  intros Hrun.
  exists [asked_servers w s; EvCacheNode node;
          EvQuery "server/destroy" "POST" (Some (urlencode [(PyStr "SUBID", subid)])) false
            response].
  split_and!.
  - assert (s' = record (EvQuery "server/destroy" "POST"
                           (Some (urlencode [(PyStr "SUBID", subid)])) false response)
                   (record (EvCacheNode node) (record (asked_servers w s) s))) as ->.
    { destruct (decoded response) as [e | result]; simpl in Hrun; [by simplify_eq |].
      unfold mbind, M_bind, bind, lift, when, return_, mret, M_ret, ret, raise in Hrun.
      repeat (case_match; simplify_eq; try done). }
    simpl. by rewrite <- !app_assoc.
  - intros _. by exists nodes, node, subid, response.
  - done.
Qed.

Lemma destroy_only_listed_servers_witness :
  let run := destroy Fixture.world (PyStr "host9") (start Fixture.opts) in
  run.1 = Raise (KeyError (PyStr "SUBID"))
  /\ existsb is_destroy_request (trace run.2) = false.
Proof.
  intros run.
  destruct (destroy_only_listed_servers Fixture.world (PyStr "host9")
              (start Fixture.opts) run.1 run.2) as (evs & Hevs & _ & Hnone);
    [vm_compute; reflexivity |].
  unfold calls_between in Hevs. simpl in Hevs.
  assert (existsb is_destroy_request evs = false) as Hq
    by (rewrite <- Hevs; vm_compute; reflexivity).
  destruct (Hnone Hq) as (e & He & Hkey). split; [| by vm_compute].
  rewrite He, Hkey; [done |]. eexists. split; vm_compute; reflexivity.
Defined.

(** X7.  For an instance the provider does not list, each of the four
    probes of [create] reports "not ready": it returns [False] after its
    pause (three seconds for the address, one second for the others) and
    does not fail; so [create] keeps polling for such an instance until
    the timeout. *)
Theorem probes_wait_for_an_unlisted_instance w vm_ name s nodes :
  py_getitem (PyDict vm_) (PyStr "name") = inr name ->
  listed (servers w s) = inr nodes ->
  py_in name nodes = inr false ->
  let s1 := record (asked_servers w s) s in
  wait_for_hostname w vm_ s = (Next False_, record (EvSleep 3) s1)
  /\ wait_for_default_password w vm_ s = (Next False_, record (EvSleep 1) s1)
  /\ wait_for_status w vm_ s = (Next False_, record (EvSleep 1) s1)
  /\ wait_for_server_state w vm_ s = (Next False_, record (EvSleep 1) s1).
Proof.
  intros Hname Hnodes Hin s1.
  split_and!;
    unfold wait_for_hostname, wait_for_default_password, wait_for_status,
      wait_for_server_state, def_;
    unfold mbind at 1 2, M_bind, bind, lift;
    rewrite Hname; unfold ret at 1; rewrite show_instance_run, Hnodes, Hin; done.
Qed.

Lemma probes_wait_for_an_unlisted_instance_witness :
  (wait_for_hostname Fixture.world [(PyStr "name", PyStr "host9")] (start Fixture.opts)).1
  = Next False_.
Proof.
  edestruct (probes_wait_for_an_unlisted_instance Fixture.world
               [(PyStr "name", PyStr "host9")] (PyStr "host9") (start Fixture.opts))
    as [-> _]; [reflexivity | vm_compute; reflexivity | vm_compute; reflexivity |].
  reflexivity.
Defined.

(** ** Properties of [show_keypair] *)

(** X8.  Without arguments, or without a [keyname] among them,
    [show_keypair] returns [False] and asks the provider nothing.  With a
    [keyname] it asks for the keys once and returns the key listed under
    that name; when no key is listed under it, or the key listed has no
    [SSHKEYID], it raises [KeyError] instead of returning [False]. *)
Theorem show_keypair_needs_a_listed_key w kwargs call s :
  ((truthy kwargs = false \/ py_in (PyStr "keyname") kwargs = inr false) ->
   show_keypair w kwargs call s = (Next (PyBool false), s))
  /\ (forall kw keyname keys,
        kwargs = PyDict kw -> dict_get (PyStr "keyname") kw = Some keyname ->
        hashable keyname = true ->
        decoded (keypairs w s) = inr (PyDict keys) ->
        let s1 := record (EvQuery "sshkey/list" "GET" None true (keypairs w s)) s in
        show_keypair w kwargs call s
        = match dict_get keyname keys with
          | None => (Raise (KeyError keyname), s1)
          | Some key =>
              match py_getitem key (PyStr "SSHKEYID") with
              | inr _ => (Next key, s1)
              | inl e => (Raise e, s1)
              end
          end).
Proof.
  split.
  - intros H. unfold show_keypair, def_.
    assert (py_in (PyStr "keyname") (if negb (truthy kwargs) then PyDict [] else kwargs)
            = inr false) as Hin.
    { destruct H as [-> | H]; [done |]. by destruct (truthy kwargs). }
    cbv zeta. unfold mbind at 1, M_bind, bind, lift. by rewrite Hin.
  - intros kw keyname keys -> Hkey Hhash Hkeys s1. unfold show_keypair, def_.
    assert (truthy (PyDict kw) = true) as -> by (by destruct kw).
    cbv zeta. cbn beta iota delta [negb].
    rewrite bind_lift. unfold py_in, dict_has. rewrite Hkey.
    cbn beta iota delta [hashable ok].
    rewrite bind_when. cbn beta iota delta [negb].
    unfold list_keypairs, avail_keys. rewrite bind_query. cbv zeta.
    fold (keypairs w s). rewrite Hkeys. fold s1.
    rewrite bind_lift. unfold py_getitem at 1. rewrite Hkey.
    cbn beta iota delta [hashable ok].
    rewrite bind_lift. unfold py_getitem at 1. rewrite Hhash.
    destruct (dict_get keyname keys) as [key |] eqn:Hget; [| done].
    cbn beta iota delta [ok].
    rewrite bind_lift. destruct (py_getitem key "SSHKEYID"); [done |].
    rewrite bind_lift. unfold py_getitem at 1. rewrite Hkey.
    cbn beta iota delta [hashable ok].
    rewrite bind_lift. unfold py_getitem at 1. by rewrite Hhash, Hget.
Qed.

Lemma show_keypair_needs_a_listed_key_witness :
  (show_keypair Fixture.world (PyDict []) PyNone (start Fixture.opts)).1
  = Next (PyBool false)
  /\ (show_keypair Fixture.world (PyDict [(PyStr "keyname", PyStr "6043ec83f126a")])
        PyNone (start Fixture.opts)).1
     = Next (Fixture.obj [("SSHKEYID", PyStr "6043ec83f126a");
                          ("name", PyStr "ed25519 SSH Key")])
  /\ (show_keypair Fixture.world (PyDict [(PyStr "keyname", PyStr "rsa")])
        PyNone (start Fixture.opts)).1
     = Raise (KeyError (PyStr "rsa")).
Proof.
  split_and!.
  - destruct (show_keypair_needs_a_listed_key Fixture.world (PyDict []) PyNone
                (start Fixture.opts)) as [H _].
    rewrite H; [done | by left].
  - edestruct (show_keypair_needs_a_listed_key Fixture.world
                 (PyDict [(PyStr "keyname", PyStr "6043ec83f126a")]) PyNone
                 (start Fixture.opts)) as [_ H].
    erewrite H; [| reflexivity | reflexivity | reflexivity | vm_compute; reflexivity].
    vm_compute. reflexivity.
  - edestruct (show_keypair_needs_a_listed_key Fixture.world
                 (PyDict [(PyStr "keyname", PyStr "rsa")]) PyNone
                 (start Fixture.opts)) as [_ H].
    erewrite H; [| reflexivity | reflexivity | reflexivity | vm_compute; reflexivity].
    vm_compute. reflexivity.
Defined.

(** ** Properties of the catalog cache *)

Lemma refresh_failure w s o s' :
  _cache_provider_details w s = (o, s') -> DETAILS s = [] ->
  exists evs, trace s' = trace s ++ evs
    /\ (existsb query_failed evs = true ->
        DETAILS s' = empty_catalog /\ exists e, o = Raise e).
Proof.
  unfold _cache_provider_details, avail_locations, avail_images, avail_sizes.
  intros Hrun Hempty.
  assert (forall u, def_ u s = (o, s') -> exists o', u s = (o', s')
            /\ (forall e, o' = Raise e -> o = Raise e)) as Hdef.
  { intros u [(x & H & ->) | [(v & H & ->) | (e & H & ->)]]%def_inv; eexists;
      (split; [done | by intros e' [= ->]]). }
  apply Hdef in Hrun as (o' & Hrun & Hraise). clear Hdef.
  do 6 (step Hrun). rewrite Hempty in Hrun. simpl dict_set in Hrun.
  fold empty_catalog in Hrun.
  step Hrun as Hl; [| simplify_eq; eexists; split; [done |]; eauto]. forget_response Hl.
  step Hrun as Hi.
  2:{ forget_response Hi. simplify_eq. eexists. split; [simpl; by rewrite <- app_assoc |].
      eauto. }
  forget_response Hi.
  step Hrun as Hs.
  2:{ forget_response Hs. simplify_eq. eexists.
      split; [simpl; by rewrite <- !app_assoc |]. eauto. }
  forget_response Hs.
  match type of Hrun with context [record ?a (record ?b (record ?c ?x))] =>
    set (s1 := record a (record b (record c x))) in * end.
  assert (trace s' = trace s1) as Hsame.
  { assert (Hs1' : DETAILS s1 = empty_catalog) by done. clearbody s1.
    step Hrun as Hil; [| by simplify_eq].
    step Hrun as Hxl;
      (eapply index_entries_run in Hxl as (Ho & Ht & (cl & Hd & Hcl) & Hnr);
       [| by rewrite Hs1']); [| by destruct (Hnr v) | by simplify_eq].
    step Hrun as Hii; [| by simplify_eq].
    step Hrun as Hxi;
      (eapply index_entries_run in Hxi as (Ho' & Ht' & (ci & Hd' & Hci) & Hnr');
       [| rewrite Hd, Hs1'; dict_solve]); [| by destruct (Hnr' v) | simplify_eq; congruence].
    step Hrun as His; [| simplify_eq; congruence].
    eapply index_entries_run in Hrun as (Ho'' & Ht'' & _);
      [| rewrite Hd', Hd, Hs1'; dict_solve].
    congruence. }
  eexists. split; [rewrite Hsame; subst s1; simpl; by rewrite <- !app_assoc |].
  simpl. by rewrite Hl, Hi, Hs.
Qed.

Lemma cached_empty_catalog key availkey keyname :
  cached empty_catalog key availkey keyname = Next False_.
Proof.
  unfold cached, DETAILS_field, empty_catalog, mbind, result_bind, py_getitem.
  cbn [dict_get key_eqb hashable].
  destruct (String.eqb "avail_locations" availkey); [done |].
  destruct (String.eqb "avail_sizes" availkey); [done |].
  by destruct (String.eqb "avail_images" availkey).
Qed.

(** X9.  When one of the three catalog requests of the first lookup fails,
    the lookup raises and the cache is left with its three categories
    empty.  The cache is then no longer empty, so no later lookup fetches
    again: every later lookup, for any key, category and field, returns
    [False] and asks the provider nothing. *)
Theorem a_failed_fetch_is_never_retried w key availkey keyname s x s1 evs :
  _lookup_vultrid w key availkey keyname s = (x, s1) ->
  DETAILS s = [] ->
  calls_between s s1 evs ->
  existsb query_failed evs = true ->
  (exists e, x = Raise e)
  /\ DETAILS s1 = empty_catalog
  /\ forall key' availkey' keyname',
       _lookup_vultrid w key' availkey' keyname' s1 = (Next False_, s1).
Proof.
  unfold calls_between. intros Hrun Hempty Hevs Hfailed.
  unfold _lookup_vultrid in Hrun.
  match type of Hrun with
  | def_ ?body _ = _ =>
      assert (forall O, body s = (O, s1) ->
                        (exists e, O = Raise e) /\ DETAILS s1 = empty_catalog) as Hbody
  end.
  { intros O H. step H as Hget. rewrite Hempty in H.
    step H as Hrefresh; step Hrefresh as Hf;
      pose proof (refresh_failure _ _ _ _ Hf Hempty) as (evs' & Ht & Hq).
    - exfalso.
      match type of Hf with _ = (_, ?s2) => assert (trace s1 = trace s2) as Hsame end.
      { cbv zeta in H. unfold try_except in H.
        unfold mbind, M_bind, bind, get_DETAILS, lift, return_, ret, raise in H.
        repeat (case_match; simplify_eq; try done). }
      rewrite Hsame, Ht in Hevs. apply app_inv_head in Hevs as <-.
      by destruct (Hq Hfailed) as [_ [? ?]].
    - exfalso. simplify_eq.
      rewrite Ht in Hevs. apply app_inv_head in Hevs as <-.
      by destruct (Hq Hfailed) as [_ [? ?]].
    - simplify_eq. rewrite Ht in Hevs. apply app_inv_head in Hevs as <-.
      destruct (Hq Hfailed) as [? _]. eauto. }
  assert ((exists e, x = Raise e) /\ DETAILS s1 = empty_catalog) as [Hx Hd].
  { apply def_inv in Hrun as [(u & Hrun & ->) | [(v & Hrun & ->) | (e & Hrun & ->)]];
      destruct (Hbody _ Hrun) as [[e' ?] ?]; simplify_eq; eauto. }
  split_and!; try done. intros key' availkey' keyname'.
  rewrite lookup_cached by (by rewrite Hd). by rewrite Hd, cached_empty_catalog.
Qed.

Lemma a_failed_fetch_is_never_retried_witness :
  let first := _lookup_vultrid Scene.flaky (PyStr "Amsterdam") "avail_locations" "DCID"
                 (start Fixture.opts) in
  first.1 = Raise (ExternalError "Connection timed out")
  /\ _lookup_vultrid Scene.flaky (PyStr "Amsterdam") "avail_locations" "DCID" first.2
     = (Next False_, first.2).
Proof.
  intros first.
  destruct (a_failed_fetch_is_never_retried Scene.flaky (PyStr "Amsterdam")
              "avail_locations" "DCID" (start Fixture.opts) first.1 first.2
              (trace first.2)) as (_ & _ & H);
    [vm_compute; reflexivity | reflexivity | reflexivity | vm_compute; reflexivity |].
  split; [vm_compute; reflexivity | apply H].
Defined.

Lemma indexed_sound key items : forall category category' entry,
  indexed items category = ok category' ->
  dict_get key category' = Some entry ->
  dict_get key category = Some entry
  \/ exists id, In (id, entry) items /\ matches key (id, entry) = true.
Proof.
  induction items as [| [k e] items IH]; intros c c' entry Hidx Hget; simpl in *.
  - unfold ok in Hidx. simplify_eq. by left.
  - unfold mbind, result_bind in Hidx.
    destruct (py_getitem e "name") as [| n] eqn:Hname; [done |].
    destruct (hashable n && hashable k); [| done].
    destruct (IH _ _ _ Hidx Hget) as [H | (id & Hin & Hm)]; [| by eauto].
    rewrite !dict_get_set in H.
    destruct (key_eqb k key) eqn:Ek.
    + simplify_eq. right. exists k. split; [by left |]. unfold matches. simpl. by rewrite Ek.
    + destruct (key_eqb n key) eqn:En; [| by left].
      simplify_eq. right. exists k. split; [by left |]. unfold matches. simpl.
      by rewrite Hname, En, orb_true_r.
Qed.

Lemma indexed_complete key items : forall category category',
  indexed items category = ok category' ->
  dict_has key category || existsb (matches key) items = true ->
  dict_has key category' = true.
Proof.
  induction items as [| [k e] items IH]; intros c c' Hidx H; simpl in *.
  - unfold ok in Hidx. simplify_eq. by rewrite orb_false_r in H.
  - unfold mbind, result_bind in Hidx.
    destruct (py_getitem e "name") as [| n] eqn:Hname; [done |].
    destruct (hashable n && hashable k); [| done].
    apply (IH _ _ Hidx). unfold dict_has in *. rewrite !dict_get_set.
    unfold matches in H at 1. simpl in H. rewrite Hname in H.
    destruct (key_eqb k key); [done |]. destruct (key_eqb n key); [done |].
    simpl in H. done.
Qed.

(** X10.  After a refresh that came back, a lookup by a key that is the
    identifier or the display name of no fetched entry of the category
    returns [False]; a lookup by any other key reads its field from a
    fetched entry that carries this key as its identifier or as its display
    name, and never from any other entry. *)
Theorem lookup_reads_a_matching_entry (w : World) (o0 : dict) (v : pyval) (s' : state)
    (availkey keyname : string) (items : list (pyval * pyval)) (key : pyval) :
  _cache_provider_details w (start o0) = (Next v, s') ->
  In availkey ["avail_locations"; "avail_sizes"; "avail_images"] ->
  fetched (trace s') (catalog_path availkey) = Some items ->
  (existsb (matches (PyStr (py_str key))) items = false ->
   _lookup_vultrid w key availkey keyname s' = (Next False_, s'))
  /\ (existsb (matches (PyStr (py_str key))) items = true ->
      exists id entry,
        In (id, entry) items /\ matches (PyStr (py_str key)) (id, entry) = true
        /\ _lookup_vultrid w key availkey keyname s' = (field_or_False entry keyname, s')).
Proof.
  intros Hrun Hin Hfetched.
  apply refresh_run in Hrun as (Hne & _ & _ & _ & Hok).
  destruct (Hok eq_refl v eq_refl)
    as (rl & ri & rs & il & ii & is_ & cl & ci & cs & Ht & Hl & Hi & Hs & Hcl & Hci & Hcs & Hd).
  simpl in Ht.
  rewrite (fetched_of_refresh _ _ _ _ _ _ _ _ Ht Hl Hi Hs Hin) in Hfetched.
  assert (exists category,
            indexed items [] = ok category
            /\ py_getitem (PyDict (DETAILS s')) (PyStr availkey) = ok (PyDict category))
    as (category & Hidx & Hcat).
  { rewrite Hd. destruct Hin as [<- | [<- | [<- | []]]]; simpl in Hfetched; simplify_eq;
      eexists; (split; [eassumption | reflexivity]). }
  rewrite lookup_cached by done. unfold cached, DETAILS_field, field_or_False.
  unfold mbind, result_bind. rewrite Hcat. unfold ok. cbn beta iota.
  assert (py_getitem (PyDict category) (PyStr (py_str key))
          = match dict_get (PyStr (py_str key)) category with
            | Some entry => inr entry
            | None => inl (KeyError (PyStr (py_str key)))
            end) as -> by reflexivity.
  destruct (dict_get (PyStr (py_str key)) category) as [entry |] eqn:Hget; split.
  - intros Hnone. pose proof (indexed_untouched (PyStr (py_str key)) items [] category Hidx)
      as Hu.
    assert (forallb (fun item => negb (matches (PyStr (py_str key)) item)) items = true)
      as Hall.
    { apply forallb_forall. intros item Hitem. apply negb_true_iff.
      destruct (matches _ item) eqn:E; [| done].
      assert (existsb (matches (PyStr (py_str key))) items = true)
        by (apply existsb_exists; eauto). congruence. }
    specialize (Hu Hall). simpl in Hu. congruence.
  - intros _. destruct (indexed_sound _ _ _ _ _ Hidx Hget) as [? | (id & Hitem & Hm)];
      [done |]. exists id, entry. by split_and!.
  - done.
  - intros Hsome. pose proof (indexed_complete (PyStr (py_str key)) items [] category Hidx)
      as Hc. unfold dict_has in Hc. rewrite Hget in Hc. simpl in Hc. by specialize (Hc Hsome).
Qed.

Lemma lookup_reads_a_matching_entry_witness :
  let s' := snd (_cache_provider_details (Fixture.world_with Fixture.clashing_locations)
                   (start Fixture.opts)) in
  exists id entry,
    matches (PyStr "7") (id, entry) = true
    /\ _lookup_vultrid (Fixture.world_with Fixture.clashing_locations)
         (PyInt 7) "avail_locations" "DCID" s'
       = (field_or_False entry "DCID", s').
Proof.
  intros s'.
  edestruct (lookup_reads_a_matching_entry (Fixture.world_with Fixture.clashing_locations)
               Fixture.opts PyNone s' "avail_locations" "DCID"
               [(PyStr "1", Fixture.obj [("DCID", PyStr "1"); ("name", PyStr "7")]);
                (PyStr "7", Fixture.obj [("DCID", PyStr "7"); ("name", PyStr "Amsterdam")])]
               (PyInt 7))
    as [_ H]; [vm_compute; reflexivity | simpl; tauto | vm_compute; reflexivity |].
  destruct H as (id & entry & _ & Hm & Hlook); [vm_compute; reflexivity |].
  exists id, entry. split; [exact Hm | exact Hlook].
Defined.

(** ** Properties of the payload *)

Lemma attach_userdata_string w o vm_ u kwargs s :
  attach_userdata w o vm_ (PyStr u) kwargs s
  = (Next (dict_set (PyStr "userdata") (PyBytes (b64encode u)) kwargs), s).
Proof.
  unfold attach_userdata, try_except. simpl.
  destruct (os_path_isfile w u); simpl; [| done].
  unfold mbind, M_bind, bind, lift, mret, M_ret, ret, raise.
  destruct (fopen_read w u) as [e | text]; simpl; [done |].
  destruct (userdata_template w o vm_ text) as [e | rendered]; simpl; [done |].
  by rewrite dict_set_set.
Qed.

(** X11.  For user data that is a string or absent, the payload [create]
    assembles is the list of [label], [OSID], [VPSPLANID], [DCID],
    [hostname] and [enable_private_network] ("yes" exactly when the setting
    is [True]), followed, in this order and each only when its setting is
    truthy, by [SCRIPTID], [ISOID] and [ipxe_chain_url], then the encoded
    user data, then [FIREWALLGROUPID] and [SSHKEYID]; nothing else is
    sent. *)
Theorem payload_lists_the_configured_fields w vm_ o osid vpsplanid dcid s kwargs s1 :
  assemble w vm_ o osid vpsplanid dcid s = (Next kwargs, s1) ->
  is_none (setting vm_ o "userdata" PyNone) = true
  \/ (exists u, setting vm_ o "userdata" PyNone = PyStr u) ->
  exists name,
    dict_get (PyStr "name") vm_ = Some name
    /\ kwargs
       = [(PyStr "label", name); (PyStr "OSID", osid); (PyStr "VPSPLANID", vpsplanid);
          (PyStr "DCID", dcid); (PyStr "hostname", name);
          (PyStr "enable_private_network",
           PyStr (if is_True (setting vm_ o "enable_private_network" False_)
                  then "yes" else "no"))]
         ++ optional "SCRIPTID" (setting vm_ o "startup_script_id" PyNone)
         ++ optional "ISOID" (setting vm_ o "isoid" PyNone)
         ++ optional "ipxe_chain_url" (setting vm_ o "ipxe_chain_url" False_)
         ++ encoded_userdata (setting vm_ o "userdata" PyNone)
         ++ optional "FIREWALLGROUPID" (setting vm_ o "firewall_group_id" PyNone)
         ++ optional "SSHKEYID" (setting vm_ o "ssh_key_names" PyNone).
Proof.
  unfold assemble. cbv zeta. intros Hrun Hdata.
  rewrite bind_lift in Hrun. unfold py_getitem in Hrun. cbn [hashable] in Hrun.
  destruct (dict_get "name" vm_) as [name |]; [| done]. cbn beta iota in Hrun.
  unfold ok in Hrun. rewrite bind_lift in Hrun. unfold py_getitem in Hrun.
  exists name. split; [done |]. unfold optional.
  set (private := if is_True _ then _ else _) in *. clearbody private.
  destruct Hdata as [Hnone | [u Hu]].
  - destruct (setting vm_ o "userdata" PyNone); try done.
    unfold attach_userdata in Hrun. simpl in Hrun.
    destruct (truthy (setting vm_ o "startup_script_id" PyNone));
      destruct (truthy (setting vm_ o "isoid" PyNone));
      destruct (truthy (setting vm_ o "ipxe_chain_url" False_));
      destruct (truthy (setting vm_ o "firewall_group_id" PyNone));
      destruct (truthy (setting vm_ o "ssh_key_names" PyNone));
      unfold mbind, M_bind, bind, mret, M_ret, ret in Hrun; simpl in Hrun;
      by simplify_eq.
  - rewrite Hu in *. rewrite bind_assoc || idtac.
    unfold mbind, M_bind, bind in Hrun. rewrite attach_userdata_string in Hrun.
    destruct (truthy (setting vm_ o "startup_script_id" PyNone));
      destruct (truthy (setting vm_ o "isoid" PyNone));
      destruct (truthy (setting vm_ o "ipxe_chain_url" False_));
      destruct (truthy (setting vm_ o "firewall_group_id" PyNone));
      destruct (truthy (setting vm_ o "ssh_key_names" PyNone));
      unfold mret, M_ret, ret in Hrun; simpl in Hrun; by simplify_eq.
Qed.

Lemma payload_lists_the_configured_fields_witness :
  let run := assemble Fixture.world Fixture.scripted Fixture.opts (PyInt 362) (PyStr "201")
               (PyStr "7") (start Fixture.opts) in
  exists kwargs,
    run.1 = Next kwargs
    /\ map fst kwargs
       = [PyStr "label"; PyStr "OSID"; PyStr "VPSPLANID"; PyStr "DCID"; PyStr "hostname";
          PyStr "enable_private_network"; PyStr "SCRIPTID"].
Proof.
  intros run. destruct run.1 as [kwargs | v | e] eqn:E; try by vm_compute in E.
  exists kwargs. split; [done |].
  destruct (payload_lists_the_configured_fields Fixture.world Fixture.scripted Fixture.opts
              (PyInt 362) (PyStr "201") (PyStr "7") (start Fixture.opts) kwargs run.2)
    as (name & _ & ->).
  - rewrite <- E. vm_compute. reflexivity.
  - left. reflexivity.
  - reflexivity.
Defined.

(** ** Properties of the checks of [create] *)

Lemma check_references_bool w vm_ o s s1 :
  check_references w vm_ o s = (Next tt, s1) ->
  is_none (setting vm_ o "enable_private_network" False_)
  || is_bool (setting vm_ o "enable_private_network" False_) = true.
Proof.
  unfold check_references. intros Hrun.
  do 5 (step Hrun; try done).
  unfold require_bool, when, raise in Hrun.
  destruct (is_none _); [done |]. simpl in *. by destruct (is_bool _).
Qed.

Lemma prepare_gate w vm_ s x s1 :
  prepare w vm_ s = (x, s1) ->
  (forall p, x = Next p ->
     dict_has (PyStr "driver") vm_ || dict_has (PyStr "provider") vm_ = true
     /\ is_none (setting vm_ (__opts__ s) "enable_private_network" False_)
        || is_bool (setting vm_ (__opts__ s) "enable_private_network" False_) = true
     /\ dict_has (PyStr "name") vm_ = true)
  /\ (is_none (setting vm_ (__opts__ s) "enable_private_network" False_)
      || is_bool (setting vm_ (__opts__ s) "enable_private_network" False_) = false ->
      exists evs, trace s1 = trace s ++ evs /\ paths_in reference_listings evs = true).
Proof.
  unfold prepare. intros Hrun.
  step Hrun as Hdrv.
  2:{ apply set_driver_run in Hdrv as (-> & Hnr & _). by destruct (Hnr v). }
  2:{ apply set_driver_run in Hdrv as (-> & _). simplify_eq. split; [done |].
      intros _. exists []. by rewrite app_nil_r. }
  assert (dict_has (PyStr "driver") vm_ || dict_has (PyStr "provider") vm_ = true) as Hkeys.
  { unfold set_driver in Hdrv. destruct (dict_has "driver" vm_); [done |].
    step Hdrv as Hp; [| done..]. unfold py_getitem in Hp. simpl in Hp. unfold dict_has.
    by destruct (dict_get "provider" vm_). }
  apply set_driver_run in Hdrv as (-> & _ & Hwd). specialize (Hwd _ eq_refl).
  step Hrun as Hopts.
  step Hrun as Hchk.
  - pose proof (check_references_bool _ _ _ _ _ Hchk) as Hbool.
    rewrite (setting_with_driver vm_) in Hbool by done.
    split; [| intros H; congruence].
    intros p ->. split_and!; try done.
    step Hrun as Htopic; [| done..]. unfold topic in Htopic.
    step Htopic as Hname; [| done..]. unfold py_getitem in Hname. simpl in Hname.
    destruct Hwd as [-> | [p0 ->]]; unfold dict_has;
      rewrite ?dict_get_set_other in Hname by done; by destruct (dict_get "name" vm_).
  - apply check_references_run in Hchk as (evs & (_ & _ & Ht) & Hp & _).
    simplify_eq. split; [done |]. intros _. by exists evs.
  - apply check_references_run in Hchk as (evs & (_ & _ & Ht) & Hp & _).
    simplify_eq. split; [done |]. intros _. by exists evs.
Qed.

(** X12.  When [enable_private_network] is set to something that is
    neither a boolean nor [None], as the string "yes", [create] ends in
    failure; the only calls it has made by then are reference listings:
    nothing is announced, resolved or submitted. *)
Theorem private_networking_must_be_a_boolean w vm_ d o0 o s' :
  create w vm_ (resume d o0) = (o, s') ->
  is_none (setting vm_ o0 "enable_private_network" False_) = false ->
  is_bool (setting vm_ o0 "enable_private_network" False_) = false ->
  failed o /\ paths_in reference_listings (trace s') = true.
Proof.
  intros Hrun Hnone Hbool. apply create_inv in Hrun as (x & s1 & Hprep & Hrest).
  pose proof (prepare_run _ _ _ _ _ Hprep) as (_ & _ & _ & _ & _ & _ & _ & Hret & _).
  apply prepare_gate in Hprep as [Hnext Hgate]. simpl in Hnext, Hgate.
  destruct Hgate as (evs & Ht & Hp); [by rewrite Hnone, Hbool |]. simpl in Ht.
  destruct x as [p | v | e].
  - destruct (Hnext p eq_refl) as (_ & H & _). by rewrite Hnone, Hbool in H.
  - destruct Hrest as [-> ->]. split; [| by rewrite Ht]. left. f_equal. by apply Hret.
  - destruct Hrest as [-> ->]. split; [| by rewrite Ht]. right. by eexists.
Qed.

Lemma private_networking_must_be_a_boolean_witness :
  (create Fixture.world Bad.private_string (resume [] Fixture.opts)).1
  = Raise (SaltCloudConfigError "'private_networking' should be a boolean value.").
Proof.
  destruct (private_networking_must_be_a_boolean Fixture.world Bad.private_string []
              Fixture.opts
              (create Fixture.world Bad.private_string (resume [] Fixture.opts)).1
              (create Fixture.world Bad.private_string (resume [] Fixture.opts)).2)
    as [[H | [e H]] _]; [vm_compute; reflexivity | reflexivity | reflexivity | |].
  - by vm_compute in H.
  - rewrite H. vm_compute in H. by injection H as <-.
Defined.

(** X13.  A request that lacks [name], [image], [size] or [location], or
    both [driver] and [provider], makes [create] end in failure before
    anything is submitted and before any readiness stage. *)
Theorem create_needs_the_required_fields w vm_ d o0 o s' :
  create w vm_ (resume d o0) = (o, s') ->
  forallb (fun field => dict_has (PyStr field) vm_) ["name"; "image"; "size"; "location"]
  && (dict_has (PyStr "driver") vm_ || dict_has (PyStr "provider") vm_) = false ->
  failed o /\ submissions (trace s') = [] /\ stages (trace s') = [].
Proof.
  intros Hrun Hmissing. apply create_inv in Hrun as (x & s1 & Hprep & Hrest).
  pose proof (prepare_run _ _ _ _ _ Hprep)
    as (evs1 & evs2 & Ht & _ & _ & Hp1 & Hshape & Hret & Hnext).
  apply prepare_gate in Hprep as [Hgate _]. simpl in Ht.
  destruct (listing_calls _ Hp1) as (_ & Hsub1 & Hst1 & _).
  assert (submissions evs2 = [] /\ stages evs2 = []) as [Hsub2 Hst2].
  { destruct Hshape as [-> | (t & evs3 & -> & Hq3 & _ & _)]; [done |].
    destruct (catalog_calls _ Hq3) as (_ & ? & ? & _). by split. }
  destruct x as [p | v | e].
  - exfalso. destruct (Hgate p eq_refl) as (Hdrv & _ & Hname).
    destruct (Hnext p eq_refl)
      as (_ & _ & _ & _ & _ & ? & ? & ? & ((? & Hi & _) & (? & Hs & _) & (? & Hl & _)) & _).
    simpl in Hmissing. unfold dict_has in Hmissing at 2 3 4.
    by rewrite Hname, Hi, Hs, Hl, Hdrv in Hmissing.
  - destruct Hrest as [-> ->]. rewrite Ht, submissions_app, stages_app, Hsub1, Hsub2, Hst1, Hst2.
    split_and!; try done. left. f_equal. by apply Hret.
  - destruct Hrest as [-> ->]. rewrite Ht, submissions_app, stages_app, Hsub1, Hsub2, Hst1, Hst2.
    split_and!; try done. right. by eexists.
Qed.

Lemma create_needs_the_required_fields_witness :
  (create Fixture.world Bad.sizeless (resume [] Fixture.opts)).1
  = Raise (KeyError (PyStr "size")).
Proof.
  destruct (create_needs_the_required_fields Fixture.world Bad.sizeless [] Fixture.opts
              (create Fixture.world Bad.sizeless (resume [] Fixture.opts)).1
              (create Fixture.world Bad.sizeless (resume [] Fixture.opts)).2)
    as [[H | [e H]] _]; [vm_compute; reflexivity | reflexivity | |].
  - by vm_compute in H.
  - rewrite H. vm_compute in H. by injection H as <-.
Defined.

(** ** Properties of the submission *)







(** ** Properties of the bootstrap *)

Lemma wait_until_ready_record w vm_ o s vm2 s1 :
  wait_until_ready w vm_ o s = (Next vm2, s1) ->
  (forall key, kept key = true -> dict_get key vm2 = dict_get key vm_)
  /\ (truthy (setting vm_ o "password" False_) = true ->
      dict_get (PyStr "password") vm2 = Some (setting vm_ o "password" False_))
  /\ (truthy (setting vm_ o "ssh_username" False_) = true ->
      dict_get (PyStr "ssh_username") vm2 = Some (setting vm_ o "ssh_username" False_))
  /\ dict_has (PyStr "ssh_host") vm2 = true /\ dict_has (PyStr "password") vm2 = true.
Proof.
  unfold wait_until_ready. cbv zeta. intros Hrun.
  step Hrun as H1; [| done..].
  set (user := setting vm_ o "ssh_username" False_) in *.
  set (pw := setting vm_ o "password" False_) in *.
  assert (forall pw',
    let vm3 := dict_set (PyStr "password") pw'
                 (if truthy user then dict_set (PyStr "ssh_username") user
                                        (dict_set (PyStr "ssh_host") a vm_)
                  else dict_set (PyStr "ssh_host") a vm_) in
    (forall key, kept key = true -> dict_get key vm3 = dict_get key vm_)
    /\ dict_get (PyStr "password") vm3 = Some pw'
    /\ (truthy user = true -> dict_get (PyStr "ssh_username") vm3 = Some user)
    /\ dict_has (PyStr "ssh_host") vm3 = true /\ dict_has (PyStr "password") vm3 = true)
    as Hrecord.
  { intros pw' vm3. subst vm3. unfold dict_has, kept. split_and!.
    - intros key (((H1' & H2')%andb_prop & H3')%andb_prop & H4')%andb_prop.
      apply negb_true_iff in H1', H2', H3', H4'.
      destruct (truthy user); rewrite !dict_get_set, ?H2', ?H3', ?H4'; done.
    - by rewrite dict_get_set.
    - intros ->. by rewrite !dict_get_set.
    - destruct (truthy user); rewrite !dict_get_set; done.
    - by rewrite dict_get_set. }
  destruct (truthy pw) eqn:Hpw; simpl in Hrun.
  - step Hrun as Hvm. step Hrun as H3; [| done..]. step Hrun as H4; [| done..].
    destruct (Hrecord pw) as (? & ? & ? & ? & ?). split_and!; try done.
  - step Hrun as Hvm; [| done..]. step Hvm as H2; [| done..].
    step Hrun as H3; [| done..]. step Hrun as H4; [| done..].
    destruct (Hrecord a1) as (? & ? & ? & ? & ?). split_and!; try done.
Qed.

Lemma bootstrap_and_report_run w vm2 s y s' :
  bootstrap_and_report w vm2 s = (y, s') ->
  exists o2 evs,
    trace s' = trace s ++ EvBootstrap vm2 o2 :: evs
    /\ forallb no_bootstrap evs = true
    /\ dict_has (PyStr "hard_timeout") o2 = true.
Proof.
  unfold bootstrap_and_report, get_configured_provider. intros Hrun.
  step Hrun as Hprov;
    unfold mbind, M_bind, bind, get_opts, mret, M_ret, ret in Hprov; simplify_eq.
  do 4 (step Hrun).
  match type of Hrun with
  | ?m ?st = _ =>
      assert (obeys (moves no_bootstrap) anything m) as Hm
  end.
  { assert (forall r, no_bootstrap (EvQuery "server/list" "GET" None true r) = true) by done.
    assert (forall n, no_bootstrap (EvCacheNode n) = true) by done.
    assert (forall d t, no_bootstrap (EvFireEvent d t) = true) by done.
    unfold show_instance, list_nodes_full, topic, fire_event. frame. }
  destruct (Hm _ _ _ Hrun) as [[_ (evs & Ht & Hq)] _]. simpl in Ht.
  eexists _, evs. split_and!; [by rewrite Ht, <- app_assoc | done |].
  unfold dict_has. by rewrite dict_get_set.
Qed.

Lemma no_bootstrap_in evs vm2 o2 :
  forallb no_bootstrap evs = true -> ~ In (EvBootstrap vm2 o2) evs.
Proof.
  rewrite forallb_forall. intros H Hin. by specialize (H _ Hin).
Qed.

(** X15.  [create] hands to the bootstrap the request record it was given,
    completed: every key other than [driver], [ssh_host], [ssh_username]
    and [password] is as in the request, [ssh_host] and [password] are set,
    a password or user name of the request is passed on unchanged, and the
    options carry [hard_timeout].  The bootstrap is reached only after all
    the readiness stages of the request were started. *)
Theorem bootstrap_gets_the_completed_request w vm_ d o0 o s' vm2 o2 :
  create w vm_ (resume d o0) = (o, s') ->
  In (EvBootstrap vm2 o2) (trace s') ->
  (forall key, kept key = true -> dict_get key vm2 = dict_get key vm_)
  /\ (truthy (setting vm_ o0 "password" False_) = true ->
      dict_get (PyStr "password") vm2 = Some (setting vm_ o0 "password" False_))
  /\ (truthy (setting vm_ o0 "ssh_username" False_) = true ->
      dict_get (PyStr "ssh_username") vm2 = Some (setting vm_ o0 "ssh_username" False_))
  /\ dict_has (PyStr "ssh_host") vm2 = true /\ dict_has (PyStr "password") vm2 = true
  /\ dict_has (PyStr "hard_timeout") o2 = true
  /\ stages (trace s') = readiness_stages vm_ o0.
Proof.
  intros Hrun Hin. apply create_inv in Hrun as (x & s1 & Hprep & Hrest).
  pose proof (prepare_run _ _ _ _ _ Hprep)
    as (evs1 & evs2 & Ht & _ & _ & Hp1 & Hshape & Hret & Hnext).
  simpl in Ht. destruct (listing_calls _ Hp1) as (_ & _ & Hst1 & _).
  assert (stages evs2 = [] /\ forallb no_bootstrap (evs1 ++ evs2) = true) as (Hst2 & Hboot).
  { assert (forallb no_bootstrap evs1 = true) as Hb1.
    { clear -Hp1. induction evs1 as [| ev evs IH]; [done |]. simpl in *.
      apply andb_prop in Hp1 as [Hev Hp]. destruct ev; try done. by apply IH. }
    rewrite forallb_app, Hb1.
    destruct Hshape as [-> | (t & evs3 & -> & Hq3 & _ & _)]; [done |].
    destruct (catalog_calls _ Hq3) as (_ & _ & ? & _). split; [done |]. simpl.
    clear -Hq3. induction evs3 as [| ev evs IH]; [done |]. simpl in *.
    apply andb_prop in Hq3 as [Hev Hq]. destruct ev; try done. by apply IH. }
  rewrite <- Ht in Hboot.
  destruct x as [p | v | e0];
    [| destruct Hrest as [-> ->]; by destruct (no_bootstrap_in _ _ _ Hboot Hin)
     | destruct Hrest as [-> ->]; by destruct (no_bootstrap_in _ _ _ Hboot Hin)].
  destruct Hrest as (y & Hprov & ->).
  destruct (Hnext _ eq_refl) as (_ & Hwd & Hopts & _).
  unfold provision in Hprov.
  destruct (request_instance w p.1.1 p.2 s1) as [xr sr] eqn:Hreq.
  pose proof (moves_request_instance w no_bootstrap p.1.1 p.2
                (fun _ _ => eq_refl) (fun _ _ => eq_refl) _ _ _ Hreq)
    as [[_ (evr & Htr & Hqr)] _].
  pose proof (moves_request_instance w no_wait p.1.1 p.2
                (fun _ _ => eq_refl) (fun _ _ => eq_refl) _ _ _ Hreq)
    as [[_ (evr' & Htr' & Hwr)] _].
  rewrite Htr in Htr'. apply app_inv_head in Htr' as <-.
  assert (forallb no_bootstrap (trace sr) = true) as Hbr
    by (by rewrite Htr, forallb_app, Hboot, Hqr).
  destruct xr as [[] | v | e0];
    [ rewrite (bind_next _ _ _ _ _ Hreq) in Hprov
    | rewrite (bind_return _ _ _ _ _ Hreq) in Hprov; simplify_eq;
      by destruct (no_bootstrap_in _ _ _ Hbr Hin)
    | rewrite (bind_raise _ _ _ _ _ Hreq) in Hprov; simplify_eq;
      by destruct (no_bootstrap_in _ _ _ Hbr Hin) ].
  destruct (wait_until_ready w p.1.1 p.1.2 sr) as [xw sw] eqn:Hwait.
  pose proof (moves_wait_until_ready w no_bootstrap anything p.1.1 p.1.2
                ltac:(by split_and!) (fun _ _ => eq_refl) _ _ _ Hwait)
    as [[_ (evw & Htw & Hqw)] _].
  assert (forallb no_bootstrap (trace sw) = true) as Hbw
    by (by rewrite Htw, forallb_app, Hbr, Hqw).
  pose proof (wait_until_ready_run _ _ _ _ _ _ Hwait)
    as (_ & (l & (evw' & Htw' & <-) & _ & Hl) & _).
  rewrite Htw in Htw'. apply app_inv_head in Htw' as <-.
  destruct xw as [vm3 | v | e0];
    [ rewrite (bind_next _ _ _ _ _ Hwait) in Hprov
    | rewrite (bind_return _ _ _ _ _ Hwait) in Hprov; simplify_eq;
      by destruct (no_bootstrap_in _ _ _ Hbw Hin)
    | rewrite (bind_raise _ _ _ _ _ Hwait) in Hprov; simplify_eq;
      by destruct (no_bootstrap_in _ _ _ Hbw Hin) ].
  specialize (Hl _ eq_refl).
  apply wait_until_ready_record in Hwait as (Hkept & Hpw & Huser & Hhost & Hpass).
  pose proof (bootstrap_and_report_run _ _ _ _ _ Hprov) as (o3 & evb & Htb & Hqb & Hhard).
  pose proof (moves_bootstrap_and_report w no_wait vm3 polling_no_wait
                (fun _ _ => eq_refl) (fun _ => eq_refl) _ _ _ Hprov)
    as [[_ (evb' & Htb' & Hwb)] _].
  rewrite Htb in Htb'. apply app_inv_head in Htb' as <-.
  assert (vm2 = vm3 /\ o2 = o3) as [-> ->].
  { rewrite Htb in Hin. apply in_app_iff in Hin as [Hin | [Hin | Hin]].
    - by destruct (no_bootstrap_in _ _ _ Hbw Hin).
    - by simplify_eq.
    - by destruct (no_bootstrap_in _ _ _ Hqb Hin). }
  rewrite Hopts in *. simpl in Hpw, Huser, Hl.
  rewrite !(setting_with_driver vm_ p.1.1) in * by done.
  rewrite (readiness_stages_with_driver vm_) in Hl by done.
  split_and!; try done.
  - intros key Hk. rewrite Hkept by done.
    destruct Hwd as [-> | [p0 ->]]; [done |]. rewrite dict_get_set.
    unfold kept in Hk. by destruct (key_eqb "driver" key).
  - rewrite Htb, Htw, Htr, Ht, !stages_app, Hst1, Hst2, Hl.
    rewrite (stages_no_wait _ Hwr), (stages_no_wait _ Hwb). simpl. by rewrite app_nil_r.
Qed.

Lemma bootstrap_gets_the_completed_request_witness :
  let run := create Fixture.world Fixture.request (resume [] Fixture.opts) in
  exists vm2 o2,
    In (EvBootstrap vm2 o2) (trace run.2)
    /\ dict_get (PyStr "image") vm2 = Some (PyStr "CentOS 8 x64")
    /\ dict_has (PyStr "password") vm2 = true.
Proof.
  intros run.
  assert (exists vm2 o2, In (EvBootstrap vm2 o2) (trace run.2)) as (vm2 & o2 & Hin).
  { vm_compute. eexists _, _. repeat (first [left; reflexivity | right]). }
  exists vm2, o2. split; [done |].
  destruct (bootstrap_gets_the_completed_request Fixture.world Fixture.request []
              Fixture.opts run.1 run.2 vm2 o2) as (Hkept & _ & _ & _ & Hpw & _);
    [vm_compute; reflexivity | done |].
  split; [| done]. by rewrite Hkept.
Defined.
